(** * pdf-merger: a shallow embedding of the merge workflow

    The repository is a command line tool that discovers the PDF files of a
    folder, derives an output name and concatenates the pages of the files
    into one document.  This development embeds

      - [config/constants.py] and [config/settings.py],
      - [utils/file_utils.py] and [utils/console.py],
      - [core/scanner.py], [core/merger.py], [core/orchestrator.py],
      - [cli/app.py], and
      - the standalone script [pdf_merger.py],

    and proves the properties the specification states about them.

    Modelling conventions.  A Python [str] is a [string]: the sequence of the
    bytes of its UTF-8 encoding.  Every character the code inspects (the nine
    characters of the sanitizing class, the underscore, the space, the dot
    and the letters of the extension) is ASCII, and UTF-8 keeps ASCII
    characters and the code point order, so the functions below act on the
    encoding as the source acts on the code points.  The one operation that
    depends on characters outside ASCII is the sort key of the discovery,
    [name.lower()]: the case mapping of the interpreter is not part of the
    repository, and the discovery takes it as a parameter.  The file system is a
    tree; what the PDF library does with a file is part of the file's
    content; console output is a list of lines, each with the style the
    messenger gives it (the colour codes and glyphs are not spelled out,
    and the banner box is reduced to its title). *)

From Stdlib Require Import String Ascii List Arith Lia Bool PeanoNat NArith.
From Stdlib Require Import Permutation Sorted ZArith QArith_base.
Import ListNotations.
Open Scope string_scope.
Open Scope list_scope.
Open Scope nat_scope.

(** ** Python string primitives *)

Module pystr.

(** [str.lower] on the ASCII letters: what [str.lower] does to a string
    whose cased letters are all ASCII. *)
Definition lower_char (c : ascii) : ascii :=
  let n := nat_of_ascii c in
  if (65 <=? n) && (n <=? 90) then ascii_of_nat (n + 32) else c.

Fixpoint lower (s : string) : string :=
  match s with
  | EmptyString => EmptyString
  | String c s' => String (lower_char c) (lower s')
  end.

(** [s.endswith(suffix)]: some tail of [s] is [suffix]. *)
Fixpoint endswith (s suffix : string) : bool :=
  (s =? suffix)%string ||
  match s with
  | EmptyString => false
  | String _ s' => endswith s' suffix
  end.

(** Membership of a character in the character set of [str.strip(chars)]. *)
Fixpoint mem (c : ascii) (chars : string) : bool :=
  match chars with
  | EmptyString => false
  | String d chars' => Ascii.eqb c d || mem c chars'
  end.

Fixpoint lstrip (chars s : string) : string :=
  match s with
  | EmptyString => EmptyString
  | String c s' => if mem c chars then lstrip chars s' else s
  end.

(** Trailing characters are dropped from the right end: a character goes
    exactly when it is in [chars] and everything after it goes too. *)
Fixpoint rstrip (chars s : string) : string :=
  match s with
  | EmptyString => EmptyString
  | String c s' =>
      match rstrip chars s' with
      | EmptyString => if mem c chars then EmptyString else String c EmptyString
      | r => String c r
      end
  end.

(** [s.strip(chars)] *)
Definition strip (chars s : string) : string := rstrip chars (lstrip chars s).

(** Decimal rendering of a natural number, as [str(n)] and an f-string
    field give it. *)
Definition digit (d : nat) : ascii := ascii_of_nat (48 + d).

Fixpoint decimal_fuel (fuel n : nat) (acc : string) : string :=
  match fuel with
  | O => acc
  | S fuel' =>
      let acc' := String (digit (n mod 10)) acc in
      if n <? 10 then acc' else decimal_fuel fuel' (n / 10) acc'
  end.

Definition decimal (n : nat) : string := decimal_fuel (S n) n EmptyString.

Fixpoint repeat_char (c : ascii) (k : nat) : string :=
  match k with
  | O => EmptyString
  | S k' => String c (repeat_char c k')
  end.

(** [s.rjust(width, fill)]: pad on the left up to [width]. *)
Definition rjust (width : nat) (fill : ascii) (s : string) : string :=
  repeat_char fill (width - String.length s) ++ s.

Definition is_digit (c : ascii) : bool :=
  let n := nat_of_ascii c in (48 <=? n) && (n <=? 57).

Fixpoint all_digits (s : string) : bool :=
  match s with
  | EmptyString => true
  | String c s' => is_digit c && all_digits s'
  end.

End pystr.

(** ** [config/constants.py] *)

Module constants.

Definition PDF_EXTENSION : string := ".pdf".
Definition MAX_PREVIEW_FILES : nat := 10.

(** [TIMESTAMP_PATTERN], the format [%Y%m%d_%H%M%S], is embedded as the
    formatter [file_utils.strftime_TIMESTAMP_PATTERN] below. *)

End constants.

(** ** Paths ([pathlib.Path]) *)

Module path.

(** A path is the list of its components below the root. *)
Definition Path := list string.

(** [path.name]: the last component, empty for the root. *)
Definition name (p : Path) : string := last p EmptyString.

(** [path.parent] *)
Definition parent (p : Path) : Path := removelast p.

(** [path / child] *)
Definition joinpath (p : Path) (child : string) : Path := p ++ [child].

(** [path.with_name(n)], for a path that has a name; [pathlib] raises on
    the root. *)
Definition with_name (p : Path) (n : string) : Path := parent p ++ [n].

(** Position of the last dot of a name, [name.rfind('.')]. *)
Fixpoint rfind_dot (s : string) : option nat :=
  match s with
  | EmptyString => None
  | String c s' =>
      match rfind_dot s' with
      | Some i => Some (S i)
      | None => if Ascii.eqb c "."%char then Some 0 else None
      end
  end.

(** [path.stem]: the name without its suffix.  A dot at position 0 or at
    the end of the name does not start a suffix. *)
Definition stem_of_name (n : string) : string :=
  match rfind_dot n with
  | Some i =>
      if (0 <? i) && (i <? String.length n - 1)
      then String.substring 0 i n else n
  | None => n
  end.

Definition stem (p : Path) : string := stem_of_name (name p).

Fixpoint eqb (p q : Path) : bool :=
  match p, q with
  | [], [] => true
  | a :: p', b :: q' => String.eqb a b && eqb p' q'
  | _, _ => false
  end.

End path.

(** ** [config/settings.py] *)

Module settings.

Record MergeSettings := {
  folder_path : path.Path;
  recursive : bool;
  output_name : option string;
  destination : option path.Path
}.

End settings.

(** ** The file system and the PDF library *)

Module fs.

(** A page object of the PDF library. *)
Definition Page := nat.

(** What reading a file gives: the pages that reach the writer, in file
    order, and the exception, if any, that ends the reading.  A file the
    library cannot parse at all has no page and a failure; a sound document
    has its pages and no failure. *)
Record PdfFile := {
  pages_read : list Page;
  failure : option string
}.

Inductive node :=
| File (content : PdfFile)
| Dir (entries : list (string * node)).

Definition entries_t := list (string * node).

Fixpoint assoc (nm : string) (es : entries_t) : option node :=
  match es with
  | [] => None
  | (nm', n) :: es' => if String.eqb nm nm' then Some n else assoc nm es'
  end.

(** The node a path denotes below [n]. *)
Fixpoint lookup (n : node) (p : path.Path) : option node :=
  match p with
  | [] => Some n
  | c :: p' =>
      match n with
      | Dir es =>
          match assoc c es with
          | Some n' => lookup n' p'
          | None => None
          end
      | File _ => None
      end
  end.

Definition exists_ (root : node) (p : path.Path) : bool :=
  match lookup root p with Some _ => true | None => false end.

Definition is_dir (root : node) (p : path.Path) : bool :=
  match lookup root p with Some (Dir _) => true | _ => false end.

Definition is_file (root : node) (p : path.Path) : bool :=
  match lookup root p with Some (File _) => true | _ => false end.

(** The pattern [*.pdf] on one name.  [Path.glob] does not treat names
    that start with a dot specially and compares case-sensitively (POSIX). *)
Definition matches_star_pdf (nm : string) : bool := pystr.endswith nm ".pdf".

(** [dir.glob('*.pdf')]: the matching entries of [dir], in directory
    order. *)
Definition glob_star_pdf (dir : path.Path) (es : entries_t) : list path.Path :=
  map (fun e => path.joinpath dir (fst e))
      (filter (fun e => matches_star_pdf (fst e)) es).

(** [dir.glob('**/*.pdf')]: the matches of [dir] itself, then those of
    every subdirectory, depth first in directory order. *)
Fixpoint rglob_star_pdf (dir : path.Path) (n : node) : list path.Path :=
  match n with
  | File _ => []
  | Dir es =>
      glob_star_pdf dir es ++
      (fix below (es : entries_t) : list path.Path :=
         match es with
         | [] => []
         | (nm, child) :: es' =>
             rglob_star_pdf (path.joinpath dir nm) child ++ below es'
         end) es
  end.

Definition glob (root : node) (folder : path.Path) (recursively : bool)
  : list path.Path :=
  match lookup root folder with
  | Some (Dir es) =>
      if recursively then rglob_star_pdf folder (Dir es)
      else glob_star_pdf folder es
  | _ => []
  end.

End fs.

(** [sorted(xs, key=...)]: the stable sort by key. *)
Module pysort.

Section Sorted.
Variable A : Type.
Variable key : A -> string.

Fixpoint insert (x : A) (l : list A) : list A :=
  match l with
  | [] => [x]
  | y :: l' =>
      if String.leb (key x) (key y) then x :: l else y :: insert x l'
  end.

Fixpoint sorted (l : list A) : list A :=
  match l with
  | [] => []
  | x :: l' => insert x (sorted l')
  end.

End Sorted.

Arguments insert {A} key x l.
Arguments sorted {A} key l.

End pysort.

(** ** [utils/file_utils.py] *)

Module file_utils.

(** The nine characters of the class of the first substitution: less-than,
    greater-than, colon, double quote, slash, backslash, bar, question mark
    and star. *)
Definition illegal (c : ascii) : bool :=
  match nat_of_ascii c with
  | 60 | 62 | 58 | 34 | 47 | 92 | 124 | 63 | 42 => true
  | _ => false
  end.

Definition underscore : ascii := "_"%char.

(** The first [re.sub]: every character of the class becomes an
    underscore. *)
Fixpoint replace_illegal (s : string) : string :=
  match s with
  | EmptyString => EmptyString
  | String c s' =>
      String (if illegal c then underscore else c) (replace_illegal s')
  end.

(** The second [re.sub], of the pattern [_+]: every maximal run of
    underscores becomes one underscore. *)
Fixpoint collapse_underscores (s : string) : string :=
  match s with
  | EmptyString => EmptyString
  | String c s' =>
      match s' with
      | String d _ =>
          if Ascii.eqb c underscore && Ascii.eqb d underscore
          then collapse_underscores s'
          else String c (collapse_underscores s')
      | EmptyString => String c EmptyString
      end
  end.

Definition sanitize_filename (filename : string) : string :=
  let sanitized := replace_illegal filename in
  let sanitized := collapse_underscores sanitized in
  pystr.strip "_ " sanitized.

Definition ensure_pdf_extension (name : string) : string :=
  if negb (pystr.endswith (pystr.lower name) constants.PDF_EXTENSION)
  then name ++ constants.PDF_EXTENSION
  else name.

(** [limit_preview]: the loop appends names while [idx < limit]. *)
Fixpoint limit_preview_from (idx : nat) (files : list path.Path) (limit : nat)
  : list string :=
  match files with
  | [] => []
  | pdf_file :: rest =>
      if limit <=? idx then []
      else path.name pdf_file :: limit_preview_from (S idx) rest limit
  end.

Definition limit_preview (files : list path.Path) (limit : nat) : list string :=
  limit_preview_from 0 files limit.

(** [datetime.now()]: the fields of a local time. *)
Record datetime := {
  year : nat; month : nat; day : nat;
  hour : nat; minute : nat; second : nat
}.

(** The ranges the [datetime] type enforces ([MINYEAR = 1],
    [MAXYEAR = 9999]). *)
Definition valid_datetime (t : datetime) : Prop :=
  1 <= year t <= 9999 /\ 1 <= month t <= 12 /\ 1 <= day t <= 31 /\
  hour t < 24 /\ minute t < 60 /\ second t < 60.

Definition zero_padded (width n : nat) : string :=
  pystr.rjust width "0"%char (pystr.decimal n).

(** [strftime(TIMESTAMP_PATTERN)]: zero padded decimal fields. *)
Definition strftime_TIMESTAMP_PATTERN (t : datetime) : string :=
  zero_padded 4 (year t) ++ zero_padded 2 (month t) ++ zero_padded 2 (day t)
  ++ "_" ++
  zero_padded 2 (hour t) ++ zero_padded 2 (minute t) ++ zero_padded 2 (second t).

(** [ensure_unique_output]: one existence test, and one rename when the
    path exists. *)
Definition ensure_unique_output (root : fs.node) (now : datetime)
  (p : path.Path) : path.Path :=
  if negb (fs.exists_ root p) then p
  else
    let timestamp := strftime_TIMESTAMP_PATTERN now in
    path.with_name p
      (path.stem p ++ "_" ++ timestamp ++ constants.PDF_EXTENSION)%string.

End file_utils.

(** ** [core/scanner.py] *)

Module scanner.

Import settings.

(** The key of the sort, [path.name.lower()].  [lower] is [str.lower], the
    case mapping of the interpreter over all of Unicode. *)
Definition sort_key (lower : string -> string) (p : path.Path) : string :=
  lower (path.name p).

Definition scan (lower : string -> string) (root : fs.node)
  (settings : MergeSettings) : list path.Path :=
  let pdf_files :=
    pysort.sorted (sort_key lower)
      (fs.glob root (folder_path settings) (recursive settings)) in
  filter (fs.is_file root) pdf_files.

End scanner.

(** ** Effects: console, interrupts, exceptions *)

Module effects.

(** The exceptions the program meets.  [KeyboardInterrupt] and
    [SystemExit] derive from [BaseException] only; every other one is an
    [Exception]. *)
Inductive exn :=
| FileNotFoundError (msg : string)
| NotADirectoryError (msg : string)
| RuntimeError (msg : string)
| OtherException (msg : string)
| KeyboardInterrupt
| SystemExit (code : nat).

Definition is_Exception (e : exn) : bool :=
  match e with
  | KeyboardInterrupt | SystemExit _ => false
  | _ => true
  end.

(** [str(exc)] *)
Definition str_exn (e : exn) : string :=
  match e with
  | FileNotFoundError m | NotADirectoryError m | RuntimeError m
  | OtherException m => m
  | KeyboardInterrupt => ""
  | SystemExit c => pystr.decimal c
  end.

(** A printed line: the style the messenger wraps it in (palette codes and
    glyph) and its text. *)
Inductive style :=
| Plain | Banner | Success | Error | Warning | Info | Cyan | Bold.

Definition line := (style * string)%type.

(** What the run has put at the path it opened for writing: the file is
    there and holds no complete document ([open] has created or emptied it,
    and [write] has not finished), or it holds the document. *)
Inductive file_content :=
| Partial
| Document (pages : list fs.Page).

(** The mutable part of a run: what was printed, how many interruptible
    operations remain before the user's interrupt arrives ([None]: the user
    never interrupts), the pages of the [PdfWriter], and the file the run
    has opened for writing, with what it holds. *)
Record State := {
  stdout : list line;
  sigint : option nat;
  pdf_writer : list fs.Page;
  written : option (path.Path * file_content)
}.

Inductive result (A : Type) :=
| Return (a : A)
| Raise (e : exn).

Arguments Return {A} a.
Arguments Raise {A} e.

Definition M (A : Type) := State -> result A * State.

Definition ret {A} (a : A) : M A := fun st => (Return a, st).

Definition bind {A B} (m : M A) (k : A -> M B) : M B :=
  fun st =>
    match m st with
    | (Return a, st') => k a st'
    | (Raise e, st') => (Raise e, st')
    end.

Definition raise {A} (e : exn) : M A := fun st => (Raise e, st).

(** [try: body  except ...: handler].  [handler e] is [None] when no
    clause matches [e], which then propagates. *)
Definition try_except {A} (body : M A) (handler : exn -> option (M A)) : M A :=
  fun st =>
    match body st with
    | (Return a, st') => (Return a, st')
    | (Raise e, st') =>
        match handler e with
        | Some h => h st'
        | None => (Raise e, st')
        end
    end.

(** Every operation that touches the outside world is a point where the
    interrupt can be delivered; it is delivered once. *)
Definition tick : M unit :=
  fun st =>
    match sigint st with
    | None => (Return tt, st)
    | Some O =>
        (Raise KeyboardInterrupt,
         {| stdout := stdout st; sigint := None;
            pdf_writer := pdf_writer st; written := written st |})
    | Some (S k) =>
        (Return tt,
         {| stdout := stdout st; sigint := Some k;
            pdf_writer := pdf_writer st; written := written st |})
    end.

Definition emit (l : line) : M unit :=
  fun st =>
    (Return tt,
     {| stdout := stdout st ++ [l]; sigint := sigint st;
        pdf_writer := pdf_writer st; written := written st |}).

Definition print (l : line) : M unit := bind tick (fun _ => emit l).

Definition initial (interrupt : option nat) : State :=
  {| stdout := []; sigint := interrupt; pdf_writer := []; written := None |}.

End effects.

Declare Scope eff_scope.
Delimit Scope eff_scope with eff.
Notation "x <- m ;; k" := (effects.bind m (fun x => k))
  (at level 61, m at next level, right associativity) : eff_scope.
Notation "m ;;; k" := (effects.bind m (fun _ => k))
  (at level 61, right associativity) : eff_scope.

(** ** [utils/console.py] *)

Module console.

Import effects.

Definition banner (message : string) : line := (Banner, message).
Definition success (message : string) : line := (Success, message).
Definition error (message : string) : line := (Error, message).
Definition warning (message : string) : line := (Warning, message).
Definition info (message : string) : line := (Info, message).
Definition cyan (message : string) : line := (Cyan, message).
Definition bold (message : string) : line := (Bold, message).
Definition plain (message : string) : line := (Plain, message).

(** The numbered lines of [print_files], [idx] counting from [start]. *)
Fixpoint print_items (idx : nat) (items : list string) : M unit :=
  match items with
  | [] => ret tt
  | value :: rest =>
      (print (plain ("  " ++ pystr.rjust 2 " "%char (pystr.decimal idx)
                     ++ ". " ++ value)) ;;;
       print_items (S idx) rest)%eff
  end.

Definition more_files (k : nat) : line :=
  plain ("  ... and " ++ pystr.decimal k ++ " more files").

Definition print_files (items : list string) (preview_limit total : nat)
  : M unit :=
  (print (cyan "Files to merge:") ;;;
   print_items 1 items ;;;
   if preview_limit <? total
   then print (more_files (total - preview_limit))
   else ret tt)%eff.

End console.

(** ** The world a run meets *)

Module world.

(** Where writing the output fails: [open] raises and no file is made, or
    [pdf_writer.write] raises on the file [open] has made. *)
Inductive write_failure :=
| OpenFails (msg : string)
| WriteFails (msg : string).

Record World := {
  root : fs.node;                       (* the file system *)
  now : file_utils.datetime;            (* [datetime.now()] *)
  PDF_LIB : string;
  PDF_IMPORT_ERROR : option string;     (* no PDF library installed *)
  HAS_TQDM : bool;
  mkdir_error : option string;          (* the directory cannot be made *)
  write_error : option write_failure;   (* the output cannot be written *)
  serialized_size : list fs.Page -> nat;  (* bytes of a written document *)
  str_lower : string -> string;         (* [str.lower] *)
  expanduser : string -> string;        (* [Path(s).expanduser()] *)
  resolve : string -> path.Path         (* [Path(s).resolve()] *)
}.

End world.

(** ** [core/merger.py] *)

Module merger.

Import effects world.
Local Open Scope eff_scope.

Record MergeOutcome := {
  output_path : path.Path;
  total_pages : nat;
  file_size_mb : Q
}.

(** [str(path)] of an absolute path. *)
Definition path_str (p : path.Path) : string :=
  ("/" ++ String.concat "/" p)%string.

(** [open(pdf_path)] in binary mode followed by [PdfReader(handle)]: the content of
    the file, or the exception of a path that is no regular file. *)
Definition open_pdf (w : World) (pdf_path : path.Path) : M fs.PdfFile :=
  tick ;;;
  match fs.lookup (root w) pdf_path with
  | Some (fs.File content) => ret content
  | Some (fs.Dir _) => raise (OtherException "Is a directory")
  | None => raise (FileNotFoundError "No such file or directory")
  end.

(** [pdf_writer.add_page(page)] *)
Definition add_page (page : fs.Page) : M unit :=
  tick ;;;
  fun st =>
    (Return tt,
     {| stdout := stdout st; sigint := sigint st;
        pdf_writer := pdf_writer st ++ [page]; written := written st |}).

(** [for page in reader.pages: pdf_writer.add_page(page)] *)
Fixpoint add_pages (pages : list fs.Page) : M unit :=
  match pages with
  | [] => ret tt
  | page :: rest => add_page page ;;; add_pages rest
  end.

(** [PdfWriter()] *)
Definition new_writer : M unit :=
  fun st =>
    (Return tt,
     {| stdout := stdout st; sigint := sigint st;
        pdf_writer := []; written := written st |}).

(** The body of the [try] of one file: the new running total. *)
Definition read_into_writer (w : World) (pdf_path : path.Path)
  (total_pages : nat) : M nat :=
  reader <- open_pdf w pdf_path ;;
  add_pages (fs.pages_read reader) ;;;
  match fs.failure reader with
  | Some msg => raise (OtherException msg)
  | None =>
      let pages_added := List.length (fs.pages_read reader) in
      let total_pages := total_pages + pages_added in
      (if HAS_TQDM w then ret tt
       else print (console.plain
                     ("    Added " ++ pystr.decimal pages_added ++ " pages")%string)) ;;;
      ret total_pages
  end.

Definition processing_line (pdf_path : path.Path) (index n : nat) : line :=
  console.plain ("  Processing: " ++ path.name pdf_path ++ " (" ++
                 pystr.decimal index ++ "/" ++ pystr.decimal n ++ ")")%string.

Definition failed_line (pdf_path : path.Path) (exc : exn) : line :=
  console.error ("Failed to process " ++ path.name pdf_path ++ ": " ++
                 str_exn exc)%string.

(** One iteration of the loop of [merge]. *)
Definition process_file (w : World) (n index : nat) (pdf_path : path.Path)
  (total_pages : nat) : M nat :=
  (if HAS_TQDM w then ret tt else print (processing_line pdf_path index n)) ;;;
  try_except (read_into_writer w pdf_path total_pages)
    (fun exc =>
       if is_Exception exc
       then Some (print (failed_line pdf_path exc) ;;; ret total_pages)
       else None).

Fixpoint process_files (w : World) (n index : nat) (files : list path.Path)
  (total_pages : nat) : M nat :=
  match files with
  | [] => ret total_pages
  | pdf_path :: rest =>
      total_pages <- process_file w n index pdf_path total_pages ;;
      process_files w n (S index) rest total_pages
  end.

(** [open(output_path, "wb")]: the file is created, or emptied when it
    exists; the document is not in it yet. *)
Definition open_wb (w : World) (output_path : path.Path) : M unit :=
  tick ;;;
  match write_error w with
  | Some (OpenFails msg) => raise (OtherException msg)
  | _ =>
      fun st =>
        (Return tt,
         {| stdout := stdout st; sigint := sigint st;
            pdf_writer := pdf_writer st;
            written := Some (output_path, Partial) |})
  end.

(** [pdf_writer.write(handle)] on the open file. *)
Definition write_handle (w : World) (output_path : path.Path) : M unit :=
  tick ;;;
  match write_error w with
  | Some (WriteFails msg) => raise (OtherException msg)
  | _ =>
      fun st =>
        (Return tt,
         {| stdout := stdout st; sigint := sigint st;
            pdf_writer := pdf_writer st;
            written := Some (output_path, Document (pdf_writer st)) |})
  end.

(** [with open(output_path, "wb") as handle: pdf_writer.write(handle)] *)
Definition write_pdf (w : World) (output_path : path.Path) : M unit :=
  open_wb w output_path ;;; write_handle w output_path.

(** [output_path.stat().st_size] of the file at the output path. *)
Definition stat_size (w : World) : M nat :=
  tick ;;;
  fun st =>
    (Return (match written st with
             | Some (_, Document doc) => serialized_size w doc
             | _ => 0
             end), st).

Definition merge (w : World) (pdf_files : list path.Path)
  (output_path : path.Path) : M MergeOutcome :=
  match PDF_IMPORT_ERROR w with
  | Some msg => raise (RuntimeError msg)
  | None =>
      new_writer ;;;
      let files := pdf_files in
      total_pages <- process_files w (List.length files) 1 files 0 ;;
      print (console.info ("Saving merged PDF to: " ++ path_str output_path)%string) ;;;
      write_pdf w output_path ;;;
      size <- stat_size w ;;
      let file_size_mb := Qmake (Z.of_nat size) (1024 * 1024) in
      ret {| output_path := output_path;
             total_pages := total_pages;
             file_size_mb := file_size_mb |}
  end.

End merger.

(** ** [core/orchestrator.py] *)

Module orchestrator.

Import effects world settings.
Local Open Scope eff_scope.

(** [target.mkdir(parents=True, exist_ok=True)] *)
Definition mkdir_parents (w : World) (target : path.Path) : M unit :=
  tick ;;;
  match fs.lookup (root w) target with
  | Some (fs.Dir _) => ret tt
  | Some (fs.File _) => raise (OtherException "File exists")
  | None =>
      match mkdir_error w with
      | Some msg => raise (OtherException msg)
      | None => ret tt
      end
  end.

Definition _resolve_destination (w : World) (destination : option path.Path)
  (fallback : path.Path) : M path.Path :=
  let target := match destination with Some d => d | None => fallback end in
  mkdir_parents w target ;;;
  ret target.

(** An output name counts when it is set and not empty. *)
Definition _resolve_output_name (settings : MergeSettings)
  (folder : path.Path) : string :=
  let raw_name :=
    match output_name settings with
    | Some (String c s) => file_utils.sanitize_filename (String c s)
    | _ => file_utils.sanitize_filename (path.name folder)
    end in
  file_utils.ensure_pdf_extension raw_name.

Definition execute (w : World) (settings : MergeSettings)
  : M (option merger.MergeOutcome) :=
  let folder := folder_path settings in
  if negb (fs.exists_ (root w) folder) then
    raise (FileNotFoundError
             ("Folder does not exist: " ++ merger.path_str folder)%string)
  else if negb (fs.is_dir (root w) folder) then
    raise (NotADirectoryError
             ("Path is not a directory: " ++ merger.path_str folder)%string)
  else
    print (console.info ("Source folder: " ++ merger.path_str folder)%string) ;;;
    print (console.info
             ("Recursive search: " ++
              if recursive settings then "Yes" else "No")%string) ;;;
    tick ;;;
    let pdf_files := scanner.scan (str_lower w) (root w) settings in
    match pdf_files with
    | [] =>
        print (console.warning "No PDF files found in the specified folder.") ;;;
        (if negb (recursive settings)
         then print (console.info "Try running again with --recursive")
         else ret tt) ;;;
        ret None
    | _ :: _ =>
        print (console.success
                 ("Found " ++ pystr.decimal (List.length pdf_files) ++
                  " PDF files")%string) ;;;
        destination <- _resolve_destination w (destination settings) folder ;;
        let output_name := _resolve_output_name settings folder in
        let raw_output_path := path.joinpath destination output_name in
        let output_path :=
          file_utils.ensure_unique_output (root w) (now w) raw_output_path in
        (if negb (path.eqb output_path raw_output_path)
         then print (console.warning
                       ("Output file exists, using: " ++
                        path.name output_path)%string)
         else ret tt) ;;;
        let preview :=
          file_utils.limit_preview pdf_files constants.MAX_PREVIEW_FILES in
        console.print_files preview constants.MAX_PREVIEW_FILES
          (List.length pdf_files) ;;;
        print (console.info ("Using " ++ PDF_LIB w ++ " library")%string) ;;;
        (if negb (HAS_TQDM w)
         then print (console.warning
                       "Install 'tqdm' for progress bars: pip install tqdm")
         else ret tt) ;;;
        print (console.bold
                 ("Ready to merge " ++ pystr.decimal (List.length pdf_files) ++
                  " PDF files!")%string) ;;;
        print (console.info
                 ("Output file: " ++ merger.path_str output_path)%string) ;;;
        outcome <- merger.merge w pdf_files output_path ;;
        ret (Some outcome)
    end.

End orchestrator.

(** ** [cli/app.py] *)

Module app.

Import effects world settings.
Local Open Scope eff_scope.

(** The parsed command line. *)
Record Args := {
  arg_folder_path : string;
  arg_recursive : bool;
  arg_output : option string;
  arg_destination : option string
}.

(** Both paths go through [Path(s).expanduser().resolve()]. *)
Definition _build_settings (w : World) (args : Args) : MergeSettings :=
  {| folder_path := resolve w (expanduser w (arg_folder_path args));
     recursive := arg_recursive args;
     output_name := arg_output args;
     destination :=
       match arg_destination args with
       | Some (String c s) => Some (resolve w (expanduser w (String c s)))
       | _ => None
       end |}.

(** A float with two decimals, on the exact quotient. *)
Definition format_2f (q : Q) : string :=
  let hundredths :=
    Z.to_nat ((2 * 100 * Qnum q + Z.pos (Qden q)) / (2 * Z.pos (Qden q))) in
  (pystr.decimal (hundredths / 100) ++ "." ++
   file_utils.zero_padded 2 (hundredths mod 100))%string.

Definition run (w : World) (args : Args) : M nat :=
  print (console.banner "PDF Merger Pro") ;;;
  let settings := _build_settings w args in
  outcome <-
    try_except
      (o <- orchestrator.execute w settings ;; ret (inl o))
      (fun exc =>
         match exc with
         | FileNotFoundError _ | NotADirectoryError _ =>
             Some (print (console.error (str_exn exc)) ;;; ret (inr 1))
         | RuntimeError _ =>
             Some (print (console.error (str_exn exc)) ;;; ret (inr 1))
         | KeyboardInterrupt =>
             Some (print (console.warning "Operation cancelled by user") ;;;
                   ret (inr 1))
         | OtherException _ =>
             Some (print (console.error
                            ("Unexpected error: " ++ str_exn exc)%string) ;;;
                   ret (inr 1))
         | SystemExit _ => None
         end) ;;
  match outcome with
  | inr code => ret code
  | inl None => ret 0
  | inl (Some outcome) =>
      print (console.success
               ("Successfully created: " ++
                path.name (merger.output_path outcome))%string) ;;;
      print (console.info
               ("Total pages: " ++
                pystr.decimal (merger.total_pages outcome))%string) ;;;
      print (console.info
               ("File size: " ++ format_2f (merger.file_size_mb outcome) ++
                " MB")%string) ;;;
      print (console.success
               ("Mission Accomplished! Your merged PDF is ready: " ++
                merger.path_str (merger.output_path outcome))%string) ;;;
      ret 0
  end.

(** [main] *)
Definition main (w : World) (argv : Args) : M nat := run w argv.

(** The status the process ends with: [sys.exit(main())], or the status
    the interpreter gives an exception nobody caught. *)
Definition exit_status (r : result nat) : nat :=
  match r with
  | Return code => code
  | Raise (SystemExit code) => code
  | Raise KeyboardInterrupt => 130
  | Raise _ => 1
  end.

Definition process (w : World) (argv : Args) (interrupt : option nat) : nat :=
  exit_status (fst (main w argv (initial interrupt))).

End app.

(** ** [pdf_merger.py], the standalone script *)

Module pdf_merger.

Import effects world.
Local Open Scope eff_scope.

Definition print_success (m : string) : M unit := print (console.success m).
Definition print_error (m : string) : M unit := print (console.error m).
Definition print_warning (m : string) : M unit := print (console.warning m).
Definition print_info (m : string) : M unit := print (console.info m).

(** [sys.exit(code)] *)
Definition sys_exit {A} (code : nat) : M A := raise (SystemExit code).

Definition sanitize_filename := file_utils.sanitize_filename.

(** [get_pdf_files]: [rglob] or [glob], then the sort by lowered name,
    [x.name.lower()]. *)
Definition get_pdf_files (w : World) (folder_path : path.Path)
  (recursive : bool) : list path.Path :=
  pysort.sorted (scanner.sort_key (str_lower w))
    (fs.glob (root w) folder_path recursive).

(** The body of the [try] of one file. *)
Definition read_file (w : World) (n i : nat) (pdf_path : path.Path)
  (total_pages : nat) : M nat :=
  (if HAS_TQDM w then ret tt
   else print (merger.processing_line pdf_path (i + 1) n)) ;;;
  pdf_reader <- merger.open_pdf w pdf_path ;;
  merger.add_pages (fs.pages_read pdf_reader) ;;;
  match fs.failure pdf_reader with
  | Some msg => raise (OtherException msg)
  | None =>
      let pages_count := List.length (fs.pages_read pdf_reader) in
      let total_pages := total_pages + pages_count in
      (if HAS_TQDM w then ret tt
       else print (console.plain
                     ("    Added " ++ pystr.decimal pages_count ++ " pages")%string)) ;;;
      ret total_pages
  end.

Fixpoint read_files (w : World) (n i : nat) (files : list path.Path)
  (total_pages : nat) : M nat :=
  match files with
  | [] => ret total_pages
  | pdf_path :: rest =>
      total_pages <-
        try_except (read_file w n i pdf_path total_pages)
          (fun e =>
             if is_Exception e
             then Some (print (merger.failed_line pdf_path e) ;;; ret total_pages)
             else None) ;;
      read_files w n (S i) rest total_pages
  end.

Definition merge_pdfs (w : World) (pdf_files : list path.Path)
  (output_path : path.Path) : M bool :=
  match pdf_files with
  | [] => print_error "No PDF files found to merge!" ;;; ret false
  | _ :: _ =>
      print_info ("Using " ++ PDF_LIB w ++ " library for PDF processing")%string ;;;
      print_info ("Merging " ++ pystr.decimal (List.length pdf_files) ++
                  " PDF files...")%string ;;;
      merger.new_writer ;;;
      total_pages <- read_files w (List.length pdf_files) 0 pdf_files 0 ;;
      try_except
        (print_info ("Saving merged PDF to: " ++
                     merger.path_str output_path)%string ;;;
         merger.write_pdf w output_path ;;;
         file_size <- merger.stat_size w ;;
         let file_size_mb := Qmake (Z.of_nat file_size) (1024 * 1024) in
         print_success ("Successfully created: " ++
                        path.name output_path)%string ;;;
         print_info ("Total pages: " ++ pystr.decimal total_pages)%string ;;;
         print_info ("File size: " ++ app.format_2f file_size_mb ++ " MB")%string ;;;
         ret true)
        (fun e =>
           if is_Exception e
           then Some (print_error ("Failed to save merged PDF: " ++
                                   str_exn e)%string ;;; ret false)
           else None)
  end.

(** The new path of an output that exists already, as [main] computes it. *)
Definition timestamped_path (w : World) (output_path : path.Path) : path.Path :=
  let timestamp := file_utils.strftime_TIMESTAMP_PATTERN (now w) in
  let name_without_ext := path.stem output_path in
  path.joinpath (path.parent output_path)
    (name_without_ext ++ "_" ++ timestamp ++ ".pdf")%string.

(** [main].  The folder and the destination go through
    [Path(s).resolve()]: the script does not call [expanduser]. *)
Definition main (w : World) (args : app.Args) : M unit :=
  print (console.banner "PDF Merger Pro") ;;;
  let folder_path := resolve w (app.arg_folder_path args) in
  if negb (fs.exists_ (root w) folder_path) then
    print_error ("Folder does not exist: " ++
                 merger.path_str folder_path)%string ;;;
    sys_exit 1
  else if negb (fs.is_dir (root w) folder_path) then
    print_error ("Path is not a directory: " ++
                 merger.path_str folder_path)%string ;;;
    sys_exit 1
  else
    print_info ("Source folder: " ++ merger.path_str folder_path)%string ;;;
    print_info ("Recursive search: " ++
                if app.arg_recursive args then "Yes" else "No")%string ;;;
    tick ;;;
    let pdf_files := get_pdf_files w folder_path (app.arg_recursive args) in
    match pdf_files with
    | [] =>
        print_warning "No PDF files found in the specified folder!" ;;;
        (if negb (app.arg_recursive args)
         then print_info "Try using --recursive flag to search in subfolders"
         else ret tt) ;;;
        sys_exit 0
    | _ :: _ =>
        print_success ("Found " ++ pystr.decimal (List.length pdf_files) ++
                       " PDF files")%string ;;;
        let output_name :=
          match app.arg_output args with
          | Some (String c s) => sanitize_filename (String c s)
          | _ => sanitize_filename (path.name folder_path)
          end in
        let output_name :=
          if negb (pystr.endswith (pystr.lower output_name) ".pdf")
          then (output_name ++ ".pdf")%string else output_name in
        output_path <-
          match app.arg_destination args with
          | Some (String c s) =>
              let destination_path := resolve w (String c s) in
              (if negb (fs.exists_ (root w) destination_path)
               then orchestrator.mkdir_parents w destination_path
               else ret tt) ;;;
              ret (path.joinpath destination_path output_name)
          | _ => ret (path.joinpath folder_path output_name)
          end ;;
        output_path <-
          (if fs.exists_ (root w) output_path then
             let output_path := timestamped_path w output_path in
             print_warning ("Output file exists, using: " ++
                            path.name output_path)%string ;;;
             ret output_path
           else ret output_path) ;;
        print_info ("Output file: " ++ merger.path_str output_path)%string ;;;
        print (console.cyan "Files to merge:") ;;;
        console.print_items 1 (map path.name (firstn 10 pdf_files)) ;;;
        (if 10 <? List.length pdf_files
         then print (console.more_files (List.length pdf_files - 10))
         else ret tt) ;;;
        print (console.bold
                 ("Ready to merge " ++ pystr.decimal (List.length pdf_files) ++
                  " PDF files!")%string) ;;;
        success <- merge_pdfs w pdf_files output_path ;;
        if success : bool then
          print (console.success "Mission Accomplished!") ;;;
          print (console.success
                   ("Your merged PDF is ready: " ++ path.name output_path)%string)
        else
          print (console.error "Mission Failed!") ;;;
          print (console.error "Some errors occurred during the merge process.") ;;;
          sys_exit 1
    end.

(** The script as a whole: the import guard, then the interrupt handler
    around [main]. *)
Definition script (w : World) (args : app.Args) : M unit :=
  match PDF_IMPORT_ERROR w with
  | Some _ =>
      print (console.error "Error: No PDF library found!") ;;;
      print (console.warning "Please install one of the following:") ;;;
      print (console.plain "  pip install pypdf") ;;;
      print (console.plain "  pip install PyPDF2") ;;;
      sys_exit 1
  | None =>
      (if HAS_TQDM w then ret tt
       else print (console.warning
                     "Install 'tqdm' for beautiful progress bars: pip install tqdm")) ;;;
      try_except (main w args)
        (fun e =>
           match e with
           | KeyboardInterrupt =>
               Some (print (console.warning "Operation cancelled by user") ;;;
                     sys_exit 0)
           | SystemExit _ => None
           | _ =>
               Some (print_error ("Unexpected error: " ++ str_exn e)%string ;;;
                     sys_exit 1)
           end)
  end.

Definition process (w : World) (args : app.Args) (interrupt : option nat)
  : nat :=
  match fst (script w args (initial interrupt)) with
  | Return _ => 0
  | Raise (SystemExit code) => code
  | Raise KeyboardInterrupt => 130
  | Raise _ => 1
  end.

End pdf_merger.

(** * Properties *)

(** ** Strings *)

Section StringFacts.

Local Open Scope string_scope.

Fixpoint all_chars (P : ascii -> bool) (s : string) : bool :=
  match s with
  | EmptyString => true
  | String c s' => P c && all_chars P s'
  end.

(** No two underscores in a row. *)
Fixpoint no_run (s : string) : bool :=
  match s with
  | String c (String d _ as s') =>
      negb (Ascii.eqb c file_utils.underscore && Ascii.eqb d file_utils.underscore)
      && no_run s'
  | _ => true
  end.

(** The first character, if any, is outside [chars]. *)
Definition head_kept (chars s : string) : bool :=
  match s with
  | EmptyString => true
  | String c _ => negb (pystr.mem c chars)
  end.

Lemma append_nil_r (s : string) : s ++ "" = s.
Proof. induction s as [|c s IH]; simpl; [reflexivity | now rewrite IH]. Qed.

Lemma append_assoc (a b c : string) : (a ++ b) ++ c = a ++ (b ++ c).
Proof. induction a as [|x a IH]; simpl; [reflexivity | now rewrite IH]. Qed.

Lemma length_append (a b : string) :
  String.length (a ++ b) = String.length a + String.length b.
Proof. induction a as [|x a IH]; simpl; [reflexivity | now rewrite IH]. Qed.

Lemma all_chars_append P (a b : string) :
  all_chars P (a ++ b) = all_chars P a && all_chars P b.
Proof.
  induction a as [|x a IH]; simpl; [reflexivity|].
  now rewrite IH, andb_assoc.
Qed.

Lemma all_chars_weaken (P Q : ascii -> bool) (s : string) :
  (forall c, P c = true -> Q c = true) ->
  all_chars P s = true -> all_chars Q s = true.
Proof.
  intros HPQ. induction s as [|c s IH]; simpl; [reflexivity|].
  rewrite !andb_true_iff. intros [Hc Hs]. split; auto.
Qed.

Lemma no_run_append_l (a b : string) : no_run (a ++ b) = true -> no_run a = true.
Proof.
  induction a as [|x a IH]; [reflexivity|].
  destruct a as [|y a]; [reflexivity|].
  change (no_run (String x (String y a ++ b)) = true ->
          no_run (String x (String y a)) = true).
  simpl. rewrite !andb_true_iff. intros [H1 H2]. split; [exact H1|].
  apply IH. exact H2.
Qed.

Lemma no_run_append_r (a b : string) : no_run (a ++ b) = true -> no_run b = true.
Proof.
  induction a as [|x a IH]; [trivial|].
  intros H. apply IH.
  destruct a as [|y a]; simpl in *.
  - destruct b; [reflexivity|]. apply andb_true_iff in H. apply H.
  - apply andb_true_iff in H. apply H.
Qed.

(** [lstrip] keeps a tail, [rstrip] keeps an initial part. *)
Lemma lstrip_suffix chars s : exists t, s = t ++ pystr.lstrip chars s.
Proof.
  induction s as [|c s [t Ht]]; simpl.
  - now exists "".
  - destruct (pystr.mem c chars).
    + exists (String c t). simpl. now rewrite <- Ht.
    + now exists "".
Qed.

Lemma rstrip_prefix chars s : exists t, s = pystr.rstrip chars s ++ t.
Proof.
  induction s as [|c s [t Ht]]; simpl.
  - now exists "".
  - destruct (pystr.rstrip chars s) as [|d r] eqn:E.
    + destruct (pystr.mem c chars).
      * now exists (String c s).
      * exists s. reflexivity.
    + exists t. simpl. simpl in Ht. now rewrite <- Ht.
Qed.

Lemma lstrip_head_kept chars s : head_kept chars (pystr.lstrip chars s) = true.
Proof.
  induction s as [|c s IH]; simpl; [reflexivity|].
  destruct (pystr.mem c chars) eqn:E; [exact IH|]. simpl. now rewrite E.
Qed.

Lemma lstrip_fixed chars s : head_kept chars s = true -> pystr.lstrip chars s = s.
Proof.
  destruct s as [|c s]; simpl; [reflexivity|].
  now destruct (pystr.mem c chars).
Qed.

Lemma rstrip_head_kept chars s :
  head_kept chars s = true -> head_kept chars (pystr.rstrip chars s) = true.
Proof.
  destruct s as [|c s]; simpl; [reflexivity|].
  intros H. destruct (pystr.rstrip chars s) as [|d r].
  - destruct (pystr.mem c chars) eqn:M; [reflexivity|]. simpl. now rewrite M.
  - exact H.
Qed.

Lemma rstrip_idempotent chars s :
  pystr.rstrip chars (pystr.rstrip chars s) = pystr.rstrip chars s.
Proof.
  induction s as [|c s IH]; simpl; [reflexivity|].
  destruct (pystr.rstrip chars s) as [|d r] eqn:E.
  - destruct (pystr.mem c chars) eqn:M; simpl; [reflexivity|]. now rewrite M.
  - change (pystr.rstrip chars (String c (String d r)))
      with (match pystr.rstrip chars (String d r) with
            | "" => if pystr.mem c chars then "" else String c ""
            | r' => String c r'
            end).
    now rewrite IH.
Qed.

Lemma strip_idempotent chars s :
  pystr.strip chars (pystr.strip chars s) = pystr.strip chars s.
Proof.
  unfold pystr.strip.
  rewrite (lstrip_fixed chars (pystr.rstrip chars (pystr.lstrip chars s))).
  - apply rstrip_idempotent.
  - apply rstrip_head_kept, lstrip_head_kept.
Qed.

Lemma strip_all_chars P chars s :
  all_chars P s = true -> all_chars P (pystr.strip chars s) = true.
Proof.
  unfold pystr.strip. intros H.
  destruct (lstrip_suffix chars s) as [t Ht].
  destruct (rstrip_prefix chars (pystr.lstrip chars s)) as [u Hu].
  rewrite Ht, all_chars_append in H. apply andb_true_iff in H as [_ H].
  rewrite Hu, all_chars_append in H. apply andb_true_iff in H as [H _].
  exact H.
Qed.

Lemma strip_no_run chars s :
  no_run s = true -> no_run (pystr.strip chars s) = true.
Proof.
  unfold pystr.strip. intros H.
  destruct (lstrip_suffix chars s) as [t Ht].
  destruct (rstrip_prefix chars (pystr.lstrip chars s)) as [u Hu].
  rewrite Ht in H. apply no_run_append_r in H.
  rewrite Hu in H. apply no_run_append_l in H. exact H.
Qed.

End StringFacts.

(** ** [sanitize_filename] and [ensure_pdf_extension] *)

Section Sanitize.

Local Open Scope string_scope.
Import file_utils.

Definition legal (c : ascii) : bool := negb (illegal c).

(** The characters [strip] removes at the ends: underscore and space. *)
Definition stripped (c : ascii) : bool := pystr.mem c "_ ".

(** The last character, if any, is outside [chars]. *)
Fixpoint last_kept (chars s : string) : bool :=
  match s with
  | EmptyString => true
  | String c EmptyString => negb (pystr.mem c chars)
  | String _ s' => last_kept chars s'
  end.

Lemma replace_illegal_legal s : all_chars legal (replace_illegal s) = true.
Proof.
  induction s as [|c s IH]; simpl; [reflexivity|].
  rewrite IH, andb_true_r. unfold legal.
  destruct (illegal c) eqn:E; [reflexivity | now rewrite E].
Qed.

Lemma replace_illegal_fixed s :
  all_chars legal s = true -> replace_illegal s = s.
Proof.
  induction s as [|c s IH]; simpl; [reflexivity|].
  rewrite andb_true_iff. unfold legal at 1. intros [Hc Hs].
  apply negb_true_iff in Hc. now rewrite Hc, IH.
Qed.

Lemma collapse_cons c d s :
  collapse_underscores (String c (String d s)) =
  if Ascii.eqb c underscore && Ascii.eqb d underscore
  then collapse_underscores (String d s)
  else String c (collapse_underscores (String d s)).
Proof. reflexivity. Qed.

Lemma no_run_cons c d s :
  no_run (String c (String d s)) =
  negb (Ascii.eqb c underscore && Ascii.eqb d underscore)
  && no_run (String d s).
Proof. reflexivity. Qed.

Lemma collapse_head c s :
  exists r, collapse_underscores (String c s) = String c r.
Proof.
  revert c. induction s as [|d s IH]; intros c.
  - now exists "".
  - rewrite collapse_cons.
    destruct (Ascii.eqb c underscore && Ascii.eqb d underscore) eqn:E.
    + apply andb_true_iff in E as [Ec Ed].
      apply Ascii.eqb_eq in Ec, Ed. subst c d. apply IH.
    + eexists. reflexivity.
Qed.

Lemma collapse_all_chars P s :
  all_chars P s = true -> all_chars P (collapse_underscores s) = true.
Proof.
  induction s as [|c s IH]; [trivial|].
  intros H. simpl in H. apply andb_true_iff in H as [Hc Hs].
  destruct s as [|d s]; [simpl; now rewrite Hc|].
  rewrite collapse_cons.
  destruct (Ascii.eqb c underscore && Ascii.eqb d underscore).
  - now apply IH.
  - cbn [all_chars]. rewrite Hc. now apply IH.
Qed.

Lemma collapse_no_run s : no_run (collapse_underscores s) = true.
Proof.
  induction s as [|c s IH]; [reflexivity|].
  destruct s as [|d s]; [reflexivity|].
  rewrite collapse_cons.
  destruct (Ascii.eqb c underscore && Ascii.eqb d underscore) eqn:E.
  - exact IH.
  - destruct (collapse_head d s) as [r Hr]. rewrite Hr in IH |- *.
    rewrite no_run_cons. now rewrite E, IH.
Qed.

Lemma collapse_fixed s : no_run s = true -> collapse_underscores s = s.
Proof.
  induction s as [|c s IH]; [reflexivity|].
  destruct s as [|d s]; [reflexivity|].
  rewrite collapse_cons, no_run_cons, andb_true_iff. intros [E H].
  apply negb_true_iff in E. rewrite E. now rewrite IH.
Qed.

Lemma lstrip_all chars s :
  all_chars (fun c => pystr.mem c chars) s = true -> pystr.lstrip chars s = "".
Proof.
  induction s as [|c s IH]; simpl; [reflexivity|].
  rewrite andb_true_iff. intros [Hc Hs]. now rewrite Hc, IH.
Qed.

Lemma rstrip_last_kept chars s : last_kept chars (pystr.rstrip chars s) = true.
Proof.
  induction s as [|c s IH]; simpl; [reflexivity|].
  destruct (pystr.rstrip chars s) as [|d r].
  - destruct (pystr.mem c chars) eqn:M; simpl; [reflexivity | now rewrite M].
  - exact IH.
Qed.

Lemma sanitize_legal x : all_chars legal (sanitize_filename x) = true.
Proof.
  unfold sanitize_filename.
  apply strip_all_chars, collapse_all_chars, replace_illegal_legal.
Qed.

Lemma sanitize_no_run x : no_run (sanitize_filename x) = true.
Proof. unfold sanitize_filename. apply strip_no_run, collapse_no_run. Qed.

(** A name of legal characters without a run of underscores is only
    trimmed. *)
Lemma sanitize_of_clean s :
  all_chars legal s = true -> no_run s = true ->
  sanitize_filename s = pystr.strip "_ " s.
Proof.
  intros Hl Hr. unfold sanitize_filename.
  now rewrite (replace_illegal_fixed s Hl), (collapse_fixed s Hr).
Qed.

(** Characters that are replaced or stripped leave nothing. *)
Lemma sanitize_vanishes s :
  all_chars (fun c => illegal c || stripped c) s = true ->
  sanitize_filename s = "".
Proof.
  intros H. unfold sanitize_filename, pystr.strip.
  rewrite lstrip_all; [reflexivity|].
  apply collapse_all_chars.
  induction s as [|c s IH]; [reflexivity|].
  simpl in H. apply andb_true_iff in H as [Hc Hs].
  cbn [replace_illegal all_chars]. rewrite (IH Hs), andb_true_r.
  destruct (illegal c); [reflexivity | exact Hc].
Qed.

Lemma lower_append a b : pystr.lower (a ++ b) = pystr.lower a ++ pystr.lower b.
Proof. induction a as [|c a IH]; simpl; [reflexivity | now rewrite IH]. Qed.

(** [endswith] is the suffix relation. *)
Lemma endswith_spec s suffix :
  pystr.endswith s suffix = true <-> exists a, s = a ++ suffix.
Proof.
  induction s as [|c s IH]; cbn [pystr.endswith].
  - rewrite orb_false_r, String.eqb_eq. split.
    + intros <-. now exists "".
    + intros [a Ha]. destruct a; simpl in Ha; [congruence | discriminate].
  - rewrite orb_true_iff, String.eqb_eq, IH. split.
    + intros [<- | [a ->]]; [now exists "" | now exists (String c a)].
    + intros [a Ha]. destruct a as [|d a]; simpl in Ha.
      * now left.
      * right. exists a. congruence.
Qed.

Lemma endswith_append a suffix : pystr.endswith (a ++ suffix) suffix = true.
Proof. apply endswith_spec. now exists a. Qed.

Lemma append_pdf_neq s : s ++ ".pdf" <> s.
Proof.
  intros H. apply (f_equal String.length) in H.
  rewrite length_append in H. simpl in H. lia.
Qed.

End Sanitize.

(** C6.  Sanitizing a sanitized name changes nothing.  The sanitized name
    has none of the nine replaced characters, has no run of two
    underscores, and neither starts nor ends with an underscore or a
    space. *)
Theorem sanitize_filename_idempotent :
  forall x : string,
    file_utils.sanitize_filename (file_utils.sanitize_filename x)
    = file_utils.sanitize_filename x /\
    all_chars legal (file_utils.sanitize_filename x) = true /\
    no_run (file_utils.sanitize_filename x) = true /\
    head_kept "_ " (file_utils.sanitize_filename x) = true /\
    last_kept "_ " (file_utils.sanitize_filename x) = true.
Proof.
  intros x. repeat split.
  - rewrite (sanitize_of_clean _ (sanitize_legal x) (sanitize_no_run x)).
    unfold file_utils.sanitize_filename. apply strip_idempotent.
  - apply sanitize_legal.
  - apply sanitize_no_run.
  - unfold file_utils.sanitize_filename, pystr.strip.
    apply rstrip_head_kept, lstrip_head_kept.
  - unfold file_utils.sanitize_filename, pystr.strip. apply rstrip_last_kept.
Qed.

(** C10.  [ensure_pdf_extension] is idempotent, its result ends with the
    extension when case is ignored, and it returns its argument exactly
    when the argument already ends with the extension, case ignored. *)
Theorem ensure_pdf_extension_idempotent :
  forall s : string,
    file_utils.ensure_pdf_extension (file_utils.ensure_pdf_extension s)
    = file_utils.ensure_pdf_extension s /\
    pystr.endswith (pystr.lower (file_utils.ensure_pdf_extension s)) ".pdf"
    = true /\
    (file_utils.ensure_pdf_extension s = s <->
     pystr.endswith (pystr.lower s) ".pdf" = true).
Proof.
  intros s.
  assert (Hends : pystr.endswith
                    (pystr.lower (file_utils.ensure_pdf_extension s)) ".pdf"
                  = true).
  { unfold file_utils.ensure_pdf_extension, constants.PDF_EXTENSION.
    destruct (pystr.endswith (pystr.lower s) ".pdf") eqn:E; simpl.
    - exact E.
    - rewrite lower_append. apply endswith_append. }
  split; [|split].
  - unfold file_utils.ensure_pdf_extension at 1.
    unfold constants.PDF_EXTENSION. now rewrite Hends.
  - exact Hends.
  - unfold file_utils.ensure_pdf_extension, constants.PDF_EXTENSION.
    destruct (pystr.endswith (pystr.lower s) ".pdf") eqn:E; simpl.
    + tauto.
    + split; [|discriminate]. intros H. now apply append_pdf_neq in H.
Qed.

(** ** Output names *)

Section OutputName.

Local Open Scope string_scope.
Import file_utils settings.

(** The name that is sanitized: the output name the user gave, when it is
    set and not empty, and the name of the source folder otherwise. *)
Definition base_name (s : MergeSettings) (folder : path.Path) : string :=
  match output_name s with
  | Some (String c n) => String c n
  | _ => path.name folder
  end.

Lemma resolve_output_name_base s folder :
  orchestrator._resolve_output_name s folder
  = ensure_pdf_extension (sanitize_filename (base_name s folder)).
Proof.
  unfold orchestrator._resolve_output_name, base_name.
  destruct (output_name s) as [[|c n]|]; reflexivity.
Qed.

End OutputName.

(** C9.  When every character of the base name is one that sanitization
    replaces or strips (one of the nine replaced characters, an underscore
    or a space), which includes the empty base name, the sanitized base
    name is empty and the resolved output name is the bare extension. *)
Theorem resolve_output_name_bare_extension :
  forall (s : settings.MergeSettings) (folder : path.Path),
    all_chars (fun c => file_utils.illegal c || stripped c)
      (base_name s folder) = true ->
    file_utils.sanitize_filename (base_name s folder) = EmptyString /\
    orchestrator._resolve_output_name s folder = ".pdf"%string.
Proof.
  intros s folder H.
  pose proof (sanitize_vanishes _ H) as E. split; [exact E|].
  rewrite resolve_output_name_base, E. reflexivity.
Qed.

Lemma resolve_output_name_bare_extension_witness :
  orchestrator._resolve_output_name
    (settings.Build_MergeSettings ["home"; "docs"] false (Some "<_ ?>"%string) None)
    ["home"; "docs"] = ".pdf"%string /\
  orchestrator._resolve_output_name
    (settings.Build_MergeSettings [] true None None) [] = ".pdf"%string /\
  orchestrator._resolve_output_name
    (settings.Build_MergeSettings ["a"; "__ __"%string] true (Some EmptyString) None)
    ["a"; "__ __"%string] = ".pdf"%string.
Proof.
  split; [|split].
  - apply (resolve_output_name_bare_extension
             (settings.Build_MergeSettings ["home"; "docs"] false
                (Some "<_ ?>"%string) None) ["home"; "docs"]).
    reflexivity.
  - apply (resolve_output_name_bare_extension
             (settings.Build_MergeSettings [] true None None) []).
    reflexivity.
  - apply (resolve_output_name_bare_extension
             (settings.Build_MergeSettings ["a"; "__ __"%string] true
                (Some EmptyString) None) ["a"; "__ __"%string]).
    reflexivity.
Defined.

(** ** The timestamped name *)

(** Patterns of fixed width, enough for [Report_\d{8}_\d{6}.pdf]: a
    literal text, a run of exactly [n] digits, one arbitrary character. *)
Module pattern.

Inductive item :=
| Lit (text : string)
| Digits (n : nat)
| AnyChar.

Fixpoint take_lit (text s : string) : option string :=
  match text, s with
  | EmptyString, _ => Some s
  | String a text', String b s' =>
      if Ascii.eqb a b then take_lit text' s' else None
  | String _ _, EmptyString => None
  end.

Fixpoint take_digits (n : nat) (s : string) : option string :=
  match n, s with
  | O, _ => Some s
  | S n', String c s' => if pystr.is_digit c then take_digits n' s' else None
  | S _, EmptyString => None
  end.

Definition take (i : item) (s : string) : option string :=
  match i with
  | Lit text => take_lit text s
  | Digits n => take_digits n s
  | AnyChar => match s with String _ s' => Some s' | EmptyString => None end
  end.

(** The whole of [s] matches the items in sequence. *)
Fixpoint fullmatch (items : list item) (s : string) : bool :=
  match items with
  | [] => match s with EmptyString => true | _ => false end
  | i :: items' =>
      match take i s with
      | Some rest => fullmatch items' rest
      | None => false
      end
  end.

(** [stem_\d{8}_\d{6}.pdf] *)
Definition timestamped (stem : string) : list item :=
  [Lit stem; Lit "_"; Digits 8; Lit "_"; Digits 6; AnyChar; Lit "pdf"].

End pattern.

Section Timestamp.

Local Open Scope string_scope.
Import file_utils.

Lemma take_lit_append text rest : pattern.take_lit text (text ++ rest) = Some rest.
Proof.
  induction text as [|a text IH]; simpl; [reflexivity|].
  now rewrite Ascii.eqb_refl.
Qed.

Lemma take_digits_append d rest :
  pystr.all_digits d = true ->
  pattern.take_digits (String.length d) (d ++ rest) = Some rest.
Proof.
  induction d as [|c d IH]; simpl; [reflexivity|].
  rewrite andb_true_iff. intros [Hc Hd]. now rewrite Hc, IH.
Qed.

Lemma all_digits_append a b :
  pystr.all_digits (a ++ b) = pystr.all_digits a && pystr.all_digits b.
Proof.
  induction a as [|c a IH]; simpl; [reflexivity|].
  now rewrite IH, andb_assoc.
Qed.

(** A field below [10 ^ width] is rendered as exactly [width] digits. *)
Definition padded_ok (width n : nat) : bool :=
  (String.length (zero_padded width n) =? width)%nat
  && pystr.all_digits (zero_padded width n).

Lemma padded_2 n : n < 100 -> padded_ok 2 n = true.
Proof.
  intros H.
  assert (A : forallb (padded_ok 2) (seq 0 100) = true) by (vm_compute; reflexivity).
  rewrite forallb_forall in A. apply A, in_seq. lia.
Qed.

Lemma padded_4 n : n <= 9999 -> padded_ok 4 n = true.
Proof.
  intros H.
  assert (A : forallb (padded_ok 4) (seq 0 (S 9999)) = true)
    by (vm_compute; reflexivity).
  rewrite forallb_forall in A. apply A, in_seq. lia.
Qed.

(** The number a string of digits spells. *)
Fixpoint digits_value_from (acc : nat) (s : string) : nat :=
  match s with
  | EmptyString => acc
  | String c s' => digits_value_from (10 * acc + (nat_of_ascii c - 48)) s'
  end.

Definition digits_value (s : string) : nat := digits_value_from 0 s.

Lemma padded_2_value n : n < 100 -> digits_value (zero_padded 2 n) = n.
Proof.
  intros H.
  assert (A : forallb (fun n => digits_value (zero_padded 2 n) =? n)%nat
                (seq 0 100) = true) by (vm_compute; reflexivity).
  rewrite forallb_forall in A. apply Nat.eqb_eq, A, in_seq. lia.
Qed.

Lemma padded_4_value n : n <= 9999 -> digits_value (zero_padded 4 n) = n.
Proof.
  intros H.
  assert (A : forallb (fun n => digits_value (zero_padded 4 n) =? n)%nat
                (seq 0 (S 9999)) = true) by (vm_compute; reflexivity).
  rewrite forallb_forall in A. apply Nat.eqb_eq, A, in_seq. lia.
Qed.

Lemma padded_length_2 n : n < 100 -> String.length (zero_padded 2 n) = 2.
Proof.
  intros H. pose proof (padded_2 n H) as P. unfold padded_ok in P.
  apply andb_true_iff in P as [P _]. now apply Nat.eqb_eq in P.
Qed.

Lemma padded_length_4 n : n <= 9999 -> String.length (zero_padded 4 n) = 4.
Proof.
  intros H. pose proof (padded_4 n H) as P. unfold padded_ok in P.
  apply andb_true_iff in P as [P _]. now apply Nat.eqb_eq in P.
Qed.

(** The fields of a valid time are rendered with their widths, in digits
    that spell the field. *)
Lemma field_2 n :
  n < 100 ->
  String.length (zero_padded 2 n) = 2 /\
  pystr.all_digits (zero_padded 2 n) = true /\
  digits_value (zero_padded 2 n) = n.
Proof.
  intros H. pose proof (padded_2 n H) as P. unfold padded_ok in P.
  apply andb_true_iff in P as [_ P].
  split; [now apply padded_length_2|]. split; [exact P|].
  now apply padded_2_value.
Qed.

Lemma field_4 n :
  n <= 9999 ->
  String.length (zero_padded 4 n) = 4 /\
  pystr.all_digits (zero_padded 4 n) = true /\
  digits_value (zero_padded 4 n) = n.
Proof.
  intros H. pose proof (padded_4 n H) as P. unfold padded_ok in P.
  apply andb_true_iff in P as [_ P].
  split; [now apply padded_length_4|]. split; [exact P|].
  now apply padded_4_value.
Qed.

(** The date part, eight digits, and the time part, six digits. *)
Definition date_part (t : datetime) : string :=
  zero_padded 4 (year t) ++ zero_padded 2 (month t) ++ zero_padded 2 (day t).

Definition time_part (t : datetime) : string :=
  zero_padded 2 (hour t) ++ zero_padded 2 (minute t) ++ zero_padded 2 (second t).

Lemma strftime_parts t :
  strftime_TIMESTAMP_PATTERN t = date_part t ++ "_" ++ time_part t.
Proof.
  unfold strftime_TIMESTAMP_PATTERN, date_part, time_part.
  now rewrite !append_assoc.
Qed.

Lemma date_part_digits t :
  valid_datetime t ->
  String.length (date_part t) = 8 /\ pystr.all_digits (date_part t) = true.
Proof.
  intros (Hy & Hm & Hd & _). unfold date_part.
  assert (Y := padded_4 (year t) (proj2 Hy)).
  assert (Mo := padded_2 (month t) ltac:(lia)).
  assert (D := padded_2 (day t) ltac:(lia)).
  unfold padded_ok in *.
  apply andb_true_iff in Y as [Y1 Y2], Mo as [M1 M2], D as [D1 D2].
  apply Nat.eqb_eq in Y1, M1, D1.
  rewrite !length_append, !all_digits_append, Y1, M1, D1, Y2, M2, D2.
  split; reflexivity.
Qed.

Lemma time_part_digits t :
  valid_datetime t ->
  String.length (time_part t) = 6 /\ pystr.all_digits (time_part t) = true.
Proof.
  intros (_ & _ & _ & Hh & Hm & Hs). unfold time_part.
  assert (H := padded_2 (hour t) ltac:(lia)).
  assert (Mi := padded_2 (minute t) ltac:(lia)).
  assert (S := padded_2 (second t) ltac:(lia)).
  unfold padded_ok in *.
  apply andb_true_iff in H as [H1 H2], Mi as [M1 M2], S as [S1 S2].
  apply Nat.eqb_eq in H1, M1, S1.
  rewrite !length_append, !all_digits_append, H1, M1, S1, H2, M2, S2.
  split; reflexivity.
Qed.

Lemma timestamped_fullmatch stem t :
  valid_datetime t ->
  pattern.fullmatch (pattern.timestamped stem)
    (stem ++ "_" ++ strftime_TIMESTAMP_PATTERN t ++ ".pdf") = true.
Proof.
  intros V.
  destruct (date_part_digits t V) as [Ld Dd].
  destruct (time_part_digits t V) as [Lt Dt].
  rewrite strftime_parts, !append_assoc.
  unfold pattern.timestamped.
  cbn [pattern.fullmatch pattern.take].
  rewrite take_lit_append.
  change ("_" ++ date_part t ++ "_" ++ time_part t ++ ".pdf")
    with ("_" ++ (date_part t ++ "_" ++ time_part t ++ ".pdf")).
  rewrite take_lit_append.
  rewrite <- Ld, (take_digits_append _ _ Dd).
  change ("_" ++ time_part t ++ ".pdf") with ("_" ++ (time_part t ++ ".pdf")).
  rewrite take_lit_append.
  rewrite <- Lt, (take_digits_append _ _ Dt).
  reflexivity.
Qed.

Lemma rfind_dot_pdf a : path.rfind_dot (a ++ ".pdf") = Some (String.length a).
Proof.
  induction a as [|c a IH]; [reflexivity|].
  cbn [append path.rfind_dot String.length]. now rewrite IH.
Qed.

Lemma substring_prefix a b : String.substring 0 (String.length a) (a ++ b) = a.
Proof.
  induction a as [|c a IH]; simpl.
  - now destruct b.
  - now rewrite IH.
Qed.

(** The stem of [a.pdf] is [a], for a non-empty [a]. *)
Lemma stem_of_pdf_name a :
  a <> "" -> path.stem_of_name (a ++ ".pdf") = a.
Proof.
  intros Ha. unfold path.stem_of_name. rewrite rfind_dot_pdf, length_append.
  destruct a as [|c a]; [congruence|].
  replace (0 <? String.length (String c a))%nat with true
    by (symmetry; apply Nat.ltb_lt; simpl; lia).
  replace (String.length (String c a)
           <? String.length (String c a) + String.length ".pdf" - 1)%nat
    with true by (symmetry; apply Nat.ltb_lt; simpl; lia).
  apply substring_prefix.
Qed.

Lemma name_joinpath d n : path.name (path.joinpath d n) = n.
Proof. unfold path.name, path.joinpath. apply last_last. Qed.

Lemma parent_joinpath d n : path.parent (path.joinpath d n) = d.
Proof. unfold path.parent, path.joinpath. apply removelast_last. Qed.

End Timestamp.

(** C4.  For a destination path [destination / output_name]: when the path
    does not exist it is returned unchanged; when it exists, the result is
    the same directory with the name [stem_timestamp.pdf], the timestamp
    being eight digits, an underscore and six digits.  The digits are those
    of the current local time: four that spell its year, then two each for
    the month and the day, and after the underscore two each for the hour,
    the minute and the second.  So the timestamp is inserted between the
    stem and the extension of a name [stem.pdf], and an existing
    [Report.pdf] resolves to a name matching [Report_\d{8}_\d{6}.pdf].
    There is one existence test and one rename: the renamed path is
    returned whether or not it exists itself. *)
Theorem ensure_unique_output_once :
  forall (root : fs.node) (now : file_utils.datetime)
         (destination : path.Path) (output_name : string),
    file_utils.valid_datetime now ->
    let p := path.joinpath destination output_name in
    let renamed :=
      path.joinpath destination
        (path.stem_of_name output_name ++ "_" ++
         file_utils.strftime_TIMESTAMP_PATTERN now ++ ".pdf")%string in
    (fs.exists_ root p = false ->
     file_utils.ensure_unique_output root now p = p) /\
    (fs.exists_ root p = true ->
     file_utils.ensure_unique_output root now p = renamed /\
     pattern.fullmatch [pattern.Digits 8; pattern.Lit "_"; pattern.Digits 6]
       (file_utils.strftime_TIMESTAMP_PATTERN now) = true /\
     (forall stem : string,
         stem <> EmptyString -> output_name = (stem ++ ".pdf")%string ->
         path.name (file_utils.ensure_unique_output root now p)
         = (stem ++ "_" ++ file_utils.strftime_TIMESTAMP_PATTERN now
                 ++ ".pdf")%string) /\
     (output_name = "Report.pdf"%string ->
      pattern.fullmatch (pattern.timestamped "Report")
        (path.name (file_utils.ensure_unique_output root now p)) = true) /\
     (forall root' : fs.node,
         fs.exists_ root' p = true ->
         file_utils.ensure_unique_output root' now p = renamed) /\
     (exists y mo d h mi sec : string,
         path.name (file_utils.ensure_unique_output root now p)
         = (path.stem_of_name output_name ++ "_" ++
            y ++ mo ++ d ++ "_" ++ h ++ mi ++ sec ++ ".pdf")%string /\
         (String.length y = 4 /\ pystr.all_digits y = true /\
          digits_value y = file_utils.year now) /\
         (String.length mo = 2 /\ pystr.all_digits mo = true /\
          digits_value mo = file_utils.month now) /\
         (String.length d = 2 /\ pystr.all_digits d = true /\
          digits_value d = file_utils.day now) /\
         (String.length h = 2 /\ pystr.all_digits h = true /\
          digits_value h = file_utils.hour now) /\
         (String.length mi = 2 /\ pystr.all_digits mi = true /\
          digits_value mi = file_utils.minute now) /\
         (String.length sec = 2 /\ pystr.all_digits sec = true /\
          digits_value sec = file_utils.second now))).
Proof.
  intros root now destination output_name V p renamed.
  assert (R : forall r, fs.exists_ r p = true ->
                        file_utils.ensure_unique_output r now p = renamed).
  { intros r E. unfold file_utils.ensure_unique_output. rewrite E. simpl.
    unfold path.with_name, path.stem, p, renamed, constants.PDF_EXTENSION.
    now rewrite parent_joinpath, name_joinpath. }
  split.
  - intros E. unfold file_utils.ensure_unique_output. now rewrite E.
  - intros E. split; [exact (R root E)|]. split; [|split; [|split; [|split]]].
    + destruct (date_part_digits now V) as [Ld Dd].
      destruct (time_part_digits now V) as [Lt Dt].
      rewrite strftime_parts.
      replace (date_part now ++ "_" ++ time_part now)%string
        with (date_part now ++ "_" ++ time_part now ++ "")%string
        by now rewrite append_nil_r.
      cbn [pattern.fullmatch pattern.take].
      rewrite <- Ld, (take_digits_append _ _ Dd), take_lit_append.
      rewrite <- Lt, (take_digits_append _ _ Dt). reflexivity.
    + intros stem Hs Hn. rewrite (R root E). unfold renamed.
      rewrite name_joinpath, Hn, (stem_of_pdf_name stem Hs). reflexivity.
    + intros Hn. rewrite (R root E). unfold renamed.
      rewrite name_joinpath, Hn.
      change (path.stem_of_name "Report.pdf") with "Report"%string.
      now apply timestamped_fullmatch.
    + exact R.
    + destruct V as (Hy & Hmo & Hd & Hh & Hmi & Hs).
      exists (file_utils.zero_padded 4 (file_utils.year now)),
        (file_utils.zero_padded 2 (file_utils.month now)),
        (file_utils.zero_padded 2 (file_utils.day now)),
        (file_utils.zero_padded 2 (file_utils.hour now)),
        (file_utils.zero_padded 2 (file_utils.minute now)),
        (file_utils.zero_padded 2 (file_utils.second now)).
      split.
      * rewrite (R root E). unfold renamed. rewrite name_joinpath.
        unfold file_utils.strftime_TIMESTAMP_PATTERN.
        now rewrite !append_assoc.
      * split; [apply field_4; lia|].
        repeat split; apply field_2; lia.
Qed.

(** A sample world: a folder with three documents, one corrupt file and an
    earlier [Report.pdf]. *)
Definition sample_now : file_utils.datetime :=
  file_utils.Build_datetime 2024 3 7 9 5 0.

Definition document (pages : list fs.Page) : fs.node :=
  fs.File (fs.Build_PdfFile pages None).

Definition corrupt (msg : string) : fs.node :=
  fs.File (fs.Build_PdfFile [] (Some msg)).

Definition sample_root : fs.node :=
  fs.Dir [("docs"%string,
           fs.Dir [("B.pdf"%string, document [21; 22]);
                   ("a.pdf"%string, document [11; 12; 13]);
                   ("c.pdf"%string, corrupt "EOF marker not found");
                   ("Report.pdf"%string, document [1]);
                   ("Report_20240307_090500.pdf"%string, document [2])])].

Lemma sample_now_valid : file_utils.valid_datetime sample_now.
Proof.
  unfold file_utils.valid_datetime, sample_now. simpl.
  repeat split; try (apply Nat.leb_le; reflexivity);
    apply Nat.ltb_lt; reflexivity.
Defined.

Lemma ensure_unique_output_once_witness :
  file_utils.ensure_unique_output sample_root sample_now
    ["docs"; "Report.pdf"]%string
  = ["docs"; "Report_20240307_090500.pdf"]%string /\
  fs.exists_ sample_root ["docs"; "Report_20240307_090500.pdf"]%string = true /\
  pattern.fullmatch (pattern.timestamped "Report")
    (path.name (file_utils.ensure_unique_output sample_root sample_now
                  ["docs"; "Report.pdf"]%string)) = true /\
  file_utils.ensure_unique_output sample_root sample_now
    ["docs"; "Merged.pdf"]%string
  = ["docs"; "Merged.pdf"]%string.
Proof.
  pose proof (ensure_unique_output_once sample_root sample_now
                ["docs"%string] "Report.pdf" sample_now_valid) as [_ H].
  destruct (H eq_refl) as (E & _ & _ & M & _ & _).
  pose proof (ensure_unique_output_once sample_root sample_now
                ["docs"%string] "Merged.pdf" sample_now_valid) as [N _].
  split; [exact E|]. split; [reflexivity|]. split; [exact (M eq_refl)|].
  exact (N eq_refl).
Defined.

(** The standalone script renames as [ensure_unique_output] does. *)
Lemma script_timestamped_path (w : world.World) (p : path.Path) :
  fs.exists_ (world.root w) p = true ->
  pdf_merger.timestamped_path w p
  = file_utils.ensure_unique_output (world.root w) (world.now w) p.
Proof.
  intros E. unfold file_utils.ensure_unique_output. rewrite E. reflexivity.
Qed.

(** ** Runs that no interrupt disturbs *)

Section QuietRuns.

Import effects world.

(** A state with no interrupt to come. *)
Definition quiet (out : list line) (doc : list fs.Page)
  (wr : option (path.Path * file_content)) : State :=
  {| stdout := out; sigint := None; pdf_writer := doc; written := wr |}.

Lemma quiet_state st :
  sigint st = None -> st = quiet (stdout st) (pdf_writer st) (written st).
Proof. destruct st as [o i d wr]. simpl. intros ->. reflexivity. Qed.

Lemma bind_return {A B} (m : M A) (k : A -> M B) st a st' :
  m st = (Return a, st') -> bind m k st = k a st'.
Proof. unfold bind. now intros ->. Qed.

Lemma bind_raise {A B} (m : M A) (k : A -> M B) st e st' :
  m st = (Raise e, st') -> bind m k st = (Raise e, st').
Proof. unfold bind. now intros ->. Qed.

Lemma tick_quiet out doc wr :
  tick (quiet out doc wr) = (Return tt, quiet out doc wr).
Proof. reflexivity. Qed.

Lemma print_quiet l out doc wr :
  print l (quiet out doc wr) = (Return tt, quiet (out ++ [l]) doc wr).
Proof. reflexivity. Qed.

(** The lines [print_items] adds. *)
Fixpoint item_lines (idx : nat) (items : list string) : list line :=
  match items with
  | [] => []
  | value :: rest =>
      console.plain ("  " ++ pystr.rjust 2 " "%char (pystr.decimal idx)
                     ++ ". " ++ value)%string
      :: item_lines (S idx) rest
  end.

Lemma print_items_quiet items : forall idx out doc wr,
  console.print_items idx items (quiet out doc wr)
  = (Return tt, quiet (out ++ item_lines idx items) doc wr).
Proof.
  induction items as [|v items IH]; intros idx out doc wr.
  - simpl. now rewrite app_nil_r.
  - cbn [console.print_items item_lines].
    rewrite (bind_return _ _ _ _ _ (print_quiet _ out doc wr)).
    rewrite IH. now rewrite <- app_assoc.
Qed.

(** The lines [print_files] adds. *)
Definition files_lines (items : list string) (preview_limit total : nat)
  : list line :=
  console.cyan "Files to merge:" :: item_lines 1 items ++
  (if preview_limit <? total
   then [console.more_files (total - preview_limit)] else []).

Lemma print_files_quiet items preview_limit total out doc wr :
  console.print_files items preview_limit total (quiet out doc wr)
  = (Return tt, quiet (out ++ files_lines items preview_limit total) doc wr).
Proof.
  unfold console.print_files, files_lines.
  rewrite (bind_return _ _ _ _ _ (print_quiet _ out doc wr)).
  rewrite (bind_return _ _ _ _ _ (print_items_quiet items 1 _ doc wr)).
  destruct (preview_limit <? total).
  - rewrite print_quiet. now rewrite <- !app_assoc.
  - unfold ret. now rewrite app_nil_r, <- app_assoc.
Qed.

Lemma add_pages_quiet pages : forall out doc wr,
  merger.add_pages pages (quiet out doc wr)
  = (Return tt, quiet out (doc ++ pages) wr).
Proof.
  induction pages as [|pg pages IH]; intros out doc wr.
  - simpl. now rewrite app_nil_r.
  - cbn [merger.add_pages].
    rewrite (bind_return _ _ (quiet out doc wr) tt (quiet out (doc ++ [pg]) wr))
      by reflexivity.
    rewrite IH. now rewrite <- app_assoc.
Qed.

(** What reading one path does: the exception it ends with, the pages
    that reach the writer, the pages it adds to the count. *)
Definition read_exn (w : World) (p : path.Path) : option exn :=
  match fs.lookup (root w) p with
  | Some (fs.File content) =>
      match fs.failure content with
      | Some msg => Some (OtherException msg)
      | None => None
      end
  | Some (fs.Dir _) => Some (OtherException "Is a directory")
  | None => Some (FileNotFoundError "No such file or directory")
  end.

Definition pages_appended (w : World) (p : path.Path) : list fs.Page :=
  match fs.lookup (root w) p with
  | Some (fs.File content) => fs.pages_read content
  | _ => []
  end.

Definition succeeds (w : World) (p : path.Path) : bool :=
  match read_exn w p with None => true | Some _ => false end.

Definition pages_counted (w : World) (p : path.Path) : nat :=
  if succeeds w p then List.length (pages_appended w p) else 0.

Definition added_line (k : nat) : line :=
  console.plain ("    Added " ++ pystr.decimal k ++ " pages")%string.

(** The lines one file adds to the console. *)
Definition file_lines (w : World) (n index : nat) (p : path.Path) : list line :=
  (if HAS_TQDM w then [] else [merger.processing_line p index n]) ++
  match read_exn w p with
  | Some e => [merger.failed_line p e]
  | None =>
      if HAS_TQDM w then [] else [added_line (List.length (pages_appended w p))]
  end.

Fixpoint files_log (w : World) (n index : nat) (files : list path.Path)
  : list line :=
  match files with
  | [] => []
  | p :: rest => file_lines w n index p ++ files_log w n (S index) rest
  end.

Lemma process_file_quiet w n index p total out doc wr :
  merger.process_file w n index p total (quiet out doc wr)
  = (Return (total + pages_counted w p),
     quiet (out ++ file_lines w n index p) (doc ++ pages_appended w p) wr).
Proof.
  unfold merger.process_file, merger.read_into_writer, merger.open_pdf,
    file_lines, pages_counted, succeeds, read_exn, pages_appended.
  destruct (HAS_TQDM w) eqn:T;
    destruct (fs.lookup (root w) p) as [[content|es]|] eqn:L;
    try destruct (fs.failure content) as [msg|] eqn:F;
    unfold bind, try_except, ret, raise, print; simpl;
    rewrite ?L, ?F, ?T; simpl;
    try (change {| stdout := ?o; sigint := None; pdf_writer := ?d; written := ?x |}
           with (quiet o d x));
    try rewrite add_pages_quiet; simpl; rewrite ?F, ?T; simpl;
    unfold quiet; rewrite ?app_nil_r, ?Nat.add_0_r, <- ?app_assoc;
    reflexivity.
Qed.

End QuietRuns.

(** ** The merge *)

Section Merge.

Import effects world.

Lemma process_files_quiet w n files : forall index total out doc wr,
  merger.process_files w n index files total (quiet out doc wr)
  = (Return (total + list_sum (map (pages_counted w) files)),
     quiet (out ++ files_log w n index files)
           (doc ++ flat_map (pages_appended w) files) wr).
Proof.
  induction files as [|p files IH]; intros index total out doc wr.
  - simpl. unfold ret. now rewrite !app_nil_r, Nat.add_0_r.
  - cbn [merger.process_files files_log flat_map].
    rewrite (bind_return _ _ _ _ _ (process_file_quiet w n index p total out doc wr)).
    rewrite IH, <- !app_assoc. f_equal. f_equal. simpl. lia.
Qed.

Definition saving_line (output_path : path.Path) : line :=
  console.info ("Saving merged PDF to: " ++ merger.path_str output_path)%string.

(** The console of a merge: one block per file, then the saving line. *)
Definition merge_log (w : World) (files : list path.Path)
  (output_path : path.Path) : list line :=
  files_log w (List.length files) 1 files ++ [saving_line output_path].

(** The document a merge assembles. *)
Definition merged_document (w : World) (files : list path.Path) : list fs.Page :=
  flat_map (pages_appended w) files.

Definition merge_outcome (w : World) (files : list path.Path)
  (output_path : path.Path) : merger.MergeOutcome :=
  {| merger.output_path := output_path;
     merger.total_pages := list_sum (map (pages_counted w) files);
     merger.file_size_mb :=
       Qmake (Z.of_nat (serialized_size w (merged_document w files)))
             (1024 * 1024) |}.

Lemma write_pdf_quiet w output_path out doc wr :
  write_error w = None ->
  merger.write_pdf w output_path (quiet out doc wr)
  = (Return tt, quiet out doc (Some (output_path, Document doc))).
Proof.
  intros W. unfold merger.write_pdf, merger.open_wb, merger.write_handle, bind.
  simpl. rewrite !W. reflexivity.
Qed.

(** With a PDF library, no interrupt and a destination that can be
    written, [merge] returns. *)
Lemma merge_quiet w files output_path out doc wr :
  PDF_IMPORT_ERROR w = None -> write_error w = None ->
  merger.merge w files output_path (quiet out doc wr)
  = (Return (merge_outcome w files output_path),
     quiet (out ++ merge_log w files output_path)
           (merged_document w files)
           (Some (output_path, Document (merged_document w files)))).
Proof.
  intros I W. unfold merger.merge. rewrite I.
  rewrite (bind_return _ _ (quiet out doc wr) tt (quiet out [] wr)) by reflexivity.
  rewrite (bind_return _ _ _ _ _
             (process_files_quiet w (List.length files) files 1 0 out [] wr)).
  rewrite (bind_return _ _ _ _ _ (print_quiet _ _ _ _)).
  rewrite (bind_return _ _ _ _ _ (write_pdf_quiet w output_path _ _ _ W)).
  unfold bind, ret, merger.stat_size, merge_log, merged_document, merge_outcome,
    saving_line.
  simpl. unfold quiet. now rewrite <- app_assoc.
Qed.

(** What a failing write raises and what it leaves at the output path:
    nothing new when [open] fails, a file without the document when
    [write] fails. *)
Definition write_failure_message (f : write_failure) : string :=
  match f with OpenFails msg | WriteFails msg => msg end.

Definition after_write_failure (f : write_failure) (output_path : path.Path)
  (wr : option (path.Path * file_content)) : option (path.Path * file_content) :=
  match f with
  | OpenFails _ => wr
  | WriteFails _ => Some (output_path, Partial)
  end.

Lemma write_pdf_fails w output_path out doc wr f :
  write_error w = Some f ->
  merger.write_pdf w output_path (quiet out doc wr)
  = (Raise (OtherException (write_failure_message f)),
     quiet out doc (after_write_failure f output_path wr)).
Proof.
  intros W. unfold merger.write_pdf, merger.open_wb, merger.write_handle, bind.
  simpl. rewrite !W. destruct f; reflexivity.
Qed.

(** A failing write is not caught by [merge]. *)
Lemma merge_write_error w files output_path out doc wr f :
  PDF_IMPORT_ERROR w = None -> write_error w = Some f ->
  merger.merge w files output_path (quiet out doc wr)
  = (Raise (OtherException (write_failure_message f)),
     quiet (out ++ merge_log w files output_path)
           (merged_document w files)
           (after_write_failure f output_path wr)).
Proof.
  intros I W. unfold merger.merge. rewrite I.
  rewrite (bind_return _ _ (quiet out doc wr) tt (quiet out [] wr)) by reflexivity.
  rewrite (bind_return _ _ _ _ _
             (process_files_quiet w (List.length files) files 1 0 out [] wr)).
  rewrite (bind_return _ _ _ _ _ (print_quiet _ _ _ _)).
  rewrite (bind_raise _ _ _ _ _ (write_pdf_fails w output_path _ _ _ f W)).
  unfold merge_log, merged_document, saving_line.
  now rewrite <- app_assoc.
Qed.

(** Without a PDF library [merge] raises at once. *)
Lemma merge_import_error w files output_path st msg :
  PDF_IMPORT_ERROR w = Some msg ->
  merger.merge w files output_path st = (Raise (RuntimeError msg), st).
Proof. intros I. unfold merger.merge. now rewrite I. Qed.

(** The lines of failed files, in input order. *)
Definition failure_report (w : World) (files : list path.Path) : list line :=
  flat_map (fun p => match read_exn w p with
                     | Some e => [merger.failed_line p e]
                     | None => []
                     end) files.

Definition is_error_line (l : line) : bool :=
  match fst l with Error => true | _ => false end.

Lemma files_log_errors w n files : forall index,
  filter is_error_line (files_log w n index files) = failure_report w files.
Proof.
  induction files as [|p files IH]; intros index; [reflexivity|].
  cbn [files_log failure_report flat_map].
  rewrite filter_app, IH. f_equal.
  unfold file_lines. rewrite filter_app.
  destruct (HAS_TQDM w); destruct (read_exn w p); reflexivity.
Qed.

(** A file fails to read when the exception comes from opening the file
    or from the reader, before the loop over the pages has appended a
    page. *)
Definition fails_to_read (w : World) (p : path.Path) : Prop :=
  succeeds w p = false /\ pages_appended w p = [].

Definition pages_of_successful (w : World) (files : list path.Path)
  : list fs.Page :=
  flat_map (fun p => if succeeds w p then pages_appended w p else []) files.

Lemma merged_document_successful w files :
  Forall (fun p => succeeds w p = true \/ fails_to_read w p) files ->
  merged_document w files = pages_of_successful w files.
Proof.
  unfold merged_document, pages_of_successful.
  induction 1 as [|p files Hp _ IH]; [reflexivity|].
  cbn [flat_map]. rewrite IH. f_equal.
  destruct Hp as [-> | [-> ->]]; reflexivity.
Qed.

End Merge.

(** ** The merge of the standalone script *)

Section ScriptMerge.

Import effects world.

Lemma read_files_quiet w n files : forall i total out doc wr,
  pdf_merger.read_files w n i files total (quiet out doc wr)
  = (Return (total + list_sum (map (pages_counted w) files)),
     quiet (out ++ files_log w n (S i) files)
           (doc ++ flat_map (pages_appended w) files) wr).
Proof.
  induction files as [|p files IH]; intros i total out doc wr.
  - simpl. unfold ret. now rewrite !app_nil_r, Nat.add_0_r.
  - cbn [pdf_merger.read_files files_log flat_map].
    assert (E : try_except (pdf_merger.read_file w n i p total)
                  (fun e => if is_Exception e
                            then Some (bind (print (merger.failed_line p e))
                                         (fun _ => ret total))
                            else None) (quiet out doc wr)
                = (Return (total + pages_counted w p),
                   quiet (out ++ file_lines w n (S i) p)
                         (doc ++ pages_appended w p) wr)).
    { unfold pdf_merger.read_file, merger.open_pdf,
        file_lines, pages_counted, succeeds, read_exn, pages_appended.
      rewrite Nat.add_1_r.
      destruct (HAS_TQDM w) eqn:T;
        destruct (fs.lookup (root w) p) as [[content|es]|] eqn:L;
        try destruct (fs.failure content) as [msg|] eqn:F;
        unfold bind, try_except, ret, raise, print; simpl;
        rewrite ?L, ?F, ?T; simpl;
        try (change {| stdout := ?o; sigint := None; pdf_writer := ?d;
                       written := ?x |} with (quiet o d x));
        try rewrite add_pages_quiet; simpl; rewrite ?F, ?T; simpl;
        unfold quiet; rewrite ?app_nil_r, ?Nat.add_0_r, <- ?app_assoc;
        reflexivity. }
    rewrite (bind_return _ _ _ _ _ E).
    rewrite IH, <- !app_assoc. f_equal. f_equal. simpl. lia.
Qed.

(** What the script prints around the files of a merge that succeeds. *)
Definition script_merge_head (w : World) (files : list path.Path) : list line :=
  [console.info ("Using " ++ PDF_LIB w ++ " library for PDF processing")%string;
   console.info ("Merging " ++ pystr.decimal (List.length files) ++
                 " PDF files...")%string].

Definition script_merge_tail (w : World) (files : list path.Path)
  (output_path : path.Path) : list line :=
  [saving_line output_path;
   console.success ("Successfully created: " ++ path.name output_path)%string;
   console.info ("Total pages: " ++
                 pystr.decimal (list_sum (map (pages_counted w) files)))%string;
   console.info ("File size: " ++
                 app.format_2f (merger.file_size_mb
                                  (merge_outcome w files output_path)) ++
                 " MB")%string].

Lemma merge_pdfs_quiet w files output_path out doc wr :
  files <> [] -> write_error w = None ->
  pdf_merger.merge_pdfs w files output_path (quiet out doc wr)
  = (Return true,
     quiet (out ++ script_merge_head w files
                ++ files_log w (List.length files) 1 files
                ++ script_merge_tail w files output_path)
           (merged_document w files)
           (Some (output_path, Document (merged_document w files)))).
Proof.
  intros N W. destruct files as [|p0 files0]; [congruence|].
  unfold pdf_merger.merge_pdfs, pdf_merger.print_info,
    pdf_merger.print_success.
  rewrite (bind_return _ _ _ _ _ (print_quiet _ _ _ _)).
  rewrite (bind_return _ _ _ _ _ (print_quiet _ _ _ _)).
  rewrite (bind_return _ _ (quiet _ doc wr) tt (quiet _ [] wr)) by reflexivity.
  rewrite (bind_return _ _ _ _ _
             (read_files_quiet w (List.length (p0 :: files0)) (p0 :: files0)
                0 0 _ [] wr)).
  unfold try_except.
  rewrite (bind_return _ _ _ _ _ (print_quiet _ _ _ _)).
  rewrite (bind_return _ _ _ _ _ (write_pdf_quiet w output_path _ _ _ W)).
  unfold bind, ret, print, merger.stat_size, script_merge_head,
    script_merge_tail, merged_document, merge_outcome, saving_line.
  simpl. unfold quiet. rewrite <- !app_assoc. reflexivity.
Qed.

End ScriptMerge.

(** The three files of the example: [A] with three pages, [B] with two,
    [C] corrupt. *)
Definition abc_root : fs.node :=
  fs.Dir [("docs"%string,
           fs.Dir [("A.pdf"%string, document [11; 12; 13]);
                   ("B.pdf"%string, document [21; 22]);
                   ("C.pdf"%string, corrupt "EOF marker not found")])].

Definition sample_world (root : fs.node) : world.World :=
  {| world.root := root;
     world.now := sample_now;
     world.PDF_LIB := "pypdf";
     world.PDF_IMPORT_ERROR := None;
     world.HAS_TQDM := false;
     world.mkdir_error := None;
     world.write_error := None;
     world.serialized_size := fun doc => 1000 * List.length doc;
     world.str_lower := pystr.lower;
     world.expanduser := fun s => s;
     world.resolve := fun s => [s] |}.

Definition abc_files : list path.Path :=
  [["docs"; "A.pdf"]; ["docs"; "B.pdf"]; ["docs"; "C.pdf"]]%string.

(** What the merge does with failed files.  With a PDF library, no
    interrupt and a writable destination,
    [merge] returns for every list of inputs: each failure is caught, the
    error lines printed are the reports of the failed files, one each, in
    input order, and the files after a failed one are processed; the total
    is the sum of the page counts of the files that succeed; the document
    written is what the inputs appended, file after file in input order and
    in page order inside a file.  When every input either succeeds or fails
    to read, that document is the pages of the files that succeed, so a
    failed file adds no page.  The merge of the standalone script returns
    [True] for the same inputs and writes the same document. *)
Theorem merge_tolerates_failed_files :
  forall (w : world.World) (files : list path.Path)
         (output_path : path.Path) (st : effects.State),
    effects.sigint st = None ->
    world.PDF_IMPORT_ERROR w = None ->
    world.write_error w = None ->
    exists (outcome : merger.MergeOutcome) (st' : effects.State),
      merger.merge w files output_path st = (effects.Return outcome, st') /\
      merger.total_pages outcome
      = list_sum (map (fun p => if succeeds w p
                                then List.length (pages_appended w p) else 0)
                      files) /\
      effects.written st' = Some (output_path, effects.Document (merged_document w files)) /\
      (Forall (fun p => succeeds w p = true \/ fails_to_read w p) files ->
       merged_document w files = pages_of_successful w files) /\
      (exists printed,
          effects.stdout st' = effects.stdout st ++ printed /\
          filter is_error_line printed = failure_report w files) /\
      (files <> [] ->
       exists st'',
         pdf_merger.merge_pdfs w files output_path st
         = (effects.Return true, st'') /\
         effects.written st'' = Some (output_path, effects.Document (merged_document w files))).
Proof.
  intros w files output_path st Q I W.
  rewrite (quiet_state st Q).
  eexists. eexists. split; [apply merge_quiet; assumption|].
  split; [reflexivity|]. split; [reflexivity|].
  split; [apply merged_document_successful|].
  split.
  - exists (merge_log w files output_path). split; [reflexivity|].
    unfold merge_log. rewrite filter_app, files_log_errors. simpl.
    apply app_nil_r.
  - intros N. eexists. split; [apply merge_pdfs_quiet; assumption|].
    reflexivity.
Qed.

Lemma merge_tolerates_failed_files_witness :
  exists (outcome : merger.MergeOutcome) (st' : effects.State),
    merger.merge (sample_world abc_root) abc_files
      ["docs"; "docs.pdf"]%string (effects.initial None)
    = (effects.Return outcome, st') /\
    merger.total_pages outcome = 5 /\
    effects.written st'
    = Some (["docs"; "docs.pdf"]%string, effects.Document [11; 12; 13; 21; 22]) /\
    filter is_error_line (effects.stdout st')
    = [console.error "Failed to process C.pdf: EOF marker not found"].
Proof.
  assert (F : Forall (fun p => succeeds (sample_world abc_root) p = true \/
                               fails_to_read (sample_world abc_root) p)
                abc_files).
  { apply Forall_cons; [left; reflexivity|].
    apply Forall_cons; [left; reflexivity|].
    apply Forall_cons; [right; split; reflexivity|].
    apply Forall_nil. }
  destruct (merge_tolerates_failed_files (sample_world abc_root) abc_files
              ["docs"; "docs.pdf"]%string (effects.initial None)
              eq_refl eq_refl eq_refl)
    as (outcome & st' & E & T & Wr & D & (printed & P & R) & _).
  exists outcome, st'. split; [exact E|]. split; [exact T|].
  split; [rewrite Wr, (D F); reflexivity|]. rewrite P. exact R.
Defined.

(** A document that breaks after two of its pages: the reader yields the
    pages [31] and [32], and the third page raises. *)
Definition broken_root : fs.node :=
  fs.Dir [("docs"%string,
           fs.Dir [("A.pdf"%string, document [11; 12; 13]);
                   ("D.pdf"%string,
                    fs.File (fs.Build_PdfFile [31; 32]
                               (Some "broken object"%string)))])].

Definition broken_files : list path.Path :=
  [["docs"; "A.pdf"]; ["docs"; "D.pdf"]]%string.

(** C1.  A file that fails in the middle of its pages.  Merging [A], three
    pages, and [D], which breaks after two of its pages: the failure of [D]
    is caught and reported and the run returns, with a total of 3, the
    pages of [A]; but the document written has five pages, the two pages
    of [D] that were appended before the exception among them.  So a file
    reported as failed contributes pages to the output, and the total is
    not the number of pages of the document.  The merge of the standalone
    script does the same. *)
Theorem merge_keeps_pages_of_failed_file :
  exists (outcome : merger.MergeOutcome) (st' st'' : effects.State),
    merger.merge (sample_world broken_root) broken_files
      ["docs"; "docs.pdf"]%string (effects.initial None)
    = (effects.Return outcome, st') /\
    succeeds (sample_world broken_root) ["docs"; "D.pdf"]%string = false /\
    filter is_error_line (effects.stdout st')
    = [console.error "Failed to process D.pdf: broken object"] /\
    merger.total_pages outcome = 3 /\
    effects.written st'
    = Some (["docs"; "docs.pdf"]%string,
            effects.Document [11; 12; 13; 31; 32]) /\
    pages_of_successful (sample_world broken_root) broken_files
    = [11; 12; 13] /\
    pdf_merger.merge_pdfs (sample_world broken_root) broken_files
      ["docs"; "docs.pdf"]%string (effects.initial None)
    = (effects.Return true, st'') /\
    In (console.info "Total pages: 3") (effects.stdout st'') /\
    effects.written st''
    = Some (["docs"; "docs.pdf"]%string,
            effects.Document [11; 12; 13; 31; 32]).
Proof.
  eexists. eexists. eexists.
  split; [vm_compute; reflexivity|].
  split; [reflexivity|].
  split; [vm_compute; reflexivity|].
  split; [reflexivity|].
  split; [reflexivity|].
  split; [reflexivity|].
  split; [vm_compute; reflexivity|].
  split; [vm_compute; tauto|].
  reflexivity.
Qed.

(** ** The workflow *)

Section Workflow.

Import effects world settings.

(** The directory the output goes to. *)
Definition target (s : MergeSettings) : path.Path :=
  match destination s with
  | Some d => d
  | None => folder_path s
  end.

Definition raw_output_path (s : MergeSettings) : path.Path :=
  path.joinpath (target s)
    (orchestrator._resolve_output_name s (folder_path s)).

Definition resolved_output_path (w : World) (s : MergeSettings) : path.Path :=
  file_utils.ensure_unique_output (root w) (now w) (raw_output_path s).

(** The directory exists, or can be made. *)
Definition mkdir_ok (w : World) (d : path.Path) : Prop :=
  match fs.lookup (root w) d with
  | Some (fs.Dir _) => True
  | Some (fs.File _) => False
  | None => mkdir_error w = None
  end.

Lemma mkdir_parents_quiet w d out doc wr :
  mkdir_ok w d ->
  orchestrator.mkdir_parents w d (quiet out doc wr)
  = (Return tt, quiet out doc wr).
Proof.
  unfold mkdir_ok, orchestrator.mkdir_parents, bind. simpl.
  destruct (fs.lookup (root w) d) as [[c|es]|]; [tauto|reflexivity|].
  now intros ->.
Qed.

Lemma resolve_destination_quiet w s out doc wr :
  mkdir_ok w (target s) ->
  orchestrator._resolve_destination w (destination s) (folder_path s)
    (quiet out doc wr)
  = (Return (target s), quiet out doc wr).
Proof.
  intros K. unfold orchestrator._resolve_destination. fold (target s).
  now rewrite (bind_return _ _ _ _ _ (mkdir_parents_quiet w _ _ _ _ K)).
Qed.

(** What [execute] prints before the preview. *)
Definition execute_head (w : World) (s : MergeSettings) : list line :=
  [console.info ("Source folder: " ++ merger.path_str (folder_path s))%string;
   console.info ("Recursive search: " ++
                 if recursive s then "Yes" else "No")%string;
   console.success
     ("Found " ++ pystr.decimal (List.length (scanner.scan (str_lower w) (root w) s)) ++
      " PDF files")%string] ++
  (if negb (path.eqb (resolved_output_path w s) (raw_output_path s))
   then [console.warning ("Output file exists, using: " ++
                          path.name (resolved_output_path w s))%string]
   else []).

(** What [execute] prints between the preview and the merge. *)
Definition execute_ready (w : World) (s : MergeSettings) : list line :=
  [console.info ("Using " ++ PDF_LIB w ++ " library")%string] ++
  (if negb (HAS_TQDM w)
   then [console.warning "Install 'tqdm' for progress bars: pip install tqdm"]
   else []) ++
  [console.bold
     ("Ready to merge " ++
      pystr.decimal (List.length (scanner.scan (str_lower w) (root w) s)) ++
      " PDF files!")%string;
   console.info ("Output file: " ++
                 merger.path_str (resolved_output_path w s))%string].

(** The preview block. *)
Definition execute_preview (w : World) (s : MergeSettings) : list line :=
  files_lines
    (file_utils.limit_preview (scanner.scan (str_lower w) (root w) s)
       constants.MAX_PREVIEW_FILES)
    constants.MAX_PREVIEW_FILES
    (List.length (scanner.scan (str_lower w) (root w) s)).

Lemma is_dir_exists r p : fs.is_dir r p = true -> fs.exists_ r p = true.
Proof.
  unfold fs.is_dir, fs.exists_.
  destruct (fs.lookup r p) as [[c|es]|]; congruence.
Qed.

(** A run of [execute] that finds files and can place its output goes on
    to merge all the files found. *)
Lemma execute_reaches_merge w s out doc wr :
  fs.is_dir (root w) (folder_path s) = true ->
  scanner.scan (str_lower w) (root w) s <> [] ->
  mkdir_ok w (target s) ->
  orchestrator.execute w s (quiet out doc wr)
  = bind (merger.merge w (scanner.scan (str_lower w) (root w) s) (resolved_output_path w s))
         (fun outcome => ret (Some outcome))
         (quiet (out ++ execute_head w s ++ execute_preview w s ++
                 execute_ready w s) doc wr).
Proof.
  intros D N K.
  unfold orchestrator.execute.
  rewrite (is_dir_exists _ _ D), D. cbv zeta. cbn [negb].
  rewrite (bind_return _ _ _ _ _ (print_quiet _ _ _ _)).
  rewrite (bind_return _ _ _ _ _ (print_quiet _ _ _ _)).
  rewrite (bind_return _ _ _ _ _ (tick_quiet _ _ _)).
  unfold execute_head, execute_preview, execute_ready, resolved_output_path,
    raw_output_path.
  fold (target s).
  destruct (scanner.scan (str_lower w) (root w) s) as [|p0 files0] eqn:S; [congruence|].
  rewrite (bind_return _ _ _ _ _ (print_quiet _ _ _ _)).
  rewrite (bind_return _ _ _ _ _ (resolve_destination_quiet w s _ _ _ K)).
  match goal with
  | |- context [negb (path.eqb ?a ?b)] => destruct (negb (path.eqb a b))
  end.
  - rewrite (bind_return _ _ _ _ _ (print_quiet _ _ _ _)).
    rewrite (bind_return _ _ _ _ _ (print_files_quiet _ _ _ _ _ _)).
    rewrite (bind_return _ _ _ _ _ (print_quiet _ _ _ _)).
    destruct (HAS_TQDM w); cbn [negb].
    + rewrite (bind_return _ _ _ tt _ eq_refl).
      rewrite (bind_return _ _ _ _ _ (print_quiet _ _ _ _)).
      rewrite (bind_return _ _ _ _ _ (print_quiet _ _ _ _)).
      rewrite <- !app_assoc. reflexivity.
    + rewrite (bind_return _ _ _ _ _ (print_quiet _ _ _ _)).
      rewrite (bind_return _ _ _ _ _ (print_quiet _ _ _ _)).
      rewrite (bind_return _ _ _ _ _ (print_quiet _ _ _ _)).
      rewrite <- !app_assoc. reflexivity.
  - rewrite (bind_return _ _ _ tt _ eq_refl).
    rewrite (bind_return _ _ _ _ _ (print_files_quiet _ _ _ _ _ _)).
    rewrite (bind_return _ _ _ _ _ (print_quiet _ _ _ _)).
    destruct (HAS_TQDM w); cbn [negb].
    + rewrite (bind_return _ _ _ tt _ eq_refl).
      rewrite (bind_return _ _ _ _ _ (print_quiet _ _ _ _)).
      rewrite (bind_return _ _ _ _ _ (print_quiet _ _ _ _)).
      rewrite <- !app_assoc. reflexivity.
    + rewrite (bind_return _ _ _ _ _ (print_quiet _ _ _ _)).
      rewrite (bind_return _ _ _ _ _ (print_quiet _ _ _ _)).
      rewrite (bind_return _ _ _ _ _ (print_quiet _ _ _ _)).
      rewrite <- !app_assoc. reflexivity.
Qed.

(** A run of [execute] that finds files and meets no obstacle. *)
Lemma execute_quiet w s out doc wr :
  fs.is_dir (root w) (folder_path s) = true ->
  scanner.scan (str_lower w) (root w) s <> [] ->
  mkdir_ok w (target s) ->
  PDF_IMPORT_ERROR w = None -> write_error w = None ->
  orchestrator.execute w s (quiet out doc wr)
  = (Return (Some (merge_outcome w (scanner.scan (str_lower w) (root w) s)
                     (resolved_output_path w s))),
     quiet (out ++ execute_head w s ++ execute_preview w s ++
            execute_ready w s ++
            merge_log w (scanner.scan (str_lower w) (root w) s) (resolved_output_path w s))
           (merged_document w (scanner.scan (str_lower w) (root w) s))
           (Some (resolved_output_path w s,
                  Document (merged_document w (scanner.scan (str_lower w) (root w) s))))).
Proof.
  intros D N K I W.
  rewrite (execute_reaches_merge w s out doc wr D N K).
  rewrite (bind_return _ _ _ _ _ (merge_quiet w _ _ _ _ _ I W)).
  unfold ret. now rewrite <- !app_assoc.
Qed.

End Workflow.

(** ** The preview *)

Section Preview.

Import effects world settings.

Lemma limit_preview_from_firstn files : forall idx limit,
  file_utils.limit_preview_from idx files limit
  = map path.name (firstn (limit - idx) files).
Proof.
  induction files as [|f files IH]; intros idx limit.
  - simpl. now rewrite firstn_nil.
  - cbn [file_utils.limit_preview_from].
    destruct (limit <=? idx) eqn:E.
    + apply Nat.leb_le in E. replace (limit - idx) with 0 by lia. reflexivity.
    + apply Nat.leb_gt in E. rewrite IH.
      replace (limit - idx) with (S (limit - S idx)) by lia. reflexivity.
Qed.

Lemma limit_preview_firstn files limit :
  file_utils.limit_preview files limit = map path.name (firstn limit files).
Proof.
  unfold file_utils.limit_preview.
  now rewrite limit_preview_from_firstn, Nat.sub_0_r.
Qed.

(** [s] starts with [pre]. *)
Fixpoint starts_with (pre s : string) : bool :=
  match pre, s with
  | EmptyString, _ => true
  | String a pre', String b s' => Ascii.eqb a b && starts_with pre' s'
  | String _ _, EmptyString => false
  end.

(** The lines that announce files left out of the preview: plain lines of
    the form [  ... and (something) more files]. *)
Definition is_more_line (l : line) : bool :=
  match l with
  | (Plain, text) =>
      starts_with "  ... and " text && pystr.endswith text " more files"
  | _ => false
  end.

Definition starts_digit (s : string) : bool :=
  match s with
  | String c _ => pystr.is_digit c
  | EmptyString => false
  end.

Lemma digit_is_digit d : d < 10 -> pystr.is_digit (pystr.digit d) = true.
Proof.
  intros H. do 10 (destruct d as [|d]; [reflexivity|]). lia.
Qed.

Lemma decimal_fuel_starts_digit fuel : forall n acc,
  starts_digit acc = true ->
  starts_digit (pystr.decimal_fuel fuel n acc) = true.
Proof.
  induction fuel as [|fuel IH]; intros n acc H; cbn [pystr.decimal_fuel];
    [exact H|].
  assert (D : starts_digit (String (pystr.digit (n mod 10)) acc) = true).
  { cbn [starts_digit]. apply digit_is_digit. apply Nat.mod_upper_bound.
    discriminate. }
  destruct (n <? 10); [exact D | now apply IH].
Qed.

Lemma decimal_starts_digit n : starts_digit (pystr.decimal n) = true.
Proof.
  unfold pystr.decimal. cbn [pystr.decimal_fuel].
  assert (D : starts_digit (String (pystr.digit (n mod 10)) "") = true).
  { cbn [starts_digit]. apply digit_is_digit. apply Nat.mod_upper_bound.
    discriminate. }
  destruct (n <? 10); [exact D | now apply decimal_fuel_starts_digit].
Qed.

(** A numbered line of the preview is no such line: after its two spaces
    comes a space or a digit. *)
Lemma item_line_not_more idx value :
  is_more_line
    (console.plain ("  " ++ pystr.rjust 2 " "%char (pystr.decimal idx)
                    ++ ". " ++ value)%string) = false.
Proof.
  pose proof (decimal_starts_digit idx) as D.
  unfold is_more_line, console.plain, pystr.rjust.
  destruct (pystr.decimal idx) as [|c [|c' rest]]; [discriminate| |].
  - reflexivity.
  - cbn [String.length Nat.sub pystr.repeat_char append starts_with].
    simpl in D.
    destruct (Ascii.eqb "." c) eqn:E; [|reflexivity].
    apply Ascii.eqb_eq in E. subst c. discriminate.
Qed.

Lemma item_lines_not_more items : forall idx,
  filter is_more_line (item_lines idx items) = [].
Proof.
  induction items as [|v items IH]; intros idx; [reflexivity|].
  cbn [item_lines filter]. now rewrite item_line_not_more, IH.
Qed.

Lemma files_log_not_more w n files : forall index,
  filter is_more_line (files_log w n index files) = [].
Proof.
  induction files as [|p files IH]; intros index; [reflexivity|].
  cbn [files_log]. rewrite filter_app, IH, app_nil_r.
  unfold file_lines. rewrite filter_app.
  destruct (HAS_TQDM w); destruct (read_exn w p); reflexivity.
Qed.

(** The line that announces [k] more files is one. *)
Lemma more_line_is_more k :
  is_more_line
    (Plain, ("  ... and " ++ pystr.decimal k ++ " more files")%string) = true.
Proof.
  unfold is_more_line. apply andb_true_iff. split; [reflexivity|].
  change ("  ... and " ++ pystr.decimal k ++ " more files")%string
    with (("  ... and " ++ pystr.decimal k) ++ " more files")%string
    || rewrite append_assoc.
  apply endswith_append.
Qed.

(** In what [execute] prints, only the preview can announce more files. *)
Lemma execute_log_more w s :
  let files := scanner.scan (str_lower w) (root w) s in
  filter is_more_line
    (execute_head w s ++ execute_preview w s ++ execute_ready w s ++
     merge_log w files (resolved_output_path w s))
  = if 10 <? List.length files
    then [(Plain, ("  ... and " ++ pystr.decimal (List.length files - 10) ++
                   " more files")%string)]
    else [].
Proof.
  intros files. rewrite !filter_app.
  assert (H : filter is_more_line (execute_head w s) = []).
  { unfold execute_head. rewrite filter_app.
    destruct (negb (path.eqb (resolved_output_path w s) (raw_output_path s)));
      reflexivity. }
  assert (R : filter is_more_line (execute_ready w s) = []).
  { unfold execute_ready. rewrite !filter_app.
    destruct (negb (HAS_TQDM w)); reflexivity. }
  assert (M : filter is_more_line (merge_log w files (resolved_output_path w s))
              = []).
  { unfold merge_log. rewrite filter_app, files_log_not_more. reflexivity. }
  rewrite H, R, M, app_nil_r. cbn [app].
  unfold execute_preview, files_lines, constants.MAX_PREVIEW_FILES.
  fold files. cbn [filter is_more_line console.cyan].
  rewrite filter_app, item_lines_not_more. cbn [app].
  destruct (10 <? List.length files); [|reflexivity].
  cbn [filter]. unfold console.more_files, console.plain.
  now rewrite more_line_is_more.
Qed.

End Preview.

(** Twelve one-page documents, to see a preview that elides. *)
Definition twelve_root : fs.node :=
  fs.Dir [("many"%string,
           fs.Dir [("01.pdf"%string, document [1]); ("02.pdf"%string, document [2]);
                   ("03.pdf"%string, document [3]); ("04.pdf"%string, document [4]);
                   ("05.pdf"%string, document [5]); ("06.pdf"%string, document [6]);
                   ("07.pdf"%string, document [7]); ("08.pdf"%string, document [8]);
                   ("09.pdf"%string, document [9]); ("10.pdf"%string, document [10]);
                   ("11.pdf"%string, document [11]); ("12.pdf"%string, document [12])])].

Definition twelve_settings : settings.MergeSettings :=
  settings.Build_MergeSettings ["many"%string] false None None.

(** C8.  In a run of the workflow that finds [n] files and meets no
    obstacle: the preview is the names of the first ten files, in order, so
    at most ten names.  What the run prints is known line by line: the
    lines before the preview, the heading, the numbered names, then the
    plain line [  ... and (n - 10) more files] when [n] exceeds ten and no
    line otherwise, then the lines before the merge and the lines of the
    merge.  Among all the lines printed, the lines of that form are this
    one line when [n] exceeds ten, and none when it does not.  The workflow
    goes on as the merge of all [n] files: the page total and the document
    written are those of the whole list. *)
Theorem preview_does_not_limit_merge :
  forall (w : world.World) (s : settings.MergeSettings) (st : effects.State),
    effects.sigint st = None ->
    fs.is_dir (world.root w) (settings.folder_path s) = true ->
    scanner.scan (world.str_lower w) (world.root w) s <> [] ->
    mkdir_ok w (target s) ->
    world.PDF_IMPORT_ERROR w = None ->
    world.write_error w = None ->
    let files := scanner.scan (world.str_lower w) (world.root w) s in
    let n := List.length files in
    let preview := file_utils.limit_preview files constants.MAX_PREVIEW_FILES in
    let more : effects.line :=
      (effects.Plain,
       ("  ... and " ++ pystr.decimal (n - 10) ++ " more files")%string) in
    preview = map path.name (firstn 10 files) /\
    List.length preview <= 10 /\
    exists (outcome : merger.MergeOutcome) (st0 st' : effects.State)
           (printed : list effects.line),
      orchestrator.execute w s st
      = effects.bind (merger.merge w files (merger.output_path outcome))
          (fun o => effects.ret (Some o)) st0 /\
      orchestrator.execute w s st = (effects.Return (Some outcome), st') /\
      merger.output_path outcome = resolved_output_path w s /\
      effects.stdout st' = effects.stdout st ++ printed /\
      printed
      = execute_head w s ++
        (console.cyan "Files to merge:" :: item_lines 1 preview ++
         (if 10 <? n then [more] else [])) ++
        execute_ready w s ++ merge_log w files (merger.output_path outcome) /\
      filter is_more_line printed = (if 10 <? n then [more] else []) /\
      (10 < n -> In more printed) /\
      (n <= 10 -> forall l, In l printed -> is_more_line l = false) /\
      merger.total_pages outcome = list_sum (map (pages_counted w) files) /\
      effects.written st'
      = Some (merger.output_path outcome,
              effects.Document (merged_document w files)).
Proof.
  intros w s st Q D N K I W files n preview more.
  assert (P : preview = map path.name (firstn 10 files))
    by apply limit_preview_firstn.
  split; [exact P|]. split.
  { rewrite P, length_map, length_firstn. apply Nat.le_min_l. }
  rewrite (quiet_state st Q).
  exists (merge_outcome w files (resolved_output_path w s)).
  eexists. eexists.
  exists (execute_head w s ++ execute_preview w s ++ execute_ready w s ++
          merge_log w files (resolved_output_path w s)).
  assert (F : filter is_more_line
                (execute_head w s ++ execute_preview w s ++
                 execute_ready w s ++
                 merge_log w files (resolved_output_path w s))
              = if 10 <? n then [more] else []) by apply execute_log_more.
  split; [apply execute_reaches_merge; assumption|].
  split; [apply execute_quiet; assumption|].
  split; [reflexivity|].
  split.
  { cbn [quiet effects.stdout]. rewrite <- ?app_assoc. reflexivity. }
  split.
  { cbn [merge_outcome merger.output_path].
    unfold execute_preview, files_lines, constants.MAX_PREVIEW_FILES.
    reflexivity. }
  split; [exact F|].
  split.
  { intros H. apply Nat.ltb_lt in H. rewrite H in F.
    assert (X : In more (filter is_more_line
                           (execute_head w s ++ execute_preview w s ++
                            execute_ready w s ++
                            merge_log w files (resolved_output_path w s))))
      by (rewrite F; now left).
    now apply filter_In in X. }
  split.
  { intros H l L. apply Nat.ltb_ge in H. rewrite H in F.
    destruct (is_more_line l) eqn:E; [|reflexivity].
    assert (X : In l (filter is_more_line
                        (execute_head w s ++ execute_preview w s ++
                         execute_ready w s ++
                         merge_log w files (resolved_output_path w s))))
      by (apply filter_In; now split).
    rewrite F in X. destruct X. }
  split; reflexivity.
Qed.

Lemma preview_does_not_limit_merge_witness :
  exists (outcome : merger.MergeOutcome) (st' : effects.State),
    orchestrator.execute (sample_world twelve_root) twelve_settings
      (effects.initial None)
    = (effects.Return (Some outcome), st') /\
    List.length
      (file_utils.limit_preview
         (scanner.scan pystr.lower twelve_root twelve_settings)
         constants.MAX_PREVIEW_FILES) = 10 /\
    filter is_more_line (effects.stdout st')
    = [(effects.Plain, "  ... and 2 more files"%string)] /\
    merger.total_pages outcome = 12 /\
    effects.written st'
    = Some (["many"; "many.pdf"]%string,
            effects.Document [1; 2; 3; 4; 5; 6; 7; 8; 9; 10; 11; 12]).
Proof.
  assert (N : scanner.scan pystr.lower (world.root (sample_world twelve_root))
                twelve_settings <> []) by (vm_compute; discriminate).
  destruct (preview_does_not_limit_merge (sample_world twelve_root)
              twelve_settings (effects.initial None)
              eq_refl eq_refl N I eq_refl eq_refl)
    as (_ & _ & outcome & st0 & st' & printed
        & _ & E & P & O & _ & F & _ & _ & T & Wr).
  exists outcome, st'. split; [exact E|].
  split; [vm_compute; reflexivity|].
  split.
  - rewrite O. cbn [effects.initial effects.stdout app]. rewrite F.
    vm_compute. reflexivity.
  - split; [rewrite T; vm_compute; reflexivity|].
    rewrite Wr, P. vm_compute. reflexivity.
Defined.

(** A folder whose documents meet no earlier output. *)
Definition report_settings : settings.MergeSettings :=
  settings.Build_MergeSettings ["docs"%string] false (Some "Report"%string) None.

(** C5.  With the output name [Report] and no file [Report.pdf] in the
    destination: sanitization leaves [Report] as it is, the extension is
    appended, and the resolved file name is exactly [Report.pdf]; a run of
    the workflow that meets no obstacle writes to that name.  The test for
    a present extension ignores case: a name that ends with the extension
    in any case is not extended. *)
Theorem report_resolves_to_report_pdf :
  forall (w : world.World) (s : settings.MergeSettings),
    settings.output_name s = Some "Report"%string ->
    fs.exists_ (world.root w) (path.joinpath (target s) "Report.pdf") = false ->
    file_utils.sanitize_filename "Report" = "Report"%string /\
    orchestrator._resolve_output_name s (settings.folder_path s)
    = "Report.pdf"%string /\
    path.name (resolved_output_path w s) = "Report.pdf"%string /\
    resolved_output_path w s = path.joinpath (target s) "Report.pdf" /\
    (forall st : effects.State,
        effects.sigint st = None ->
        fs.is_dir (world.root w) (settings.folder_path s) = true ->
        scanner.scan (world.str_lower w) (world.root w) s <> [] ->
        mkdir_ok w (target s) ->
        world.PDF_IMPORT_ERROR w = None ->
        world.write_error w = None ->
        exists outcome st',
          orchestrator.execute w s st = (effects.Return (Some outcome), st') /\
          path.name (merger.output_path outcome) = "Report.pdf"%string) /\
    (forall name : string,
        pystr.endswith (pystr.lower name) ".pdf" = true ->
        file_utils.ensure_pdf_extension name = name) /\
    file_utils.ensure_pdf_extension "Report.PDF" = "Report.PDF"%string.
Proof.
  intros w s Ho Hx.
  assert (Hn : orchestrator._resolve_output_name s (settings.folder_path s)
               = "Report.pdf"%string).
  { unfold orchestrator._resolve_output_name. rewrite Ho. reflexivity. }
  assert (Hp : resolved_output_path w s
               = path.joinpath (target s) "Report.pdf").
  { unfold resolved_output_path, raw_output_path,
      file_utils.ensure_unique_output. rewrite Hn, Hx. reflexivity. }
  split; [reflexivity|]. split; [exact Hn|].
  split; [rewrite Hp; apply name_joinpath|]. split; [exact Hp|].
  split; [|split; [|reflexivity]].
  - intros st Q D N K I W. rewrite (quiet_state st Q).
    eexists. eexists. split; [apply execute_quiet; assumption|].
    cbn [merge_outcome merger.output_path]. rewrite Hp. apply name_joinpath.
  - intros name H. unfold file_utils.ensure_pdf_extension.
    unfold constants.PDF_EXTENSION. now rewrite H.
Qed.

Lemma report_resolves_to_report_pdf_witness :
  orchestrator._resolve_output_name report_settings ["docs"%string]
  = "Report.pdf"%string /\
  resolved_output_path (sample_world abc_root) report_settings
  = ["docs"; "Report.pdf"]%string /\
  exists outcome st',
    orchestrator.execute (sample_world abc_root) report_settings
      (effects.initial None)
    = (effects.Return (Some outcome), st') /\
    path.name (merger.output_path outcome) = "Report.pdf"%string.
Proof.
  destruct (report_resolves_to_report_pdf (sample_world abc_root)
              report_settings eq_refl eq_refl)
    as (_ & Hn & _ & Hp & Hrun & _).
  split; [exact Hn|]. split; [exact Hp|].
  apply (Hrun (effects.initial None) eq_refl eq_refl).
  - vm_compute. discriminate.
  - exact I.
  - reflexivity.
  - reflexivity.
Defined.

(** ** Interrupts *)

Section Delivered.

Import effects world.

(** The interrupt of a run is delivered once: a computation that ends
    with [KeyboardInterrupt] leaves none pending, and a computation started
    with none pending ends with none pending. *)
Definition delivered {A} (m : M A) : Prop :=
  forall st,
    (fst (m st) = Raise KeyboardInterrupt -> sigint (snd (m st)) = None) /\
    (sigint st = None -> sigint (snd (m st)) = None).

(** An operation that neither raises nor touches the pending interrupt. *)
Lemma delivered_silent {A} (m : M A) :
  (forall st, exists a, fst (m st) = Return a) ->
  (forall st, sigint (snd (m st)) = sigint st) ->
  delivered m.
Proof.
  intros R K st. split.
  - destruct (R st) as [a ->]. discriminate.
  - rewrite K. trivial.
Qed.

Lemma delivered_ret {A} (a : A) : delivered (ret a).
Proof. apply delivered_silent; intros st; [now exists a | reflexivity]. Qed.

Lemma delivered_raise {A} (e : exn) :
  e <> KeyboardInterrupt -> delivered (@raise A e).
Proof. intros N st. split; simpl; [congruence | trivial]. Qed.

Lemma delivered_tick : delivered tick.
Proof.
  intros st. unfold tick.
  destruct (sigint st) as [[|k]|] eqn:E; simpl; split; intros H;
    try reflexivity; try discriminate; assumption.
Qed.

Lemma delivered_bind {A B} (m : M A) (k : A -> M B) :
  delivered m -> (forall a, delivered (k a)) -> delivered (bind m k).
Proof.
  intros Hm Hk st. unfold bind.
  destruct (Hm st) as [Hm1 Hm2]. destruct (m st) as [[a|e] st1]; simpl in *.
  - destruct (Hk a st1) as [Hk1 Hk2]. split; [exact Hk1|].
    intros Q. apply Hk2, Hm2, Q.
  - split; [|exact Hm2]. intros H. apply Hm1. congruence.
Qed.

Lemma delivered_try {A} (body : M A) (handler : exn -> option (M A)) :
  delivered body ->
  (forall e h, handler e = Some h -> delivered h) ->
  delivered (try_except body handler).
Proof.
  intros Hb Hh st. unfold try_except.
  destruct (Hb st) as [Hb1 Hb2]. destruct (body st) as [[a|e] st1]; simpl in *.
  - split; [discriminate | exact Hb2].
  - destruct (handler e) as [h|] eqn:E.
    + destruct (Hh e h E st1) as [H1 H2]. split; [exact H1|].
      intros Q. apply H2, Hb2, Q.
    + split; [exact Hb1 | exact Hb2].
Qed.

Lemma delivered_emit l : delivered (emit l).
Proof.
  apply delivered_silent; intros st; [now exists tt | reflexivity].
Qed.

Lemma delivered_print l : delivered (print l).
Proof.
  unfold print. apply delivered_bind; [apply delivered_tick|].
  intros _. apply delivered_emit.
Qed.

Lemma delivered_if {A} (b : bool) (m1 m2 : M A) :
  delivered m1 -> delivered m2 -> delivered (if b then m1 else m2).
Proof. now destruct b. Qed.

End Delivered.

Ltac delivered_step :=
  first
    [ apply delivered_ret
    | apply delivered_tick
    | apply delivered_print
    | apply delivered_raise; discriminate
    | apply delivered_bind; [|intros ?]
    | apply delivered_if
    | apply delivered_silent; intros ?st; [eexists; reflexivity | reflexivity] ].

Section DeliveredProgram.

Import effects world.

Lemma delivered_print_items items : forall idx,
  delivered (console.print_items idx items).
Proof.
  induction items as [|v items IH]; intros idx; simpl;
    [apply delivered_ret|].
  apply delivered_bind; [apply delivered_print | intros _; apply IH].
Qed.

Lemma delivered_print_files items limit total :
  delivered (console.print_files items limit total).
Proof.
  unfold console.print_files.
  apply delivered_bind; [apply delivered_print | intros _].
  apply delivered_bind; [apply delivered_print_items | intros _].
  repeat delivered_step.
Qed.

Lemma delivered_add_pages pages : delivered (merger.add_pages pages).
Proof.
  induction pages as [|pg pages IH]; simpl; [apply delivered_ret|].
  apply delivered_bind; [|intros _; exact IH].
  unfold merger.add_page. repeat delivered_step.
Qed.

Lemma delivered_open_pdf w p : delivered (merger.open_pdf w p).
Proof.
  unfold merger.open_pdf. apply delivered_bind; [apply delivered_tick|].
  intros _. destruct (fs.lookup (root w) p) as [[c|es]|]; repeat delivered_step.
Qed.

(** The handler of a per-file failure. *)
Lemma delivered_report p (total : nat) e (h : M nat) :
  (if is_Exception e
   then Some (bind (print (merger.failed_line p e)) (fun _ => ret total))
   else None) = Some h ->
  delivered h.
Proof.
  destruct (is_Exception e); [|discriminate].
  intros E. injection E as <-. repeat delivered_step.
Qed.

Lemma delivered_read_into_writer w p total :
  delivered (merger.read_into_writer w p total).
Proof.
  unfold merger.read_into_writer.
  apply delivered_bind; [apply delivered_open_pdf | intros reader].
  apply delivered_bind; [apply delivered_add_pages | intros _].
  destruct (fs.failure reader); repeat delivered_step.
Qed.

Lemma delivered_process_file w n index p total :
  delivered (merger.process_file w n index p total).
Proof.
  unfold merger.process_file.
  apply delivered_bind; [repeat delivered_step | intros _].
  apply delivered_try; [apply delivered_read_into_writer|].
  intros e h. apply delivered_report.
Qed.

Lemma delivered_process_files w n files : forall index total,
  delivered (merger.process_files w n index files total).
Proof.
  induction files as [|p files IH]; intros index total; simpl;
    [apply delivered_ret|].
  apply delivered_bind; [apply delivered_process_file | intros t; apply IH].
Qed.

Lemma delivered_write_pdf w p : delivered (merger.write_pdf w p).
Proof.
  unfold merger.write_pdf, merger.open_wb, merger.write_handle.
  apply delivered_bind; [|intros _];
    (apply delivered_bind; [apply delivered_tick|]; intros _;
     destruct (write_error w) as [[m|m]|]; repeat delivered_step).
Qed.

Lemma delivered_stat_size w : delivered (merger.stat_size w).
Proof. unfold merger.stat_size. repeat delivered_step. Qed.

Lemma delivered_merge w files p : delivered (merger.merge w files p).
Proof.
  unfold merger.merge. destruct (PDF_IMPORT_ERROR w); [delivered_step|].
  apply delivered_bind; [unfold merger.new_writer; delivered_step | intros _].
  apply delivered_bind; [apply delivered_process_files | intros total].
  apply delivered_bind; [apply delivered_print | intros _].
  apply delivered_bind; [apply delivered_write_pdf | intros _].
  apply delivered_bind; [apply delivered_stat_size | intros size].
  apply delivered_ret.
Qed.

Lemma delivered_mkdir_parents w d : delivered (orchestrator.mkdir_parents w d).
Proof.
  unfold orchestrator.mkdir_parents.
  apply delivered_bind; [apply delivered_tick | intros _].
  destruct (fs.lookup (root w) d) as [[c|es]|];
    [| |destruct (mkdir_error w)]; repeat delivered_step.
Qed.

Lemma delivered_execute w s : delivered (orchestrator.execute w s).
Proof.
  unfold orchestrator.execute, orchestrator._resolve_destination.
  destruct (negb (fs.exists_ (root w) (settings.folder_path s)));
    [delivered_step|].
  destruct (negb (fs.is_dir (root w) (settings.folder_path s)));
    [delivered_step|].
  cbv zeta.
  apply delivered_bind; [apply delivered_print | intros _].
  apply delivered_bind; [apply delivered_print | intros _].
  apply delivered_bind; [apply delivered_tick | intros _].
  destruct (scanner.scan (str_lower w) (root w) s) as [|p0 files0]; [repeat delivered_step|].
  apply delivered_bind; [apply delivered_print | intros _].
  apply delivered_bind.
  { apply delivered_bind; [apply delivered_mkdir_parents | intros _].
    apply delivered_ret. }
  intros d.
  apply delivered_bind; [repeat delivered_step | intros _].
  apply delivered_bind; [apply delivered_print_files | intros _].
  apply delivered_bind; [apply delivered_print | intros _].
  apply delivered_bind; [repeat delivered_step | intros _].
  apply delivered_bind; [apply delivered_print | intros _].
  apply delivered_bind; [apply delivered_print | intros _].
  apply delivered_bind; [apply delivered_merge | intros o].
  apply delivered_ret.
Qed.

End DeliveredProgram.

(** ** Exit status *)

Section ExitStatus.

Import effects world settings.

Definition banner_line : line := console.banner "PDF Merger Pro".

(** The status [run] returns follows from how [execute] ends. *)
Lemma run_exit_status w args st st1 :
  print banner_line st = (Return tt, st1) ->
  sigint (snd (orchestrator.execute w (app._build_settings w args) st1)) = None ->
  fst (app.run w args st)
  = match fst (orchestrator.execute w (app._build_settings w args) st1) with
    | Return _ => Return 0
    | Raise (SystemExit c) => Raise (SystemExit c)
    | Raise _ => Return 1
    end.
Proof.
  intros B Q. unfold app.run. fold banner_line.
  rewrite (bind_return _ _ _ _ _ B). cbv zeta.
  unfold try_except, bind.
  destruct (orchestrator.execute w (app._build_settings w args) st1)
    as [[o|e] [out i doc wr]]; simpl in Q; subst i.
  - destruct o as [o|]; reflexivity.
  - destruct e; reflexivity.
Qed.

(** Without an interrupt, the status of the process follows from how
    [execute] ends. *)
Lemma app_process_quiet w args :
  app.process w args None
  = match fst (orchestrator.execute w (app._build_settings w args)
                 (quiet [banner_line] [] None)) with
    | Return _ => 0
    | Raise (SystemExit c) => c
    | Raise _ => 1
    end.
Proof.
  unfold app.process, app.main.
  rewrite (run_exit_status w args (initial None) (quiet [banner_line] [] None)
             eq_refl).
  - destruct (fst (orchestrator.execute w (app._build_settings w args)
                     (quiet [banner_line] [] None))) as [o|e];
      [reflexivity | destruct e; reflexivity].
  - now apply delivered_execute.
Qed.

(** An interrupt that arrives while [execute] runs gives status 1. *)
Lemma app_process_interrupt w args interrupt st1 :
  print banner_line (initial interrupt) = (Return tt, st1) ->
  fst (orchestrator.execute w (app._build_settings w args) st1)
  = Raise KeyboardInterrupt ->
  app.process w args interrupt = 1.
Proof.
  intros B E. unfold app.process, app.main.
  rewrite (run_exit_status w args _ st1 B).
  - rewrite E. reflexivity.
  - exact (proj1 (delivered_execute w _ st1) E).
Qed.

Lemma execute_invalid_folder w s st :
  fs.is_dir (root w) (folder_path s) = false ->
  exists msg,
    fst (orchestrator.execute w s st) = Raise (FileNotFoundError msg) \/
    fst (orchestrator.execute w s st) = Raise (NotADirectoryError msg).
Proof.
  intros D. unfold orchestrator.execute. rewrite D.
  destruct (fs.exists_ (root w) (folder_path s)); simpl;
    eexists; [right | left]; reflexivity.
Qed.

Lemma execute_nothing_to_merge w s out doc wr :
  fs.is_dir (root w) (folder_path s) = true ->
  scanner.scan (str_lower w) (root w) s = [] ->
  fst (orchestrator.execute w s (quiet out doc wr)) = Return None.
Proof.
  intros D S. unfold orchestrator.execute.
  rewrite (is_dir_exists _ _ D), D. cbv zeta. cbn [negb].
  rewrite (bind_return _ _ _ _ _ (print_quiet _ _ _ _)).
  rewrite (bind_return _ _ _ _ _ (print_quiet _ _ _ _)).
  rewrite (bind_return _ _ _ _ _ (tick_quiet _ _ _)).
  rewrite S.
  rewrite (bind_return _ _ _ _ _ (print_quiet _ _ _ _)).
  destruct (recursive s); reflexivity.
Qed.

(** The exit status of the application, case by case. *)
Lemma app_exit_status w args :
  let s := app._build_settings w args in
  (fs.is_dir (root w) (folder_path s) = false ->
   app.process w args None = 1) /\
  (fs.is_dir (root w) (folder_path s) = true ->
   scanner.scan (str_lower w) (root w) s = [] ->
   app.process w args None = 0) /\
  (fs.is_dir (root w) (folder_path s) = true ->
   scanner.scan (str_lower w) (root w) s <> [] -> mkdir_ok w (target s) ->
   (PDF_IMPORT_ERROR w = None -> write_error w = None ->
    app.process w args None = 0) /\
   (PDF_IMPORT_ERROR w <> None -> app.process w args None = 1) /\
   (PDF_IMPORT_ERROR w = None -> write_error w <> None ->
    app.process w args None = 1)).
Proof.
  intros s. split; [|split].
  - intros D. rewrite app_process_quiet. fold s.
    destruct (execute_invalid_folder w s (quiet [banner_line] [] None) D)
      as [msg [-> | ->]]; reflexivity.
  - intros D S. rewrite app_process_quiet. fold s.
    now rewrite (execute_nothing_to_merge w s _ _ _ D S).
  - intros D N K. split; [|split].
    + intros I W. rewrite app_process_quiet. fold s.
      now rewrite (execute_quiet w s _ _ _ D N K I W).
    + intros I. rewrite app_process_quiet. fold s.
      rewrite (execute_reaches_merge w s _ _ _ D N K).
      destruct (PDF_IMPORT_ERROR w) as [msg|] eqn:E; [|congruence].
      now rewrite (bind_raise _ _ _ _ _ (merge_import_error w _ _ _ msg E)).
    + intros I W. rewrite app_process_quiet. fold s.
      rewrite (execute_reaches_merge w s _ _ _ D N K).
      destruct (write_error w) as [msg|] eqn:E; [|congruence].
      now rewrite (bind_raise _ _ _ _ _ (merge_write_error w _ _ _ _ _ msg I E)).
Qed.

End ExitStatus.

(** ** Exit status of the standalone script *)

Section ScriptExitStatus.

Import effects world.

Lemma delivered_sys_exit {A} code : delivered (@pdf_merger.sys_exit A code).
Proof. unfold pdf_merger.sys_exit. apply delivered_raise. discriminate. Qed.

Lemma delivered_read_file w n i p total :
  delivered (pdf_merger.read_file w n i p total).
Proof.
  unfold pdf_merger.read_file.
  apply delivered_bind; [repeat delivered_step | intros _].
  apply delivered_bind; [apply delivered_open_pdf | intros reader].
  apply delivered_bind; [apply delivered_add_pages | intros _].
  destruct (fs.failure reader); repeat delivered_step.
Qed.

Lemma delivered_read_files w n files : forall i total,
  delivered (pdf_merger.read_files w n i files total).
Proof.
  induction files as [|p files IH]; intros i total; simpl;
    [apply delivered_ret|].
  apply delivered_bind; [|intros t; apply IH].
  apply delivered_try; [apply delivered_read_file|].
  intros e h. apply delivered_report.
Qed.

Lemma delivered_merge_pdfs w files p :
  delivered (pdf_merger.merge_pdfs w files p).
Proof.
  unfold pdf_merger.merge_pdfs, pdf_merger.print_error, pdf_merger.print_info,
    pdf_merger.print_success.
  destruct files as [|p0 files0]; [repeat delivered_step|].
  apply delivered_bind; [apply delivered_print | intros _].
  apply delivered_bind; [apply delivered_print | intros _].
  apply delivered_bind; [unfold merger.new_writer; delivered_step | intros _].
  apply delivered_bind; [apply delivered_read_files | intros total].
  apply delivered_try.
  - apply delivered_bind; [apply delivered_print | intros _].
    apply delivered_bind; [apply delivered_write_pdf | intros _].
    apply delivered_bind; [apply delivered_stat_size | intros sz].
    repeat delivered_step.
  - intros e h. destruct (is_Exception e); [|discriminate].
    intros E. injection E as <-. repeat delivered_step.
Qed.

Lemma delivered_main w args : delivered (pdf_merger.main w args).
Proof.
  unfold pdf_merger.main, pdf_merger.print_error, pdf_merger.print_info,
    pdf_merger.print_success, pdf_merger.print_warning.
  apply delivered_bind; [apply delivered_print | intros _]. cbv zeta.
  destruct (negb (fs.exists_ (root w) (resolve w (app.arg_folder_path args)))).
  { apply delivered_bind; [apply delivered_print | intros _].
    apply delivered_sys_exit. }
  destruct (negb (fs.is_dir (root w) (resolve w (app.arg_folder_path args)))).
  { apply delivered_bind; [apply delivered_print | intros _].
    apply delivered_sys_exit. }
  apply delivered_bind; [apply delivered_print | intros _].
  apply delivered_bind; [apply delivered_print | intros _].
  apply delivered_bind; [apply delivered_tick | intros _].
  destruct (pdf_merger.get_pdf_files w (resolve w (app.arg_folder_path args))
              (app.arg_recursive args)) as [|p0 files0].
  { apply delivered_bind; [apply delivered_print | intros _].
    apply delivered_bind; [repeat delivered_step | intros _].
    apply delivered_sys_exit. }
  apply delivered_bind; [apply delivered_print | intros _].
  apply delivered_bind.
  { destruct (app.arg_destination args) as [[|c d]|]; try apply delivered_ret.
    apply delivered_bind; [|intros _; apply delivered_ret].
    apply delivered_if; [apply delivered_mkdir_parents | apply delivered_ret]. }
  intros output_path.
  apply delivered_bind.
  { apply delivered_if; [|apply delivered_ret].
    apply delivered_bind; [apply delivered_print | intros _].
    apply delivered_ret. }
  intros output_path'.
  apply delivered_bind; [apply delivered_print | intros _].
  apply delivered_bind; [apply delivered_print | intros _].
  apply delivered_bind; [apply delivered_print_items | intros _].
  apply delivered_bind; [repeat delivered_step | intros _].
  apply delivered_bind; [apply delivered_print | intros _].
  apply delivered_bind; [apply delivered_merge_pdfs | intros success].
  destruct success.
  - repeat delivered_step.
  - apply delivered_bind; [apply delivered_print | intros _].
    apply delivered_bind; [apply delivered_print | intros _].
    apply delivered_sys_exit.
Qed.

Definition tqdm_hint (w : World) : M unit :=
  if HAS_TQDM w then ret tt
  else print (console.warning
                "Install 'tqdm' for beautiful progress bars: pip install tqdm").

(** With a PDF library, the status of the script follows from how [main]
    ends. *)
Lemma script_exit_status w args interrupt st1 :
  PDF_IMPORT_ERROR w = None ->
  tqdm_hint w (initial interrupt) = (Return tt, st1) ->
  sigint (snd (pdf_merger.main w args st1)) = None ->
  pdf_merger.process w args interrupt
  = match fst (pdf_merger.main w args st1) with
    | Return _ => 0
    | Raise (SystemExit code) => code
    | Raise KeyboardInterrupt => 0
    | Raise _ => 1
    end.
Proof.
  intros I T Q. unfold pdf_merger.process, pdf_merger.script. rewrite I.
  fold (tqdm_hint w). rewrite (bind_return _ _ _ _ _ T).
  unfold try_except.
  destruct (pdf_merger.main w args st1) as [[u|e] [out i doc wr]];
    simpl in Q; subst i; [reflexivity|].
  destruct e; reflexivity.
Qed.

(** An interrupt that arrives while [main] runs gives status 0. *)
Lemma script_process_interrupt w args interrupt st1 :
  PDF_IMPORT_ERROR w = None ->
  tqdm_hint w (initial interrupt) = (Return tt, st1) ->
  fst (pdf_merger.main w args st1) = Raise KeyboardInterrupt ->
  pdf_merger.process w args interrupt = 0.
Proof.
  intros I T E.
  rewrite (script_exit_status w args interrupt st1 I T).
  - now rewrite E.
  - exact (proj1 (delivered_main w args st1) E).
Qed.

End ScriptExitStatus.

(** The command line that names a folder and sets no option. *)
Definition args_for (folder : string) : app.Args :=
  {| app.arg_folder_path := folder;
     app.arg_recursive := false;
     app.arg_output := None;
     app.arg_destination := None |}.

(** A root with the three documents, a folder without documents and a file
    where a folder is expected. *)
Definition status_root : fs.node :=
  fs.Dir [("docs"%string,
           fs.Dir [("A.pdf"%string, document [11; 12; 13]);
                   ("B.pdf"%string, document [21; 22]);
                   ("C.pdf"%string, corrupt "EOF marker not found")]);
          ("empty"%string, fs.Dir [("notes.txt"%string, corrupt "not a PDF")]);
          ("file"%string, document [1])].

Definition read_only_world : world.World :=
  {| world.root := status_root;
     world.now := sample_now;
     world.PDF_LIB := "pypdf";
     world.PDF_IMPORT_ERROR := None;
     world.HAS_TQDM := false;
     world.mkdir_error := None;
     world.write_error := Some (world.OpenFails "Permission denied");
     world.serialized_size := fun doc => 1000 * List.length doc;
     world.str_lower := pystr.lower;
     world.expanduser := fun s => s;
     world.resolve := fun s => [s] |}.

(** C3.  The two entry points on the same inputs.  The application and the
    standalone script agree on status 0 for a successful merge and for a
    folder without documents, and on status 1 for a missing folder, for a
    path that is no directory and for an output that cannot be written.
    When the user interrupts the merge, the application ends with status 1
    and the standalone script ends with status 0. *)
Theorem interrupt_exit_status :
  let w := sample_world status_root in
  (app.process w (args_for "docs") None = 0 /\
   pdf_merger.process w (args_for "docs") None = 0) /\
  (app.process w (args_for "empty") None = 0 /\
   pdf_merger.process w (args_for "empty") None = 0) /\
  (app.process w (args_for "missing") None = 1 /\
   pdf_merger.process w (args_for "missing") None = 1) /\
  (app.process w (args_for "file") None = 1 /\
   pdf_merger.process w (args_for "file") None = 1) /\
  (app.process read_only_world (args_for "docs") None = 1 /\
   pdf_merger.process read_only_world (args_for "docs") None = 1) /\
  (fst (pdf_merger.script w (args_for "docs") (effects.initial (Some 17)))
   = effects.Raise (effects.SystemExit 0)) /\
  app.process w (args_for "docs") (Some 17) = 1 /\
  pdf_merger.process w (args_for "docs") (Some 17) = 0.
Proof. vm_compute. repeat split; reflexivity. Qed.

(** ** Sorting by key *)

Section SortFacts.

Lemma string_compare_trans (a : string) : forall b c,
  String.compare a b <> Gt -> String.compare b c <> Gt ->
  String.compare a c <> Gt.
Proof.
  induction a as [|x a IH]; intros [|y b] [|z c]; simpl; try congruence.
  unfold Ascii.compare.
  destruct (N.compare_spec (N_of_ascii x) (N_of_ascii y)) as [E1|L1|G1];
    destruct (N.compare_spec (N_of_ascii y) (N_of_ascii z)) as [E2|L2|G2];
    destruct (N.compare_spec (N_of_ascii x) (N_of_ascii z)) as [E3|L3|G3];
    try congruence; try lia.
  apply IH.
Qed.

Lemma leb_trans (a b c : string) :
  String.leb a b = true -> String.leb b c = true -> String.leb a c = true.
Proof.
  unfold String.leb. intros H1 H2.
  pose proof (string_compare_trans a b c) as T.
  destruct (String.compare a b); destruct (String.compare b c);
    destruct (String.compare a c); try reflexivity; try discriminate;
    exfalso; apply T; congruence.
Qed.

Variable A : Type.
Variable key : A -> string.

(** The order of the keys. *)
Definition key_le (x y : A) : Prop := String.leb (key x) (key y) = true.

Lemma insert_perm x l : Permutation (pysort.insert key x l) (x :: l).
Proof.
  induction l as [|y l IH]; simpl; [reflexivity|].
  destruct (String.leb (key x) (key y)); [reflexivity|].
  rewrite IH. apply perm_swap.
Qed.

Lemma sorted_perm l : Permutation (pysort.sorted key l) l.
Proof.
  induction l as [|x l IH]; simpl; [reflexivity|].
  rewrite insert_perm. now constructor.
Qed.

Lemma insert_sorted x l :
  StronglySorted key_le l -> StronglySorted key_le (pysort.insert key x l).
Proof.
  induction 1 as [|y l Hs IH Hy]; simpl.
  - constructor; constructor.
  - destruct (String.leb (key x) (key y)) eqn:E.
    + constructor; [now constructor|].
      constructor; [exact E|].
      eapply Forall_impl; [|exact Hy].
      intros z Hz. unfold key_le in *. eapply leb_trans; eassumption.
    + constructor; [exact IH|].
      eapply Permutation_Forall; [symmetry; apply insert_perm|].
      constructor; [|exact Hy].
      unfold key_le. destruct (String.leb_total (key x) (key y)); congruence.
Qed.

Lemma sorted_sorted l : StronglySorted key_le (pysort.sorted key l).
Proof.
  induction l as [|x l IH]; simpl; [constructor | now apply insert_sorted].
Qed.

Lemma filter_sorted (f : A -> bool) l :
  StronglySorted key_le l -> StronglySorted key_le (filter f l).
Proof.
  induction 1 as [|y l Hs IH Hy]; simpl; [constructor|].
  destruct (f y); [|exact IH].
  constructor; [exact IH|].
  apply Forall_forall. intros z Hz. apply filter_In in Hz as [Hz _].
  rewrite Forall_forall in Hy. now apply Hy.
Qed.

Lemma filter_perm (f : A -> bool) l l' :
  Permutation l l' -> Permutation (filter f l) (filter f l').
Proof.
  induction 1 as [|x l l' _ IH|x y l|l l' l'' _ IH1 _ IH2]; simpl.
  - reflexivity.
  - destruct (f x); [now constructor | exact IH].
  - destruct (f x), (f y); try reflexivity. apply perm_swap.
  - now rewrite IH1.
Qed.

(** Sortedness depends on the keys of the elements only. *)
Lemma sorted_key_ext (key' : A -> string) l :
  (forall x, In x l -> key x = key' x) ->
  StronglySorted key_le l ->
  StronglySorted (fun x y => String.leb (key' x) (key' y) = true) l.
Proof.
  intros E S. induction S as [|y l Hs IH Hy]; [constructor|].
  constructor.
  - apply IH. intros x Hx. apply E. now right.
  - rewrite Forall_forall in *. intros z Hz. unfold key_le in Hy.
    rewrite <- (E y (or_introl eq_refl)), <- (E z (or_intror Hz)).
    now apply Hy.
Qed.

(** The sort is stable: elements with keys in order stay as they are. *)
Lemma sorted_of_sorted l :
  StronglySorted key_le l -> pysort.sorted key l = l.
Proof.
  induction 1 as [|y l Hs IH Hy]; simpl; [reflexivity|].
  rewrite IH. destruct l as [|z l]; [reflexivity|]. simpl.
  inversion Hy as [|? ? Hz _]; subst. unfold key_le in Hz. now rewrite Hz.
Qed.

End SortFacts.

Arguments key_le {A} key x y.

(** ** Discovery *)

Section Discovery.

Import settings.

(** Induction on the file tree. *)
Section NodeInd.

Variable P : fs.node -> Prop.
Hypothesis P_file : forall content, P (fs.File content).
Hypothesis P_dir :
  forall es, Forall (fun e => P (snd e)) es -> P (fs.Dir es).

Fixpoint node_induction (n : fs.node) : P n :=
  match n with
  | fs.File content => P_file content
  | fs.Dir es =>
      P_dir es
        ((fix all (es : fs.entries_t) : Forall (fun e => P (snd e)) es :=
            match es with
            | [] => Forall_nil _
            | (nm, child) :: es' =>
                Forall_cons (nm, child) (node_induction child) (all es')
            end) es)
  end.

End NodeInd.

Definition is_File (n : fs.node) : bool :=
  match n with fs.File _ => true | fs.Dir _ => false end.

Lemma lookup_app (n : fs.node) (p q : path.Path) :
  fs.lookup n (p ++ q)
  = match fs.lookup n p with
    | Some m => fs.lookup m q
    | None => None
    end.
Proof.
  revert n. induction p as [|c p IH]; intros n; simpl; [reflexivity|].
  destruct n as [content|es]; [reflexivity|].
  destruct (fs.assoc c es); [apply IH | reflexivity].
Qed.

Lemma assoc_In nm es n : fs.assoc nm es = Some n -> In (nm, n) es.
Proof.
  induction es as [|[nm' n'] es IH]; simpl; [discriminate|].
  destruct (String.eqb nm nm') eqn:E.
  - apply String.eqb_eq in E. intros H. injection H as <-. subst. now left.
  - intros H. right. now apply IH.
Qed.

Lemma assoc_unique nm n es :
  NoDup (map fst es) -> In (nm, n) es -> fs.assoc nm es = Some n.
Proof.
  induction es as [|[nm' n'] es IH]; simpl; [tauto|].
  intros ND [H|H].
  - injection H as -> ->. now rewrite String.eqb_refl.
  - inversion ND as [|? ? Hn ND']; subst.
    destruct (String.eqb nm nm') eqn:E; [|now apply IH].
    apply String.eqb_eq in E. subst nm'. exfalso. apply Hn.
    apply (in_map fst) in H. exact H.
Qed.

(** The matches of [*.pdf] in a directory. *)
Lemma glob_star_pdf_In dir es p :
  In p (fs.glob_star_pdf dir es) <->
  exists nm n, p = path.joinpath dir nm /\ In (nm, n) es /\
               pystr.endswith nm ".pdf" = true.
Proof.
  unfold fs.glob_star_pdf, fs.matches_star_pdf. rewrite in_map_iff. split.
  - intros ([nm n] & <- & H). apply filter_In in H as [H1 H2].
    now exists nm, n.
  - intros (nm & n & -> & H1 & H2). exists (nm, n). split; [reflexivity|].
    apply filter_In. now split.
Qed.

(** The subtrees below the entries of a directory, as [rglob] visits
    them. *)
Definition below (dir : path.Path) (es : fs.entries_t) : list path.Path :=
  flat_map (fun e => fs.rglob_star_pdf (path.joinpath dir (fst e)) (snd e)) es.

Lemma rglob_dir dir es :
  fs.rglob_star_pdf dir (fs.Dir es) = fs.glob_star_pdf dir es ++ below dir es.
Proof.
  cbn [fs.rglob_star_pdf]. f_equal. unfold below.
  induction es as [|[nm child] es IH]; [reflexivity|].
  cbn [flat_map fst snd]. now rewrite <- IH.
Qed.

(** A relative path names a document: it is not empty, it leads to a
    regular file, and its last component ends with the extension. *)
Definition names_document (d : fs.node) (rel : path.Path) : Prop :=
  rel <> [] /\ (exists content, fs.lookup d rel = Some (fs.File content)) /\
  pystr.endswith (path.name rel) ".pdf" = true.

(** Every path [rglob] yields lies below the directory and matches. *)
Lemma rglob_sound n : forall dir p,
  In p (fs.rglob_star_pdf dir n) ->
  exists rel, rel <> [] /\ p = dir ++ rel /\
              pystr.endswith (path.name rel) ".pdf" = true.
Proof.
  induction n as [content|es IH] using node_induction; intros dir p H.
  - destruct H.
  - rewrite rglob_dir in H. apply in_app_or in H as [H|H].
    + apply glob_star_pdf_In in H as (nm & n & -> & _ & M).
      exists [nm]. split; [discriminate|]. split; [reflexivity | exact M].
    + unfold below in H. apply in_flat_map in H as ([nm child] & He & Hp).
      rewrite Forall_forall in IH. specialize (IH _ He _ _ Hp).
      destruct IH as (rel & Hr & -> & M). exists (nm :: rel).
      split; [discriminate|]. split.
      * unfold path.joinpath. simpl. now rewrite <- app_assoc.
      * destruct rel; [congruence | exact M].
Qed.

(** Every document below the directory is yielded. *)
Lemma rglob_complete rel : forall dir es,
  names_document (fs.Dir es) rel ->
  In (dir ++ rel) (fs.rglob_star_pdf dir (fs.Dir es)).
Proof.
  induction rel as [|c rel IH]; intros dir es (Hne & (content & L) & M);
    [congruence|].
  rewrite rglob_dir. simpl in L.
  destruct (fs.assoc c es) as [n|] eqn:E; [|discriminate].
  apply assoc_In in E.
  destruct rel as [|c' rel].
  - apply in_or_app. left. apply glob_star_pdf_In.
    exists c, n. split; [reflexivity|]. split; [exact E | exact M].
  - apply in_or_app. right. unfold below. apply in_flat_map.
    exists (c, n). split; [exact E|]. cbn [fst snd].
    destruct n as [content'|es']; [discriminate|].
    replace (dir ++ c :: c' :: rel) with (path.joinpath dir c ++ c' :: rel)
      by (unfold path.joinpath; now rewrite <- app_assoc).
    apply IH. split; [discriminate|]. split; [now exists content | exact M].
Qed.

Lemma scan_In lower root s p :
  In p (scanner.scan lower root s) <->
  In p (fs.glob root (folder_path s) (recursive s)) /\ fs.is_file root p = true.
Proof.
  unfold scanner.scan. rewrite filter_In. split; intros [H1 H2]; split; auto.
  - eapply Permutation_in; [apply sorted_perm | exact H1].
  - eapply Permutation_in; [symmetry; apply sorted_perm | exact H1].
Qed.

Lemma is_file_below root folder d rel :
  fs.lookup root folder = Some d ->
  fs.is_file root (folder ++ rel) = true <->
  exists content, fs.lookup d rel = Some (fs.File content).
Proof.
  intros L. unfold fs.is_file. rewrite lookup_app, L. split.
  - destruct (fs.lookup d rel) as [[content|es]|]; try discriminate.
    now exists content.
  - now intros [content ->].
Qed.

End Discovery.

Section ScanFacts.

Import settings.

(** The entries of a directory that are regular files matching [*.pdf]. *)
Definition pdf_entries (es : fs.entries_t) : fs.entries_t :=
  filter (fun e => fs.matches_star_pdf (fst e) && is_File (snd e)) es.

Lemma is_file_entry root folder es nm n :
  fs.lookup root folder = Some (fs.Dir es) ->
  NoDup (map fst es) -> In (nm, n) es ->
  fs.is_file root (path.joinpath folder nm) = is_File n.
Proof.
  intros L ND H. unfold fs.is_file, path.joinpath.
  rewrite lookup_app, L. simpl. rewrite (assoc_unique nm n es ND H).
  now destruct n.
Qed.

Lemma filter_glob_star_pdf root folder es :
  fs.lookup root folder = Some (fs.Dir es) ->
  NoDup (map fst es) ->
  filter (fs.is_file root) (fs.glob_star_pdf folder es)
  = map (fun e => path.joinpath folder (fst e)) (pdf_entries es).
Proof.
  intros L ND. unfold fs.glob_star_pdf, pdf_entries.
  assert (H : forall e, In e es ->
                        fs.is_file root (path.joinpath folder (fst e))
                        = is_File (snd e)).
  { intros [nm n] He. now apply (is_file_entry root folder es). }
  clear L ND. induction es as [|e es IH]; [reflexivity|].
  cbn [filter]. destruct (fs.matches_star_pdf (fst e)) eqn:M; cbn [andb].
  - cbn [map filter]. rewrite (H e (or_introl eq_refl)).
    destruct (is_File (snd e)); cbn [map]; rewrite IH; auto;
      intros e' He'; apply H; now right.
  - apply IH. intros e' He'. apply H. now right.
Qed.

Lemma scan_sorted lower root s :
  StronglySorted (key_le (scanner.sort_key lower)) (scanner.scan lower root s).
Proof. unfold scanner.scan. apply filter_sorted, sorted_sorted. Qed.

Lemma scan_below lower root s d rel :
  fs.lookup root (folder_path s) = Some (fs.Dir d) ->
  In (folder_path s ++ rel) (scanner.scan lower root s) <->
  names_document (fs.Dir d) rel /\
  (recursive s = false -> List.length rel = 1).
Proof.
  intros L. rewrite scan_In, (is_file_below root _ _ rel L).
  unfold fs.glob. rewrite L. destruct (recursive s).
  - split.
    + intros [G F]. split; [|discriminate].
      apply rglob_sound in G as (rel' & Hne & E & M).
      apply app_inv_head in E. subst rel'. now split.
    + intros [N _]. split; [now apply rglob_complete | apply N].
  - split.
    + intros [G F]. apply glob_star_pdf_In in G as (nm & n & E & _ & M).
      unfold path.joinpath in E. apply app_inv_head in E. subst rel.
      split; [|reflexivity]. split; [discriminate|]. now split.
    + intros [(Hne & F & M) Len]. split; [|exact F].
      destruct rel as [|nm [|? ?]]; try (specialize (Len eq_refl); discriminate).
      apply glob_star_pdf_In. destruct F as [content F]. simpl in F.
      destruct (fs.assoc nm d) as [n|] eqn:E; [|discriminate].
      exists nm, n. split; [reflexivity|]. split; [now apply assoc_In | exact M].
Qed.

Lemma scan_under_folder lower root s p :
  In p (scanner.scan lower root s) -> exists rel, p = folder_path s ++ rel.
Proof.
  intros H. apply scan_In in H as [G _]. unfold fs.glob in G.
  destruct (fs.lookup root (folder_path s)) as [[c|es]|]; try destruct G.
  destruct (recursive s).
  - apply rglob_sound in G as (rel & _ & -> & _). now exists rel.
  - apply glob_star_pdf_In in G as (nm & n & -> & _). now exists [nm].
Qed.

(** Every directory of the tree has entries with distinct names, as the
    directories of a file system have. *)
Fixpoint distinct_names (n : fs.node) : Prop :=
  match n with
  | fs.File _ => True
  | fs.Dir es =>
      NoDup (map fst es) /\
      (fix all (es : fs.entries_t) : Prop :=
         match es with
         | [] => True
         | (_, child) :: es' => distinct_names child /\ all es'
         end) es
  end.

Lemma distinct_names_dir es :
  distinct_names (fs.Dir es) ->
  NoDup (map fst es) /\ Forall (fun e => distinct_names (snd e)) es.
Proof.
  cbn [distinct_names]. intros [ND H]. split; [exact ND|].
  clear ND. induction es as [|[nm child] es IH]; [constructor|].
  destruct H as [Hc H]. constructor; [exact Hc | now apply IH].
Qed.

Lemma joinpath_names_NoDup dir (f : string * fs.node -> bool) es :
  NoDup (map fst es) ->
  NoDup (map (fun e => path.joinpath dir (fst e)) (filter f es)).
Proof.
  intros ND. induction es as [|e es IH]; simpl; [constructor|].
  inversion ND as [|? ? Hn ND']; subst.
  destruct (f e); [|now apply IH]. simpl. constructor; [|now apply IH].
  intros H. apply Hn. apply in_map_iff in H as (x & E & Hx).
  apply filter_In in Hx as [Hx _].
  unfold path.joinpath in E. apply app_inv_head in E. injection E as E.
  rewrite <- E. now apply in_map.
Qed.

Lemma rglob_under dir nm child p :
  In p (fs.rglob_star_pdf (path.joinpath dir nm) child) ->
  exists rel, rel <> [] /\ p = dir ++ nm :: rel.
Proof.
  intros H. apply rglob_sound in H as (rel & Hr & -> & _).
  exists rel. split; [exact Hr|]. unfold path.joinpath.
  now rewrite <- app_assoc.
Qed.

Lemma below_NoDup dir es :
  NoDup (map fst es) ->
  Forall (fun e => forall d, NoDup (fs.rglob_star_pdf d (snd e))) es ->
  NoDup (below dir es).
Proof.
  unfold below. induction es as [|[nm child] es IH]; intros ND F;
    [constructor|].
  inversion ND as [|? ? Hn ND']; subst.
  inversion F as [|? ? Hc F']; subst.
  cbn [flat_map fst snd]. apply NoDup_app; [apply Hc | now apply IH |].
  intros p H1 H2.
  apply rglob_under in H1 as (rel & _ & ->).
  apply in_flat_map in H2 as ([nm' child'] & He & H2). cbn [fst snd] in H2.
  apply rglob_under in H2 as (rel' & _ & E).
  apply app_inv_head in E. injection E as -> _.
  apply Hn. apply (in_map fst) in He. exact He.
Qed.

(** In a tree with distinct names [rglob] yields no path twice. *)
Lemma rglob_NoDup n : forall dir,
  distinct_names n -> NoDup (fs.rglob_star_pdf dir n).
Proof.
  induction n as [content|es IH] using node_induction; intros dir D.
  - constructor.
  - apply distinct_names_dir in D as [ND Dc]. rewrite rglob_dir.
    apply NoDup_app.
    + unfold fs.glob_star_pdf. now apply joinpath_names_NoDup.
    + apply below_NoDup; [exact ND|].
      rewrite Forall_forall in *. intros e He d. apply IH; [exact He|].
      now apply Dc.
    + intros p H1 H2.
      apply glob_star_pdf_In in H1 as (nm & n & -> & _).
      unfold below in H2. apply in_flat_map in H2 as ([nm' child'] & _ & H2).
      cbn [fst snd] in H2. apply rglob_under in H2 as (rel & Hr & E).
      unfold path.joinpath in E. apply app_inv_head in E.
      injection E as _ E. now apply Hr.
Qed.

Lemma scan_NoDup lower root s es :
  fs.lookup root (folder_path s) = Some (fs.Dir es) ->
  distinct_names (fs.Dir es) ->
  NoDup (scanner.scan lower root s).
Proof.
  intros L D. unfold scanner.scan. apply NoDup_filter.
  eapply Permutation_NoDup; [symmetry; apply sorted_perm|].
  unfold fs.glob. rewrite L. destruct (recursive s).
  - now apply rglob_NoDup.
  - unfold fs.glob_star_pdf. apply joinpath_names_NoDup.
    now apply distinct_names_dir in D.
Qed.

Lemma scan_documents lower root s es p :
  fs.lookup root (folder_path s) = Some (fs.Dir es) ->
  recursive s = true ->
  In p (scanner.scan lower root s) <->
  exists rel, p = folder_path s ++ rel /\ names_document (fs.Dir es) rel.
Proof.
  intros L R. split.
  - intros H. destruct (scan_under_folder lower root s p H) as [rel ->].
    exists rel. split; [reflexivity|].
    now apply (scan_below lower root s es rel L) in H.
  - intros (rel & -> & H). apply (scan_below lower root s es rel L).
    split; [exact H|]. rewrite R. discriminate.
Qed.

End ScanFacts.

(** Documents at depth 0, depth 1 and depth 2. *)
Definition deep_root : fs.node :=
  fs.Dir [("docs"%string,
           fs.Dir [("top.pdf"%string, document [1]);
                   ("z"%string,
                    fs.Dir [("a.pdf"%string, document [2]);
                            ("y"%string,
                             fs.Dir [("Deep.pdf"%string, document [3]);
                                     ("readme.md"%string, corrupt "not a PDF")])])])].

Definition deep_entries : fs.entries_t :=
  match deep_root with
  | fs.Dir [(_, fs.Dir es)] => es
  | _ => []
  end.

(** C2.  For an existing directory whose entries have distinct names, the
    scan of its direct children returns exactly the entries that are
    regular files matching the extension, each once, so [N] paths when
    there are [N] such entries, whatever else the directory holds.  The
    recursive scan returns exactly the documents below the directory, at
    every depth; when the names are distinct in every directory of the
    tree it returns each of them once, so [N] paths when there are [N]
    documents.  In either mode the result is in the order of the
    lower-cased file names (the last component, not the path), [lower]
    being the case mapping [str.lower] applies; where that mapping acts on
    the names found as the lowering of the ASCII letters does, the result
    is in the order of the names with their ASCII letters lowered.  The
    result is the empty list, not an error, when nothing matches. *)
Theorem scan_returns_sorted_pdf_files :
  forall (lower : string -> string) (root : fs.node)
         (s : settings.MergeSettings) (es : fs.entries_t),
    fs.lookup root (settings.folder_path s) = Some (fs.Dir es) ->
    NoDup (map fst es) ->
    (settings.recursive s = false ->
     Permutation (scanner.scan lower root s)
       (map (fun e => path.joinpath (settings.folder_path s) (fst e))
            (pdf_entries es)) /\
     List.length (scanner.scan lower root s) = List.length (pdf_entries es) /\
     NoDup (scanner.scan lower root s)) /\
    (settings.recursive s = true ->
     (forall p,
         In p (scanner.scan lower root s) <->
         exists rel, p = settings.folder_path s ++ rel /\
                     names_document (fs.Dir es) rel) /\
     (distinct_names (fs.Dir es) ->
      NoDup (scanner.scan lower root s) /\
      forall docs : list path.Path,
        NoDup docs ->
        (forall rel, In rel docs <-> names_document (fs.Dir es) rel) ->
        Permutation (scanner.scan lower root s)
          (map (fun rel => settings.folder_path s ++ rel) docs) /\
        List.length (scanner.scan lower root s) = List.length docs)) /\
    StronglySorted
      (fun p q => String.leb (lower (path.name p))
                             (lower (path.name q)) = true)
      (scanner.scan lower root s) /\
    ((forall p, In p (scanner.scan lower root s) ->
                lower (path.name p) = pystr.lower (path.name p)) ->
     StronglySorted
       (fun p q => String.leb (pystr.lower (path.name p))
                              (pystr.lower (path.name q)) = true)
       (scanner.scan lower root s)) /\
    ((forall rel, ~ names_document (fs.Dir es) rel) ->
     scanner.scan lower root s = []) /\
    (settings.recursive s = false -> pdf_entries es = [] ->
     scanner.scan lower root s = []).
Proof.
  intros lower root s es L ND.
  assert (P : settings.recursive s = false ->
              Permutation (scanner.scan lower root s)
                (map (fun e => path.joinpath (settings.folder_path s) (fst e))
                     (pdf_entries es))).
  { intros R. unfold scanner.scan, fs.glob. rewrite L, R.
    rewrite <- (filter_glob_star_pdf root _ es L ND).
    apply filter_perm, sorted_perm. }
  split; [|split; [|split; [|split; [|split]]]].
  - intros R. specialize (P R). split; [exact P|]. split.
    + rewrite (Permutation_length P). apply length_map.
    + eapply Permutation_NoDup; [symmetry; exact P|].
      unfold pdf_entries. now apply joinpath_names_NoDup.
  - intros R. split; [intros p; now apply scan_documents|].
    intros D.
    assert (NS : NoDup (scanner.scan lower root s))
      by now apply (scan_NoDup lower root s es).
    split; [exact NS|].
    intros docs Nd Hd.
    assert (Pm : Permutation (scanner.scan lower root s)
                   (map (fun rel => settings.folder_path s ++ rel) docs)).
    { apply NoDup_Permutation; [exact NS | |].
      - clear Hd. induction Nd as [|rel docs Hn _ IH]; simpl; constructor;
          [|exact IH].
        intros H. apply Hn. apply in_map_iff in H as (x & E & Hx).
        apply app_inv_head in E. now subst x.
      - intros p. rewrite (scan_documents lower root s es p L R).
        rewrite in_map_iff. split.
        + intros (rel & -> & H). exists rel. split; [reflexivity|].
          now apply Hd.
        + intros (rel & <- & H). exists rel. split; [reflexivity|].
          now apply Hd. }
    split; [exact Pm|].
    rewrite (Permutation_length Pm). apply length_map.
  - apply scan_sorted.
  - intros A.
    apply (sorted_key_ext _ (scanner.sort_key lower)
             (fun p => pystr.lower (path.name p)) _ A).
    apply scan_sorted.
  - intros None. destruct (scanner.scan lower root s) as [|p l] eqn:E; [reflexivity|].
    exfalso. assert (H : In p (scanner.scan lower root s)) by (rewrite E; now left).
    destruct (scan_under_folder lower root s p H) as [rel ->].
    apply (scan_below lower root s es rel L) in H. now apply (None rel).
  - intros R Hn. specialize (P R). rewrite Hn in P. simpl in P.
    now apply Permutation_nil.
Qed.

(** A folder with two documents among other entries. *)
Definition mixed_root : fs.node :=
  fs.Dir [("docs"%string,
           fs.Dir [("B.pdf"%string, document [21; 22]);
                   ("notes.txt"%string, corrupt "not a PDF");
                   ("a.pdf"%string, document [11]);
                   ("x.pdf"%string, fs.Dir []);
                   ("img.png"%string, corrupt "not a PDF")])].

Definition mixed_entries : fs.entries_t :=
  match mixed_root with
  | fs.Dir [(_, fs.Dir es)] => es
  | _ => []
  end.

Definition flat_settings (folder : string) : settings.MergeSettings :=
  settings.Build_MergeSettings [folder] false None None.

Definition deep_settings (folder : string) : settings.MergeSettings :=
  settings.Build_MergeSettings [folder] true None None.

Lemma scan_returns_sorted_pdf_files_witness :
  (List.length (scanner.scan pystr.lower mixed_root (flat_settings "docs")) = 2 /\
   NoDup (scanner.scan pystr.lower mixed_root (flat_settings "docs")) /\
   scanner.scan pystr.lower mixed_root (flat_settings "docs")
   = [["docs"; "a.pdf"]; ["docs"; "B.pdf"]]%string /\
   scanner.scan pystr.lower mixed_root (flat_settings "docs" )
   <> [["docs"; "B.pdf"]; ["docs"; "a.pdf"]]%string) /\
  (NoDup (scanner.scan pystr.lower deep_root (deep_settings "docs")) /\
   In ["docs"; "z"; "y"; "Deep.pdf"]%string
      (scanner.scan pystr.lower deep_root (deep_settings "docs")) /\
   scanner.scan pystr.lower deep_root (deep_settings "docs")
   = [["docs"; "z"; "a.pdf"]; ["docs"; "z"; "y"; "Deep.pdf"];
      ["docs"; "top.pdf"]]%string).
Proof.
  split.
  - assert (ND : NoDup (map fst mixed_entries)).
    { vm_compute. repeat constructor; simpl; intuition discriminate. }
    destruct (scan_returns_sorted_pdf_files pystr.lower mixed_root
                (flat_settings "docs") mixed_entries eq_refl ND)
      as (H & _ & _ & _ & _ & _).
    destruct (H eq_refl) as (_ & Len & NDs).
    split; [exact Len|]. split; [exact NDs|].
    split; [vm_compute; reflexivity | vm_compute; discriminate].
  - assert (ND : NoDup (map fst deep_entries)).
    { vm_compute. repeat constructor; simpl; intuition discriminate. }
    assert (DN : distinct_names (fs.Dir deep_entries)).
    { vm_compute. repeat split; repeat constructor; simpl;
        intuition discriminate. }
    destruct (scan_returns_sorted_pdf_files pystr.lower deep_root
                (deep_settings "docs") deep_entries eq_refl ND)
      as (_ & H & _ & _ & _ & _).
    destruct (H eq_refl) as (M & U). destruct (U DN) as (NDs & _).
    split; [exact NDs|]. split; [|vm_compute; reflexivity].
    apply M. exists ["z"; "y"; "Deep.pdf"]%string.
    split; [reflexivity|]. split; [discriminate|].
    split; [eexists|]; reflexivity.
Defined.

(** C7.  For a source folder that is a directory: with the recursive flag
    the scan holds exactly the documents at every depth below the folder,
    without it exactly the documents that are direct children.  So a
    document at depth 0 is found in both modes, and a document at depth 2
    is found with the flag and not without it. *)
Theorem recursive_scan_reaches_all_depths :
  forall (lower : string -> string) (root : fs.node)
         (s : settings.MergeSettings) (es : fs.entries_t),
    fs.lookup root (settings.folder_path s) = Some (fs.Dir es) ->
    (forall p, In p (scanner.scan lower root s) ->
               exists rel, p = settings.folder_path s ++ rel) /\
    (settings.recursive s = true ->
     forall rel, In (settings.folder_path s ++ rel) (scanner.scan lower root s) <->
                 names_document (fs.Dir es) rel) /\
    (settings.recursive s = false ->
     forall rel, In (settings.folder_path s ++ rel) (scanner.scan lower root s) <->
                 names_document (fs.Dir es) rel /\ List.length rel = 1) /\
    (forall name : string,
        names_document (fs.Dir es) [name] ->
        In (settings.folder_path s ++ [name]) (scanner.scan lower root s)) /\
    (forall sub1 sub2 name : string,
        names_document (fs.Dir es) [sub1; sub2; name] ->
        (In (settings.folder_path s ++ [sub1; sub2; name])
            (scanner.scan lower root s) <->
         settings.recursive s = true)).
Proof.
  intros lower root s es L.
  split; [intros p; apply scan_under_folder|].
  split; [|split; [|split]].
  - intros R rel. rewrite (scan_below lower root s es rel L). rewrite R.
    split; [tauto|]. intros H. split; [exact H | discriminate].
  - intros R rel. rewrite (scan_below lower root s es rel L). rewrite R.
    split; intros [H1 H2]; split; auto.
  - intros name H. apply (scan_below lower root s es [name] L). now split.
  - intros sub1 sub2 name H.
    rewrite (scan_below lower root s es [sub1; sub2; name] L).
    destruct (settings.recursive s); split.
    + reflexivity.
    + intros _. split; [exact H | discriminate].
    + intros [_ Len]. specialize (Len eq_refl). discriminate.
    + discriminate.
Qed.

Lemma recursive_scan_reaches_all_depths_witness :
  (In ["docs"; "top.pdf"]%string (scanner.scan pystr.lower deep_root (deep_settings "docs")) /\
   In ["docs"; "z"; "y"; "Deep.pdf"]%string
      (scanner.scan pystr.lower deep_root (deep_settings "docs"))) /\
  (In ["docs"; "top.pdf"]%string (scanner.scan pystr.lower deep_root (flat_settings "docs")) /\
   ~ In ["docs"; "z"; "y"; "Deep.pdf"]%string
        (scanner.scan pystr.lower deep_root (flat_settings "docs"))) /\
  scanner.scan pystr.lower deep_root (deep_settings "docs")
  = [["docs"; "z"; "a.pdf"]; ["docs"; "z"; "y"; "Deep.pdf"];
     ["docs"; "top.pdf"]]%string /\
  scanner.scan pystr.lower deep_root (flat_settings "docs") = [["docs"; "top.pdf"]]%string.
Proof.
  assert (D0 : names_document (fs.Dir deep_entries) ["top.pdf"%string]).
  { split; [discriminate|]. split; [eexists|]; reflexivity. }
  assert (D2 : names_document (fs.Dir deep_entries)
                 ["z"; "y"; "Deep.pdf"]%string).
  { split; [discriminate|]. split; [eexists|]; reflexivity. }
  destruct (recursive_scan_reaches_all_depths pystr.lower deep_root (deep_settings "docs")
              deep_entries eq_refl) as (_ & _ & _ & T0 & T2).
  destruct (recursive_scan_reaches_all_depths pystr.lower deep_root (flat_settings "docs")
              deep_entries eq_refl) as (_ & _ & _ & F0 & F2).
  split; [|split; [|split]].
  - split; [exact (T0 _ D0) | exact (proj2 (T2 _ _ _ D2) eq_refl)].
  - split; [exact (F0 _ D0)|].
    intros H. apply (F2 _ _ _ D2) in H. discriminate.
  - vm_compute. reflexivity.
  - vm_compute. reflexivity.
Defined.

(** * Further properties *)

(** ** Names *)

Section NameFacts.

Local Open Scope string_scope.
Import file_utils.

Lemma rstrip_fixed chars s :
  last_kept chars s = true -> pystr.rstrip chars s = s.
Proof.
  induction s as [|c s IH]; [reflexivity|].
  destruct s as [|d s].
  - simpl. intros H. apply negb_true_iff in H. now rewrite H.
  - intros H. change (last_kept chars (String c (String d s)))
      with (last_kept chars (String d s)) in H.
    change (pystr.rstrip chars (String c (String d s)))
      with (match pystr.rstrip chars (String d s) with
            | "" => if pystr.mem c chars then "" else String c ""
            | r => String c r
            end).
    now rewrite (IH H).
Qed.

Lemma replace_illegal_length s :
  String.length (replace_illegal s) = String.length s.
Proof. induction s as [|c s IH]; simpl; [reflexivity | now rewrite IH]. Qed.

Lemma collapse_length s :
  String.length (collapse_underscores s) <= String.length s.
Proof.
  induction s as [|c s IH]; [apply Nat.le_refl|].
  destruct s as [|d s]; [apply Nat.le_refl|].
  rewrite collapse_cons.
  destruct (Ascii.eqb c underscore && Ascii.eqb d underscore).
  - cbn [String.length] in *. lia.
  - cbn [String.length] in *. lia.
Qed.

Lemma strip_length chars s :
  String.length (pystr.strip chars s) <= String.length s.
Proof.
  unfold pystr.strip.
  destruct (lstrip_suffix chars s) as [t Ht].
  destruct (rstrip_prefix chars (pystr.lstrip chars s)) as [u Hu].
  apply (f_equal String.length) in Ht, Hu.
  rewrite length_append in Ht, Hu. lia.
Qed.

Lemma append_inv_head (a b c : string) : a ++ b = a ++ c -> b = c.
Proof.
  induction a as [|x a IH]; simpl; [trivial|].
  intros H. injection H as H. now apply IH.
Qed.

(** A name is its stem followed by nothing or by a suffix that starts
    with a dot. *)
Lemma rfind_dot_split n : forall i,
  path.rfind_dot n = Some i ->
  exists t, n = String.substring 0 i n ++ String "."%char t.
Proof.
  induction n as [|c n IH]; intros i; simpl; [discriminate|].
  destruct (path.rfind_dot n) as [j|].
  - intros H. injection H as <-. destruct (IH j eq_refl) as [t Ht].
    exists t. simpl. now rewrite <- Ht.
  - destruct (Ascii.eqb c ".") eqn:E; [|discriminate].
    intros H. injection H as <-. apply Ascii.eqb_eq in E. subst c.
    exists n. simpl. now destruct n.
Qed.

Lemma stem_split n :
  exists rest, n = path.stem_of_name n ++ rest /\
               (rest = "" \/ exists t, rest = String "."%char t).
Proof.
  unfold path.stem_of_name.
  destruct (path.rfind_dot n) as [i|] eqn:E.
  - destruct ((0 <? i)%nat && (i <? String.length n - 1)%nat).
    + destruct (rfind_dot_split n i E) as [t Ht].
      exists (String "."%char t). split; [exact Ht | right; now exists t].
    + exists "". split; [now rewrite append_nil_r | now left].
  - exists "". split; [now rewrite append_nil_r | now left].
Qed.

(** The timestamped name is never the name it comes from. *)
Lemma timestamped_name_differs n ts :
  path.stem_of_name n ++ "_" ++ ts ++ ".pdf" <> n.
Proof.
  destruct (stem_split n) as (rest & Hn & Hr). intros H.
  pose proof (eq_trans H Hn) as H'. apply append_inv_head in H'.
  destruct Hr as [-> | [t ->]]; discriminate.
Qed.

Lemma joinpath_inj d a b : path.joinpath d a = path.joinpath d b -> a = b.
Proof.
  unfold path.joinpath. intros H. apply app_inv_head in H. congruence.
Qed.

End NameFacts.

(** X1.  [sanitize_filename] returns its argument exactly when the argument
    has none of the nine replaced characters, has no run of two
    underscores, and neither starts nor ends with an underscore or a
    space. *)
Theorem sanitize_filename_fixed_points :
  forall x : string,
    file_utils.sanitize_filename x = x <->
    all_chars legal x = true /\ no_run x = true /\
    head_kept "_ " x = true /\ last_kept "_ " x = true.
Proof.
  intros x. split.
  - intros H. rewrite <- H. repeat split.
    + apply sanitize_legal.
    + apply sanitize_no_run.
    + unfold file_utils.sanitize_filename, pystr.strip.
      apply rstrip_head_kept, lstrip_head_kept.
    + unfold file_utils.sanitize_filename, pystr.strip. apply rstrip_last_kept.
  - intros (L & R & H & T). rewrite (sanitize_of_clean x L R).
    unfold pystr.strip. rewrite (lstrip_fixed _ _ H). now apply rstrip_fixed.
Qed.

(** X2.  Sanitizing never lengthens a name. *)
Theorem sanitize_filename_not_longer :
  forall x : string,
    String.length (file_utils.sanitize_filename x) <= String.length x.
Proof.
  intros x. unfold file_utils.sanitize_filename.
  eapply Nat.le_trans; [apply strip_length|].
  eapply Nat.le_trans; [apply collapse_length|].
  rewrite replace_illegal_length. apply Nat.le_refl.
Qed.

(** X3.  Whatever the settings and the folder, the resolved output name
    has none of the nine replaced characters, so no path separator; it ends
    with the extension when case is ignored; and it is at least as long as
    the extension. *)
Theorem resolved_output_name_is_a_file_name :
  forall (s : settings.MergeSettings) (folder : path.Path),
    all_chars legal (orchestrator._resolve_output_name s folder) = true /\
    pystr.endswith
      (pystr.lower (orchestrator._resolve_output_name s folder)) ".pdf" = true /\
    4 <= String.length (orchestrator._resolve_output_name s folder).
Proof.
  intros s folder. rewrite resolve_output_name_base.
  set (b := file_utils.sanitize_filename (base_name s folder)).
  assert (L : all_chars legal b = true) by apply sanitize_legal.
  unfold file_utils.ensure_pdf_extension, constants.PDF_EXTENSION.
  destruct (pystr.endswith (pystr.lower b) ".pdf") eqn:E; cbn [negb].
  - split; [exact L|]. split; [exact E|].
    apply endswith_spec in E as [a Ha].
    apply (f_equal String.length) in Ha.
    assert (Hl : forall t, String.length (pystr.lower t) = String.length t).
    { induction t as [|c t IH]; simpl; [reflexivity | now rewrite IH]. }
    rewrite Hl, length_append in Ha. simpl in Ha. lia.
  - split; [|split].
    + rewrite all_chars_append, L. reflexivity.
    + rewrite lower_append. apply endswith_append.
    + rewrite length_append. simpl. lia.
Qed.

(** X4.  For a path [destination / name]: [ensure_unique_output] returns
    the path itself exactly when the path does not exist; the result is
    always in the same directory; and a result that is not the path has a
    name that ends with the extension. *)
Theorem ensure_unique_output_changes_existing :
  forall (root : fs.node) (now : file_utils.datetime)
         (destination : path.Path) (name : string),
    let p := path.joinpath destination name in
    (file_utils.ensure_unique_output root now p = p <->
     fs.exists_ root p = false) /\
    path.parent (file_utils.ensure_unique_output root now p) = destination /\
    (file_utils.ensure_unique_output root now p = p \/
     pystr.endswith
       (path.name (file_utils.ensure_unique_output root now p)) ".pdf" = true).
Proof.
  intros root now destination name p.
  unfold file_utils.ensure_unique_output, path.with_name, path.stem, p,
    constants.PDF_EXTENSION.
  rewrite parent_joinpath, name_joinpath.
  destruct (fs.exists_ root (path.joinpath destination name)); cbn [negb].
  - fold (path.joinpath destination
            (path.stem_of_name name ++ "_" ++
             file_utils.strftime_TIMESTAMP_PATTERN now ++ ".pdf")%string).
    split; [|split].
    + split; [|discriminate]. intros H. apply joinpath_inj in H.
      now apply timestamped_name_differs in H.
    + apply parent_joinpath.
    + right. rewrite name_joinpath.
      change (path.stem_of_name name ++ "_" ++
              file_utils.strftime_TIMESTAMP_PATTERN now ++ ".pdf")%string
        with (path.stem_of_name name ++
              ("_" ++ file_utils.strftime_TIMESTAMP_PATTERN now ++ ".pdf"))%string.
      apply endswith_spec.
      exists (path.stem_of_name name ++ "_" ++
              file_utils.strftime_TIMESTAMP_PATTERN now)%string.
      now rewrite !append_assoc.
  - split; [tauto|]. split; [apply parent_joinpath | now left].
Qed.

(** ** The page count and the document *)

Section CountFacts.

Import effects world.

Lemma counted_le_appended w files :
  list_sum (map (pages_counted w) files)
  <= List.length (merged_document w files).
Proof.
  unfold merged_document.
  induction files as [|p files IH]; [apply Nat.le_refl|].
  change (pages_counted w p + list_sum (map (pages_counted w) files)
          <= List.length (pages_appended w p ++
                          flat_map (pages_appended w) files)).
  rewrite length_app.
  unfold pages_counted at 1. destruct (succeeds w p); lia.
Qed.

Lemma counted_successful w files :
  list_sum (map (pages_counted w) files)
  = List.length (pages_of_successful w files).
Proof.
  unfold pages_of_successful.
  induction files as [|p files IH]; [reflexivity|].
  change (pages_counted w p + list_sum (map (pages_counted w) files)
          = List.length ((if succeeds w p then pages_appended w p else []) ++
                         flat_map (fun p => if succeeds w p
                                            then pages_appended w p else [])
                           files)).
  rewrite length_app, IH.
  unfold pages_counted. now destruct (succeeds w p).
Qed.

Lemma merged_document_app w l1 l2 :
  merged_document w (l1 ++ l2) = merged_document w l1 ++ merged_document w l2.
Proof. unfold merged_document. apply flat_map_app. Qed.

(** Paths that are no regular files append nothing. *)
Lemma merged_document_filter w files :
  merged_document w (filter (fs.is_file (root w)) files)
  = merged_document w files.
Proof.
  unfold merged_document.
  induction files as [|p files IH]; [reflexivity|].
  cbn [filter flat_map]. destruct (fs.is_file (root w) p) eqn:F.
  - cbn [flat_map]. now rewrite IH.
  - rewrite IH. unfold fs.is_file in F.
    assert (E : pages_appended w p = []).
    { unfold pages_appended.
      destruct (fs.lookup (root w) p) as [[c|es]|]; [discriminate | |];
        reflexivity. }
    now rewrite E.
Qed.

End CountFacts.

(** X5.  In a merge that returns, the total never exceeds the number of
    pages of the document written, and it equals that number when every
    input succeeds or fails to read. *)
Theorem total_pages_within_document :
  forall (w : world.World) (files : list path.Path)
         (output_path : path.Path) (st : effects.State),
    effects.sigint st = None ->
    world.PDF_IMPORT_ERROR w = None ->
    world.write_error w = None ->
    exists outcome st' doc,
      merger.merge w files output_path st = (effects.Return outcome, st') /\
      effects.written st' = Some (output_path, effects.Document doc) /\
      merger.total_pages outcome <= List.length doc /\
      (Forall (fun p => succeeds w p = true \/ fails_to_read w p) files ->
       merger.total_pages outcome = List.length doc).
Proof.
  intros w files output_path st Q I W. rewrite (quiet_state st Q).
  eexists. eexists. exists (merged_document w files).
  split; [apply merge_quiet; assumption|]. split; [reflexivity|].
  split; [apply counted_le_appended|].
  intros F. cbn [merge_outcome merger.total_pages].
  rewrite (merged_document_successful w files F). apply counted_successful.
Qed.

Lemma total_pages_within_document_witness :
  (exists outcome st',
      merger.merge (sample_world abc_root) abc_files ["out.pdf"%string]
        (effects.initial None) = (effects.Return outcome, st') /\
      merger.total_pages outcome = 5 /\
      effects.written st' = Some (["out.pdf"%string], effects.Document [11; 12; 13; 21; 22])) /\
  (exists outcome st',
      merger.merge (sample_world broken_root)
        [["docs"; "A.pdf"]; ["docs"; "D.pdf"]]%string ["out.pdf"%string]
        (effects.initial None) = (effects.Return outcome, st') /\
      merger.total_pages outcome <= 5 /\
      effects.written st'
      = Some (["out.pdf"%string], effects.Document [11; 12; 13; 31; 32])).
Proof.
  split.
  - destruct (total_pages_within_document (sample_world abc_root) abc_files
                ["out.pdf"%string] (effects.initial None)
                eq_refl eq_refl eq_refl)
      as (outcome & st' & doc & E & Wr & _ & T).
    exists outcome, st'. split; [exact E|].
    assert (D : doc = [11; 12; 13; 21; 22]).
    { rewrite (merge_quiet (sample_world abc_root) abc_files _ [] [] None
                 eq_refl eq_refl) in E.
      injection E as _ <-. simpl in Wr. injection Wr as <-.
      vm_compute. reflexivity. }
    split; [|now rewrite Wr, D].
    rewrite T; [now rewrite D|].
    apply Forall_cons; [left; reflexivity|].
    apply Forall_cons; [left; reflexivity|].
    apply Forall_cons; [right; split; reflexivity|].
    apply Forall_nil.
  - destruct (total_pages_within_document (sample_world broken_root)
                [["docs"; "A.pdf"]; ["docs"; "D.pdf"]]%string
                ["out.pdf"%string] (effects.initial None)
                eq_refl eq_refl eq_refl)
      as (outcome & st' & doc & E & Wr & L & _).
    exists outcome, st'. split; [exact E|].
    assert (D : doc = [11; 12; 13; 31; 32]).
    { rewrite (merge_quiet (sample_world broken_root) _ _ [] [] None
                 eq_refl eq_refl) in E.
      injection E as _ <-. simpl in Wr. injection Wr as <-.
      vm_compute. reflexivity. }
    split; [now rewrite D in L | now rewrite Wr, D].
Defined.

(** X6.  The empty list of inputs.  [merge] of the application does not
    refuse it: it prints the saving line only, writes a document without
    pages and returns a total of 0.  [merge_pdfs] of the script refuses
    it: it prints one error line, writes nothing and returns [False]. *)
Theorem merge_of_no_files :
  forall (w : world.World) (output_path : path.Path) (st : effects.State),
    effects.sigint st = None ->
    world.PDF_IMPORT_ERROR w = None ->
    world.write_error w = None ->
    (exists outcome st',
        merger.merge w [] output_path st = (effects.Return outcome, st') /\
        merger.total_pages outcome = 0 /\
        effects.written st' = Some (output_path, effects.Document []) /\
        effects.stdout st' = effects.stdout st ++ [saving_line output_path]) /\
    (exists st',
        pdf_merger.merge_pdfs w [] output_path st
        = (effects.Return false, st') /\
        effects.written st' = effects.written st /\
        effects.stdout st'
        = effects.stdout st ++ [console.error "No PDF files found to merge!"]).
Proof.
  intros w output_path st Q I W. rewrite (quiet_state st Q). split.
  - eexists. eexists. split; [apply merge_quiet; assumption|].
    repeat split.
  - eexists. split; [reflexivity|]. split; reflexivity.
Qed.

Lemma merge_of_no_files_witness :
  (exists outcome st',
      merger.merge (sample_world abc_root) [] ["out.pdf"%string]
        (effects.initial None) = (effects.Return outcome, st') /\
      merger.total_pages outcome = 0 /\
      effects.written st' = Some (["out.pdf"%string], effects.Document [])) /\
  (exists st',
      pdf_merger.merge_pdfs (sample_world abc_root) [] ["out.pdf"%string]
        (effects.initial None) = (effects.Return false, st') /\
      effects.written st' = None).
Proof.
  destruct (merge_of_no_files (sample_world abc_root) ["out.pdf"%string]
              (effects.initial None) eq_refl eq_refl eq_refl)
    as ((outcome & st1 & E1 & T & W1 & _) & (st2 & E2 & W2 & _)).
  split.
  - exists outcome, st1. split; [exact E1|]. split; [exact T | exact W1].
  - exists st2. split; [exact E2 | exact W2].
Defined.

(** X7.  Merging a list made of two parts gives the sum of the totals of
    the parts and the document of the first part followed by the document
    of the second. *)
Theorem merge_of_concatenation :
  forall (w : world.World) (l1 l2 : list path.Path)
         (output_path : path.Path) (st : effects.State),
    effects.sigint st = None ->
    world.PDF_IMPORT_ERROR w = None ->
    world.write_error w = None ->
    exists o o1 o2 st' st1 st2 doc1 doc2,
      merger.merge w (l1 ++ l2) output_path st = (effects.Return o, st') /\
      merger.merge w l1 output_path st = (effects.Return o1, st1) /\
      merger.merge w l2 output_path st = (effects.Return o2, st2) /\
      effects.written st1 = Some (output_path, effects.Document doc1) /\
      effects.written st2 = Some (output_path, effects.Document doc2) /\
      effects.written st' = Some (output_path, effects.Document (doc1 ++ doc2)) /\
      merger.total_pages o = merger.total_pages o1 + merger.total_pages o2.
Proof.
  intros w l1 l2 output_path st Q I W. rewrite (quiet_state st Q).
  do 6 eexists. exists (merged_document w l1), (merged_document w l2).
  split; [apply merge_quiet; assumption|].
  split; [apply merge_quiet; assumption|].
  split; [apply merge_quiet; assumption|].
  split; [reflexivity|]. split; [reflexivity|].
  split; [simpl; now rewrite merged_document_app|].
  cbn [merge_outcome merger.total_pages].
  rewrite map_app. clear. induction (map (pages_counted w) l1) as [|x l IH];
    [reflexivity|]. simpl in *. lia.
Qed.

Lemma merge_of_concatenation_witness :
  exists o st',
    merger.merge (sample_world abc_root)
      ([["docs"; "A.pdf"]%string] ++
       [["docs"; "B.pdf"]%string; ["docs"; "C.pdf"]%string])
      ["out.pdf"%string] (effects.initial None) = (effects.Return o, st') /\
    merger.total_pages o = 3 + 2 /\
    effects.written st' = Some (["out.pdf"%string], effects.Document ([11; 12; 13] ++ [21; 22])).
Proof.
  destruct (merge_of_concatenation (sample_world abc_root)
              [["docs"; "A.pdf"]]%string
              [["docs"; "B.pdf"]; ["docs"; "C.pdf"]]%string
              ["out.pdf"%string] (effects.initial None)
              eq_refl eq_refl eq_refl)
    as (o & o1 & o2 & st' & st1 & st2 & doc1 & doc2
        & E & E1 & E2 & W1 & W2 & Wr & T).
  exists o, st'. split; [exact E|].
  rewrite (merge_quiet (sample_world abc_root) _ _ [] [] None eq_refl eq_refl)
    in E1.
  rewrite (merge_quiet (sample_world abc_root) _ _ [] [] None eq_refl eq_refl)
    in E2.
  injection E1 as <- <-. injection E2 as <- <-.
  simpl in W1, W2. injection W1 as <-. injection W2 as <-.
  split; [rewrite T; vm_compute; reflexivity|].
  rewrite Wr. vm_compute. reflexivity.
Defined.

(** X8.  The recursive scan of a folder holds every path of the
    non-recursive scan of the same folder, and is at least as long. *)
Theorem recursive_scan_extends_flat_scan :
  forall (lower : string -> string) (root : fs.node)
         (flat deep : settings.MergeSettings),
    settings.folder_path flat = settings.folder_path deep ->
    settings.recursive flat = false ->
    settings.recursive deep = true ->
    incl (scanner.scan lower root flat) (scanner.scan lower root deep) /\
    List.length (scanner.scan lower root flat) <= List.length (scanner.scan lower root deep).
Proof.
  intros lower root flat deep F Rf Rd.
  assert (G : exists rest,
             fs.glob root (settings.folder_path deep) true
             = fs.glob root (settings.folder_path deep) false ++ rest).
  { unfold fs.glob.
    destruct (fs.lookup root (settings.folder_path deep)) as [[c|es]|];
      try (now exists []).
    rewrite rglob_dir. now eexists. }
  destruct G as [rest G]. split.
  - intros p H. apply scan_In in H as [H1 H2]. apply scan_In.
    rewrite F, Rf in H1. rewrite Rd, G. split; [|exact H2].
    apply in_or_app. now left.
  - unfold scanner.scan. rewrite F, Rf, Rd, G.
    rewrite (Permutation_length
               (filter_perm _ (fs.is_file root) _ _
                  (sorted_perm _ (scanner.sort_key lower)
                     (fs.glob root (settings.folder_path deep) false)))).
    rewrite (Permutation_length
               (filter_perm _ (fs.is_file root) _ _
                  (sorted_perm _ (scanner.sort_key lower)
                     (fs.glob root (settings.folder_path deep) false ++ rest)))).
    rewrite filter_app, length_app. lia.
Qed.

Lemma recursive_scan_extends_flat_scan_witness :
  incl (scanner.scan pystr.lower deep_root (flat_settings "docs"))
       (scanner.scan pystr.lower deep_root (deep_settings "docs")) /\
  List.length (scanner.scan pystr.lower deep_root (flat_settings "docs")) = 1 /\
  List.length (scanner.scan pystr.lower deep_root (deep_settings "docs")) = 3.
Proof.
  destruct (recursive_scan_extends_flat_scan pystr.lower deep_root (flat_settings "docs")
              (deep_settings "docs") eq_refl eq_refl eq_refl) as [H _].
  split; [exact H|]. split; vm_compute; reflexivity.
Defined.

(** X9.  [limit_preview] returns the names of the first [limit] files, in
    order; and the number of names it returns plus the number the line
    [... and K more files] announces, [K] being the number of files less
    the limit, is the number of files. *)
Theorem preview_accounts_for_every_file :
  forall (files : list path.Path) (limit : nat),
    file_utils.limit_preview files limit
    = map path.name (firstn limit files) /\
    List.length (file_utils.limit_preview files limit)
    = Nat.min limit (List.length files) /\
    List.length (file_utils.limit_preview files limit)
    + (List.length files - limit) = List.length files.
Proof.
  intros files limit. rewrite limit_preview_firstn.
  rewrite length_map, length_firstn. repeat split. lia.
Qed.

(** ** What a run leaves on disk *)

Section Keeps.

Import effects world.

(** A computation that leaves the file opened for writing as it is. *)
Definition keeps {A} (m : M A) : Prop :=
  forall st, written (snd (m st)) = written st.

(** A computation that opens no file for writing but [p]. *)
Definition touches {A} (p : path.Path) (m : M A) : Prop :=
  forall st,
    written (snd (m st)) = written st \/
    exists c, written (snd (m st)) = Some (p, c).

Lemma keeps_touches {A} p (m : M A) : keeps m -> touches p m.
Proof. intros K st. left. apply K. Qed.

Lemma keeps_ret {A} (a : A) : keeps (ret a).
Proof. intros st. reflexivity. Qed.

Lemma keeps_raise {A} (e : exn) : keeps (@raise A e).
Proof. intros st. reflexivity. Qed.

Lemma keeps_tick : keeps tick.
Proof. intros st. unfold tick. now destruct (sigint st) as [[|k]|]. Qed.

Lemma keeps_bind {A B} (m : M A) (k : A -> M B) :
  keeps m -> (forall a, keeps (k a)) -> keeps (bind m k).
Proof.
  intros Hm Hk st. unfold bind. specialize (Hm st).
  destruct (m st) as [[a|e] st1]; simpl in *; [|exact Hm].
  now rewrite Hk.
Qed.

Lemma keeps_try {A} (body : M A) (handler : exn -> option (M A)) :
  keeps body -> (forall e h, handler e = Some h -> keeps h) ->
  keeps (try_except body handler).
Proof.
  intros Hb Hh st. unfold try_except. specialize (Hb st).
  destruct (body st) as [[a|e] st1]; simpl in *; [exact Hb|].
  destruct (handler e) as [h|] eqn:E; [|exact Hb].
  now rewrite (Hh e h E).
Qed.

Lemma keeps_print l : keeps (print l).
Proof.
  unfold print. apply keeps_bind; [apply keeps_tick|].
  intros _ st. reflexivity.
Qed.

Lemma keeps_if {A} (b : bool) (m1 m2 : M A) :
  keeps m1 -> keeps m2 -> keeps (if b then m1 else m2).
Proof. now destruct b. Qed.

Lemma touches_step p (x y z : option (path.Path * file_content)) :
  (y = x \/ exists c, y = Some (p, c)) ->
  (z = y \/ exists c, z = Some (p, c)) ->
  z = x \/ exists c, z = Some (p, c).
Proof. intros [-> | H] [-> | H']; auto. Qed.

Lemma touches_bind {A B} p (m : M A) (k : A -> M B) :
  touches p m -> (forall a, touches p (k a)) -> touches p (bind m k).
Proof.
  intros Hm Hk st. unfold bind. specialize (Hm st).
  destruct (m st) as [[a|e] st1]; simpl in *; [|exact Hm].
  exact (touches_step p _ _ _ Hm (Hk a st1)).
Qed.

(** The same when the first computation can return one value only. *)
Lemma touches_bind_at {A B} p (m : M A) (k : A -> M B) (v : A) :
  keeps m -> (forall st a, fst (m st) = Return a -> a = v) ->
  touches p (k v) -> touches p (bind m k).
Proof.
  intros Hm Hv Hk st. unfold bind. specialize (Hm st). specialize (Hv st).
  destruct (m st) as [[a|e] st1]; simpl in *; [|now left].
  rewrite (Hv a eq_refl).
  exact (touches_step p _ _ _ (or_introl Hm) (Hk st1)).
Qed.

Lemma touches_try {A} p (body : M A) (handler : exn -> option (M A)) :
  touches p body -> (forall e h, handler e = Some h -> keeps h) ->
  touches p (try_except body handler).
Proof.
  intros Hb Hh st. unfold try_except. specialize (Hb st).
  destruct (body st) as [[a|e] st1]; simpl in *; [exact Hb|].
  destruct (handler e) as [h|] eqn:E; [|exact Hb].
  pose proof (Hh e h E st1) as K.
  destruct Hb as [Hb | [c Hb]]; [left | right; exists c]; congruence.
Qed.

End Keeps.

Ltac keeps_step :=
  first
    [ apply keeps_ret
    | apply keeps_raise
    | apply keeps_tick
    | apply keeps_print
    | apply keeps_bind; [|intros ?]
    | apply keeps_if
    | (intros ?st; reflexivity) ].

Section KeepsProgram.

Import effects world.

Lemma keeps_print_items items : forall idx,
  keeps (console.print_items idx items).
Proof.
  induction items as [|v items IH]; intros idx; simpl; [apply keeps_ret|].
  apply keeps_bind; [apply keeps_print | intros _; apply IH].
Qed.

Lemma keeps_print_files items limit total :
  keeps (console.print_files items limit total).
Proof.
  unfold console.print_files.
  apply keeps_bind; [apply keeps_print | intros _].
  apply keeps_bind; [apply keeps_print_items | intros _].
  repeat keeps_step.
Qed.

Lemma keeps_add_pages pages : keeps (merger.add_pages pages).
Proof.
  induction pages as [|pg pages IH]; simpl; [apply keeps_ret|].
  apply keeps_bind; [|intros _; exact IH].
  unfold merger.add_page. repeat keeps_step.
Qed.

Lemma keeps_open_pdf w p : keeps (merger.open_pdf w p).
Proof.
  unfold merger.open_pdf. apply keeps_bind; [apply keeps_tick|].
  intros _. destruct (fs.lookup (root w) p) as [[c|es]|]; repeat keeps_step.
Qed.

Lemma keeps_report p (total : nat) e (h : M nat) :
  (if is_Exception e
   then Some (bind (print (merger.failed_line p e)) (fun _ => ret total))
   else None) = Some h ->
  keeps h.
Proof.
  destruct (is_Exception e); [|discriminate].
  intros E. injection E as <-. repeat keeps_step.
Qed.

Lemma keeps_read_into_writer w p total :
  keeps (merger.read_into_writer w p total).
Proof.
  unfold merger.read_into_writer.
  apply keeps_bind; [apply keeps_open_pdf | intros reader].
  apply keeps_bind; [apply keeps_add_pages | intros _].
  destruct (fs.failure reader); repeat keeps_step.
Qed.

Lemma keeps_process_file w n index p total :
  keeps (merger.process_file w n index p total).
Proof.
  unfold merger.process_file.
  apply keeps_bind; [repeat keeps_step | intros _].
  apply keeps_try; [apply keeps_read_into_writer|].
  intros e h. apply keeps_report.
Qed.

Lemma keeps_process_files w n files : forall index total,
  keeps (merger.process_files w n index files total).
Proof.
  induction files as [|p files IH]; intros index total; simpl;
    [apply keeps_ret|].
  apply keeps_bind; [apply keeps_process_file | intros t; apply IH].
Qed.

Lemma keeps_mkdir_parents w d : keeps (orchestrator.mkdir_parents w d).
Proof.
  unfold orchestrator.mkdir_parents.
  apply keeps_bind; [apply keeps_tick | intros _].
  destruct (fs.lookup (root w) d) as [[c|es]|];
    [| |destruct (mkdir_error w)]; repeat keeps_step.
Qed.

Lemma keeps_stat_size w : keeps (merger.stat_size w).
Proof. unfold merger.stat_size. repeat keeps_step. Qed.

(** The two steps of the write are the only ones that touch the disk. *)
Lemma touches_write_pdf w p : touches p (merger.write_pdf w p).
Proof.
  intros [o i d wr].
  unfold merger.write_pdf, merger.open_wb, merger.write_handle, bind, tick,
    raise.
  destruct i as [[|[|k]]|]; destruct (write_error w) as [[m|m]|];
    simpl; try (now left); right; eexists; reflexivity.
Qed.

Lemma touches_merge w files p : touches p (merger.merge w files p).
Proof.
  unfold merger.merge. destruct (PDF_IMPORT_ERROR w);
    [apply keeps_touches, keeps_raise|].
  apply touches_bind;
    [apply keeps_touches; unfold merger.new_writer; keeps_step | intros _].
  apply touches_bind;
    [apply keeps_touches, keeps_process_files | intros total].
  apply touches_bind; [apply keeps_touches, keeps_print | intros _].
  apply touches_bind; [apply touches_write_pdf | intros _].
  apply keeps_touches.
  apply keeps_bind; [apply keeps_stat_size | intros size]. apply keeps_ret.
Qed.

(** [_resolve_destination] returns the target or raises. *)
Lemma resolve_destination_value w s st a :
  fst (orchestrator._resolve_destination w (settings.destination s)
         (settings.folder_path s) st) = Return a ->
  a = target s.
Proof.
  unfold orchestrator._resolve_destination, bind. fold (target s).
  destruct (orchestrator.mkdir_parents w (target s) st) as [[u|e] st1];
    simpl; [|discriminate].
  intros H. now injection H.
Qed.

Lemma touches_execute w s :
  touches (resolved_output_path w s) (orchestrator.execute w s).
Proof.
  unfold orchestrator.execute.
  destruct (negb (fs.exists_ (root w) (settings.folder_path s)));
    [apply keeps_touches, keeps_raise|].
  destruct (negb (fs.is_dir (root w) (settings.folder_path s)));
    [apply keeps_touches, keeps_raise|].
  cbv zeta.
  apply touches_bind; [apply keeps_touches, keeps_print | intros _].
  apply touches_bind; [apply keeps_touches, keeps_print | intros _].
  apply touches_bind; [apply keeps_touches, keeps_tick | intros _].
  destruct (scanner.scan (str_lower w) (root w) s) as [|p0 files0];
    [apply keeps_touches; repeat keeps_step|].
  apply touches_bind; [apply keeps_touches, keeps_print | intros _].
  apply (touches_bind_at _ _ _ (target s)).
  { unfold orchestrator._resolve_destination.
    apply keeps_bind; [apply keeps_mkdir_parents | intros _]. apply keeps_ret. }
  { intros st a. apply resolve_destination_value. }
  apply touches_bind; [apply keeps_touches; repeat keeps_step | intros _].
  apply touches_bind; [apply keeps_touches, keeps_print_files | intros _].
  apply touches_bind; [apply keeps_touches, keeps_print | intros _].
  apply touches_bind; [apply keeps_touches; repeat keeps_step | intros _].
  apply touches_bind; [apply keeps_touches, keeps_print | intros _].
  apply touches_bind; [apply keeps_touches, keeps_print | intros _].
  apply touches_bind; [apply touches_merge | intros o].
  apply keeps_touches, keeps_ret.
Qed.

Lemma touches_run w args :
  touches (resolved_output_path w (app._build_settings w args))
    (app.run w args).
Proof.
  unfold app.run. cbv zeta.
  apply touches_bind; [apply keeps_touches, keeps_print | intros _].
  apply touches_bind.
  - apply touches_try.
    + apply touches_bind; [apply touches_execute | intros o].
      apply keeps_touches, keeps_ret.
    + intros e h H. destruct e; try discriminate; injection H as <-;
        repeat keeps_step.
  - intros [[o|]|code]; apply keeps_touches; repeat keeps_step.
Qed.

End KeepsProgram.

(** ** The interrupt is never swallowed *)

Section Surfaces.

Import effects world.

(** A computation in which a delivered interrupt always comes out as
    [KeyboardInterrupt]: when no interrupt is pending at the end, either
    none was pending at the start or the computation ends with
    [KeyboardInterrupt]. *)
Definition surfaces {A} (m : M A) : Prop :=
  forall st,
    sigint (snd (m st)) = None ->
    sigint st = None \/ fst (m st) = Raise KeyboardInterrupt.

Lemma surfaces_same {A} (m : M A) :
  (forall st, sigint (snd (m st)) = sigint st) -> surfaces m.
Proof. intros K st H. left. now rewrite <- K. Qed.

Lemma surfaces_ret {A} (a : A) : surfaces (ret a).
Proof. now apply surfaces_same. Qed.

Lemma surfaces_raise {A} (e : exn) : surfaces (@raise A e).
Proof. now apply surfaces_same. Qed.

Lemma surfaces_tick : surfaces tick.
Proof.
  intros st. unfold tick. destruct (sigint st) as [[|k]|]; simpl; intros H;
    [now right | discriminate | now left].
Qed.

Lemma surfaces_bind {A B} (m : M A) (k : A -> M B) :
  surfaces m -> (forall a, surfaces (k a)) -> surfaces (bind m k).
Proof.
  intros Hm Hk st. unfold bind. specialize (Hm st).
  destruct (m st) as [[a|e] st1]; simpl in *.
  - intros H. destruct (Hk a st1 H) as [Q|R]; [|now right].
    destruct (Hm Q) as [Q'|R']; [now left | discriminate].
  - intros H. destruct (Hm H) as [Q|R]; [now left | right].
    injection R as ->. reflexivity.
Qed.

(** A handler that lets [KeyboardInterrupt] pass. *)
Lemma surfaces_try {A} (body : M A) (handler : exn -> option (M A)) :
  surfaces body ->
  handler KeyboardInterrupt = None ->
  (forall e h, handler e = Some h -> surfaces h) ->
  surfaces (try_except body handler).
Proof.
  intros Hb Hk Hh st. unfold try_except. specialize (Hb st).
  destruct (body st) as [[a|e] st1]; simpl in *; [exact Hb|].
  destruct (handler e) as [h|] eqn:E.
  - intros H. destruct (Hh e h E st1 H) as [Q|R]; [|now right].
    destruct (Hb Q) as [Q'|R']; [now left|].
    injection R' as ->. congruence.
  - exact Hb.
Qed.

Lemma surfaces_print l : surfaces (print l).
Proof.
  unfold print. apply surfaces_bind; [apply surfaces_tick|].
  intros _. now apply surfaces_same.
Qed.

Lemma surfaces_if {A} (b : bool) (m1 m2 : M A) :
  surfaces m1 -> surfaces m2 -> surfaces (if b then m1 else m2).
Proof. now destruct b. Qed.

End Surfaces.

Ltac surfaces_step :=
  first
    [ apply surfaces_ret
    | apply surfaces_raise
    | apply surfaces_tick
    | apply surfaces_print
    | apply surfaces_bind; [|intros ?]
    | apply surfaces_if
    | (apply surfaces_same; intros ?st; reflexivity) ].

Section SurfacesProgram.

Import effects world.

Lemma surfaces_print_items items : forall idx,
  surfaces (console.print_items idx items).
Proof.
  induction items as [|v items IH]; intros idx; simpl; [apply surfaces_ret|].
  apply surfaces_bind; [apply surfaces_print | intros _; apply IH].
Qed.

Lemma surfaces_print_files items limit total :
  surfaces (console.print_files items limit total).
Proof.
  unfold console.print_files.
  apply surfaces_bind; [apply surfaces_print | intros _].
  apply surfaces_bind; [apply surfaces_print_items | intros _].
  repeat surfaces_step.
Qed.

Lemma surfaces_add_pages pages : surfaces (merger.add_pages pages).
Proof.
  induction pages as [|pg pages IH]; simpl; [apply surfaces_ret|].
  apply surfaces_bind; [|intros _; exact IH].
  unfold merger.add_page. repeat surfaces_step.
Qed.

Lemma surfaces_open_pdf w p : surfaces (merger.open_pdf w p).
Proof.
  unfold merger.open_pdf. apply surfaces_bind; [apply surfaces_tick|].
  intros _. destruct (fs.lookup (root w) p) as [[c|es]|];
    repeat surfaces_step.
Qed.

Lemma surfaces_report p (total : nat) e (h : M nat) :
  (if is_Exception e
   then Some (bind (print (merger.failed_line p e)) (fun _ => ret total))
   else None) = Some h ->
  surfaces h.
Proof.
  destruct (is_Exception e); [|discriminate].
  intros E. injection E as <-. repeat surfaces_step.
Qed.

Lemma surfaces_read_into_writer w p total :
  surfaces (merger.read_into_writer w p total).
Proof.
  unfold merger.read_into_writer.
  apply surfaces_bind; [apply surfaces_open_pdf | intros reader].
  apply surfaces_bind; [apply surfaces_add_pages | intros _].
  destruct (fs.failure reader); repeat surfaces_step.
Qed.

Lemma surfaces_process_file w n index p total :
  surfaces (merger.process_file w n index p total).
Proof.
  unfold merger.process_file.
  apply surfaces_bind; [repeat surfaces_step | intros _].
  apply surfaces_try; [apply surfaces_read_into_writer | reflexivity |].
  intros e h. apply surfaces_report.
Qed.

Lemma surfaces_process_files w n files : forall index total,
  surfaces (merger.process_files w n index files total).
Proof.
  induction files as [|p files IH]; intros index total; simpl;
    [apply surfaces_ret|].
  apply surfaces_bind; [apply surfaces_process_file | intros t; apply IH].
Qed.

Lemma surfaces_write_pdf w p : surfaces (merger.write_pdf w p).
Proof.
  unfold merger.write_pdf, merger.open_wb, merger.write_handle.
  apply surfaces_bind; [|intros _];
    (apply surfaces_bind; [apply surfaces_tick|]; intros _;
     destruct (write_error w) as [[m|m]|]; repeat surfaces_step).
Qed.

Lemma surfaces_stat_size w : surfaces (merger.stat_size w).
Proof. unfold merger.stat_size. repeat surfaces_step. Qed.

Lemma surfaces_merge w files p : surfaces (merger.merge w files p).
Proof.
  unfold merger.merge. destruct (PDF_IMPORT_ERROR w); [surfaces_step|].
  apply surfaces_bind; [unfold merger.new_writer; surfaces_step | intros _].
  apply surfaces_bind; [apply surfaces_process_files | intros total].
  apply surfaces_bind; [apply surfaces_print | intros _].
  apply surfaces_bind; [apply surfaces_write_pdf | intros _].
  apply surfaces_bind; [apply surfaces_stat_size | intros size].
  apply surfaces_ret.
Qed.

Lemma surfaces_mkdir_parents w d : surfaces (orchestrator.mkdir_parents w d).
Proof.
  unfold orchestrator.mkdir_parents.
  apply surfaces_bind; [apply surfaces_tick | intros _].
  destruct (fs.lookup (root w) d) as [[c|es]|];
    [| |destruct (mkdir_error w)]; repeat surfaces_step.
Qed.

Lemma surfaces_execute w s : surfaces (orchestrator.execute w s).
Proof.
  unfold orchestrator.execute, orchestrator._resolve_destination.
  destruct (negb (fs.exists_ (root w) (settings.folder_path s)));
    [surfaces_step|].
  destruct (negb (fs.is_dir (root w) (settings.folder_path s)));
    [surfaces_step|].
  cbv zeta.
  apply surfaces_bind; [apply surfaces_print | intros _].
  apply surfaces_bind; [apply surfaces_print | intros _].
  apply surfaces_bind; [apply surfaces_tick | intros _].
  destruct (scanner.scan (str_lower w) (root w) s) as [|p0 files0]; [repeat surfaces_step|].
  apply surfaces_bind; [apply surfaces_print | intros _].
  apply surfaces_bind.
  { apply surfaces_bind; [apply surfaces_mkdir_parents | intros _].
    apply surfaces_ret. }
  intros d.
  apply surfaces_bind; [repeat surfaces_step | intros _].
  apply surfaces_bind; [apply surfaces_print_files | intros _].
  apply surfaces_bind; [apply surfaces_print | intros _].
  apply surfaces_bind; [repeat surfaces_step | intros _].
  apply surfaces_bind; [apply surfaces_print | intros _].
  apply surfaces_bind; [apply surfaces_print | intros _].
  apply surfaces_bind; [apply surfaces_merge | intros o].
  apply surfaces_ret.
Qed.

End SurfacesProgram.

(** X11.  An interrupt delivered while [merge] or [execute] runs comes out
    as [KeyboardInterrupt]: the handler of per-file failures does not
    catch it and a file being read at that moment is not reported as
    failed in its place.  So when the interrupt arrives while [execute]
    runs, the application ends with status 1. *)
Theorem interrupt_is_not_swallowed :
  forall (w : world.World),
    (forall files output_path st,
        effects.sigint st <> None ->
        effects.sigint (snd (merger.merge w files output_path st)) = None ->
        fst (merger.merge w files output_path st)
        = effects.Raise effects.KeyboardInterrupt) /\
    (forall s st,
        effects.sigint st <> None ->
        effects.sigint (snd (orchestrator.execute w s st)) = None ->
        fst (orchestrator.execute w s st)
        = effects.Raise effects.KeyboardInterrupt) /\
    (forall args k st1,
        effects.print banner_line (effects.initial (Some k))
        = (effects.Return tt, st1) ->
        effects.sigint
          (snd (orchestrator.execute w (app._build_settings w args) st1))
        = None ->
        app.process w args (Some k) = 1).
Proof.
  intros w. split; [|split].
  - intros files output_path st N H.
    destruct (surfaces_merge w files output_path st H); [contradiction|].
    assumption.
  - intros s st N H.
    destruct (surfaces_execute w s st H); [contradiction | assumption].
  - intros args k st1 B H.
    apply (app_process_interrupt w args (Some k) st1 B).
    destruct (surfaces_execute w _ st1 H) as [Q|R]; [|exact R].
    exfalso. unfold effects.print, effects.bind, effects.tick in B.
    simpl in B. destruct k as [|k]; [discriminate|].
    injection B as <-. discriminate.
Qed.

Lemma interrupt_is_not_swallowed_witness :
  fst (merger.merge (sample_world abc_root) abc_files ["out.pdf"%string]
         (effects.initial (Some 3)))
  = effects.Raise effects.KeyboardInterrupt /\
  app.process (sample_world abc_root) (args_for "docs") (Some 17) = 1.
Proof.
  destruct (interrupt_is_not_swallowed (sample_world abc_root)) as (M & _ & A).
  split.
  - apply M; [discriminate | vm_compute; reflexivity].
  - apply (A (args_for "docs") 17
             (snd (effects.print banner_line (effects.initial (Some 17))))).
    + reflexivity.
    + vm_compute. reflexivity.
Defined.

(** ** The exit status of the application *)

Section AppStatus.

Import effects world settings.

(** The directory exists or can be made, as a test. *)
Definition can_mkdir (w : World) (d : path.Path) : bool :=
  match fs.lookup (root w) d with
  | Some (fs.Dir _) => true
  | Some (fs.File _) => false
  | None => match mkdir_error w with None => true | Some _ => false end
  end.

Lemma can_mkdir_ok w d : can_mkdir w d = true -> mkdir_ok w d.
Proof.
  unfold can_mkdir, mkdir_ok.
  destruct (fs.lookup (root w) d) as [[c|es]|]; try easy.
  now destruct (mkdir_error w).
Qed.

Lemma mkdir_parents_fails w d :
  can_mkdir w d = false ->
  exists msg, forall out doc wr,
    orchestrator.mkdir_parents w d (quiet out doc wr)
    = (Raise (OtherException msg), quiet out doc wr).
Proof.
  unfold can_mkdir, orchestrator.mkdir_parents, bind. simpl.
  destruct (fs.lookup (root w) d) as [[c|es]|]; try discriminate.
  - intros _. now eexists.
  - destruct (mkdir_error w) as [msg|]; [|discriminate].
    intros _. now exists msg.
Qed.

Lemma execute_mkdir_fails w s out doc wr :
  fs.is_dir (root w) (folder_path s) = true ->
  scanner.scan (str_lower w) (root w) s <> [] ->
  can_mkdir w (target s) = false ->
  exists msg,
    fst (orchestrator.execute w s (quiet out doc wr))
    = Raise (OtherException msg).
Proof.
  intros D N K. unfold orchestrator.execute.
  rewrite (is_dir_exists _ _ D), D. cbv zeta. cbn [negb].
  rewrite (bind_return _ _ _ _ _ (print_quiet _ _ _ _)).
  rewrite (bind_return _ _ _ _ _ (print_quiet _ _ _ _)).
  rewrite (bind_return _ _ _ _ _ (tick_quiet _ _ _)).
  destruct (scanner.scan (str_lower w) (root w) s) as [|p0 files0]; [congruence|].
  rewrite (bind_return _ _ _ _ _ (print_quiet _ _ _ _)).
  unfold orchestrator._resolve_destination. fold (target s).
  destruct (mkdir_parents_fails w (target s) K) as [msg E].
  exists msg.
  erewrite bind_raise; [reflexivity|].
  erewrite bind_raise; [reflexivity | apply E].
Qed.

(** The status of a run without interrupt, read off the world. *)
Definition app_status (w : World) (s : MergeSettings) : nat :=
  if negb (fs.is_dir (root w) (folder_path s)) then 1
  else
    match scanner.scan (str_lower w) (root w) s with
    | [] => 0
    | _ :: _ =>
        if can_mkdir w (target s) then
          match PDF_IMPORT_ERROR w, write_error w with
          | None, None => 0
          | _, _ => 1
          end
        else 1
    end.

End AppStatus.

(** X12.  Without an interrupt, the application ends with status 0 when
    the source folder is a directory and either no document is found or
    the output directory exists or can be made, a PDF library is installed
    and the output can be written; it ends with status 1 in every other
    case. *)
Theorem app_exit_status_table :
  forall (w : world.World) (args : app.Args),
    app.process w args None = app_status w (app._build_settings w args).
Proof.
  intros w args. unfold app_status.
  set (s := app._build_settings w args).
  destruct (app_exit_status w args) as (V & E & M). fold s in V, E, M.
  destruct (fs.is_dir (world.root w) (settings.folder_path s)) eqn:D;
    cbn [negb]; [|now apply V].
  destruct (scanner.scan (world.str_lower w) (world.root w) s) as [|p0 files0] eqn:S;
    [now apply E|].
  assert (N : scanner.scan (world.str_lower w) (world.root w) s <> []) by (rewrite S; discriminate).
  destruct (can_mkdir w (target s)) eqn:K.
  - destruct (M eq_refl ltac:(discriminate) (can_mkdir_ok _ _ K))
      as (M0 & M1 & M2).
    destruct (world.PDF_IMPORT_ERROR w) as [m|] eqn:I.
    + apply M1. discriminate.
    + destruct (world.write_error w) as [m|] eqn:W.
      * apply M2; [reflexivity | discriminate].
      * now apply M0.
  - rewrite app_process_quiet. fold s.
    destruct (execute_mkdir_fails w s [banner_line] [] None D N K) as [msg ->].
    reflexivity.
Qed.

(** ** The standalone script and the application *)

Section ScriptWorkflow.

Import effects world settings.

(** The script makes the destination only when it does not exist. *)
Definition script_can_place (w : World) (s : MergeSettings) : bool :=
  match destination s with
  | Some d => fs.exists_ (root w) d || can_mkdir w d
  | None => true
  end.

(** What [main] does with the verdict of [merge_pdfs]. *)
Definition script_verdict (output_path : path.Path) (success : bool) : M unit :=
  if success then
    bind (print (console.success "Mission Accomplished!"))
      (fun _ => print (console.success
                         ("Your merged PDF is ready: " ++
                          path.name output_path)%string))
  else
    bind (print (console.error "Mission Failed!"))
      (fun _ =>
         bind (print (console.error
                        "Some errors occurred during the merge process."))
           (fun _ => pdf_merger.sys_exit 1)).

Definition script_files (w : World) (s : MergeSettings) : list path.Path :=
  pdf_merger.get_pdf_files w (folder_path s) (recursive s).

(** What [main] works with, as settings: the script resolves the folder
    and the destination with [Path(s).resolve()], without [expanduser]. *)
Definition script_settings (w : World) (args : app.Args) : MergeSettings :=
  {| folder_path := resolve w (app.arg_folder_path args);
     recursive := app.arg_recursive args;
     output_name := app.arg_output args;
     destination :=
       match app.arg_destination args with
       | Some (String c d) => Some (resolve w (String c d))
       | _ => None
       end |}.

(** The two entry points work with the same settings when [expanduser]
    leaves the folder and the destination of the command line as they
    are. *)
Lemma script_settings_agree w args :
  expanduser w (app.arg_folder_path args) = app.arg_folder_path args ->
  (forall d, app.arg_destination args = Some d -> expanduser w d = d) ->
  script_settings w args = app._build_settings w args.
Proof.
  intros F D. unfold script_settings, app._build_settings. rewrite F.
  destruct (app.arg_destination args) as [[|c d]|]; try reflexivity.
  now rewrite (D _ eq_refl).
Qed.

Lemma scan_of_script_files w s :
  scanner.scan (str_lower w) (root w) s = filter (fs.is_file (root w)) (script_files w s).
Proof. reflexivity. Qed.

(** A run of [main] that meets documents and can place its output goes on
    to [merge_pdfs] with the files of [get_pdf_files] and the output path
    the application would use. *)
Lemma main_reaches_merge w args out doc wr :
  let s := script_settings w args in
  fs.is_dir (root w) (folder_path s) = true ->
  script_files w s <> [] ->
  script_can_place w s = true ->
  exists log,
    pdf_merger.main w args (quiet out doc wr)
    = bind (pdf_merger.merge_pdfs w (script_files w s)
              (resolved_output_path w s))
        (script_verdict (resolved_output_path w s))
        (quiet (out ++ log) doc wr).
Proof.
  intros s D N K.
  unfold pdf_merger.main, pdf_merger.print_info, pdf_merger.print_success,
    pdf_merger.print_warning, pdf_merger.print_error.
  cbv zeta.
  change (resolve w (app.arg_folder_path args)) with (folder_path s).
  change (app.arg_recursive args) with (recursive s).
  rewrite (bind_return _ _ _ _ _ (print_quiet _ _ _ _)).
  rewrite (is_dir_exists _ _ D), D. cbn [negb].
  rewrite (bind_return _ _ _ _ _ (print_quiet _ _ _ _)).
  rewrite (bind_return _ _ _ _ _ (print_quiet _ _ _ _)).
  rewrite (bind_return _ _ _ _ _ (tick_quiet _ _ _)).
  fold (script_files w s).
  destruct (script_files w s) as [|p0 files0] eqn:F; [congruence|].
  rewrite (bind_return _ _ _ _ _ (print_quiet _ _ _ _)).
  assert (Hname :
            (if negb (pystr.endswith
                        (pystr.lower
                           match app.arg_output args with
                           | Some (String c n) =>
                               pdf_merger.sanitize_filename (String c n)
                           | _ => pdf_merger.sanitize_filename
                                    (path.name (folder_path s))
                           end) ".pdf")
             then (match app.arg_output args with
                   | Some (String c n) =>
                       pdf_merger.sanitize_filename (String c n)
                   | _ => pdf_merger.sanitize_filename
                            (path.name (folder_path s))
                   end ++ ".pdf")%string
             else match app.arg_output args with
                  | Some (String c n) =>
                      pdf_merger.sanitize_filename (String c n)
                  | _ => pdf_merger.sanitize_filename
                           (path.name (folder_path s))
                  end)
            = orchestrator._resolve_output_name s (folder_path s)).
  { unfold orchestrator._resolve_output_name, s. simpl.
    destruct (app.arg_output args) as [[|c n]|]; reflexivity. }
  rewrite Hname. clear Hname.
  set (name := orchestrator._resolve_output_name s (folder_path s)).
  assert (Hplace : forall o,
             (match app.arg_destination args with
              | Some (String c d) =>
                  bind (if negb (fs.exists_ (root w) (resolve w (String c d)))
                        then orchestrator.mkdir_parents w (resolve w (String c d))
                        else ret tt)
                    (fun _ => ret (path.joinpath (resolve w (String c d)) name))
              | _ => ret (path.joinpath (folder_path s) name)
              end) (quiet o doc wr)
             = (Return (raw_output_path s), quiet o doc wr)).
  { intros o. unfold raw_output_path, target, script_can_place in *.
    fold name. unfold s in K |- *. simpl in K |- *.
    destruct (app.arg_destination args) as [[|c d]|]; try reflexivity.
    destruct (fs.exists_ (root w) (resolve w (String c d))); cbn [negb].
    - reflexivity.
    - simpl in K.
      rewrite (bind_return _ _ _ _ _
                 (mkdir_parents_quiet w _ _ _ _ (can_mkdir_ok _ _ K))).
      reflexivity. }
  rewrite (bind_return _ _ _ _ _ (Hplace _)). clear Hplace.
  unfold resolved_output_path, file_utils.ensure_unique_output.
  destruct (fs.exists_ (root w) (raw_output_path s)) eqn:X; cbn [negb].
  - assert (Hren : forall o,
               bind (print (console.warning
                              ("Output file exists, using: " ++
                               path.name (pdf_merger.timestamped_path w
                                            (raw_output_path s)))%string))
                 (fun _ => ret (pdf_merger.timestamped_path w
                                  (raw_output_path s)))
                 (quiet o doc wr)
               = (Return (pdf_merger.timestamped_path w (raw_output_path s)),
                  quiet (o ++ [console.warning
                                 ("Output file exists, using: " ++
                                  path.name (pdf_merger.timestamped_path w
                                               (raw_output_path s)))%string])
                        doc wr)) by reflexivity.
    rewrite (bind_return _ _ _ _ _ (Hren _)). clear Hren.
    rewrite (bind_return _ _ _ _ _ (print_quiet _ _ _ _)).
    rewrite (bind_return _ _ _ _ _ (print_quiet _ _ _ _)).
    rewrite (bind_return _ _ _ _ _ (print_items_quiet _ _ _ _ _)).
    destruct (10 <? List.length (p0 :: files0)).
    + rewrite (bind_return _ _ _ _ _ (print_quiet _ _ _ _)).
      rewrite (bind_return _ _ _ _ _ (print_quiet _ _ _ _)).
      rewrite <- !app_assoc. eexists. reflexivity.
    + rewrite (bind_return _ _ _ tt _ eq_refl).
      rewrite (bind_return _ _ _ _ _ (print_quiet _ _ _ _)).
      rewrite <- !app_assoc. eexists. reflexivity.
  - rewrite (bind_return _ _ _ (raw_output_path s) _ eq_refl).
    rewrite (bind_return _ _ _ _ _ (print_quiet _ _ _ _)).
    rewrite (bind_return _ _ _ _ _ (print_quiet _ _ _ _)).
    rewrite (bind_return _ _ _ _ _ (print_items_quiet _ _ _ _ _)).
    destruct (10 <? List.length (p0 :: files0)).
    + rewrite (bind_return _ _ _ _ _ (print_quiet _ _ _ _)).
      rewrite (bind_return _ _ _ _ _ (print_quiet _ _ _ _)).
      rewrite <- !app_assoc. eexists. reflexivity.
    + rewrite (bind_return _ _ _ tt _ eq_refl).
      rewrite (bind_return _ _ _ _ _ (print_quiet _ _ _ _)).
      rewrite <- !app_assoc. eexists. reflexivity.
Qed.

End ScriptWorkflow.

Section ScriptRuns.

Import effects world settings.

Lemma merge_pdfs_write_error w files output_path out doc wr f :
  files <> [] -> write_error w = Some f ->
  exists log,
    pdf_merger.merge_pdfs w files output_path (quiet out doc wr)
    = (Return false,
       quiet (out ++ log) (merged_document w files)
         (after_write_failure f output_path wr)).
Proof.
  intros N W. destruct files as [|p0 files0]; [congruence|].
  unfold pdf_merger.merge_pdfs, pdf_merger.print_info,
    pdf_merger.print_success, pdf_merger.print_error.
  rewrite (bind_return _ _ _ _ _ (print_quiet _ _ _ _)).
  rewrite (bind_return _ _ _ _ _ (print_quiet _ _ _ _)).
  rewrite (bind_return _ _ (quiet _ doc wr) tt (quiet _ [] wr)) by reflexivity.
  rewrite (bind_return _ _ _ _ _
             (read_files_quiet w (List.length (p0 :: files0)) (p0 :: files0)
                0 0 _ [] wr)).
  unfold try_except.
  rewrite (bind_return _ _ _ _ _ (print_quiet _ _ _ _)).
  rewrite (bind_raise _ _ _ _ _ (write_pdf_fails w output_path _ _ _ f W)).
  cbn [is_Exception].
  rewrite (bind_return _ _ _ _ _ (print_quiet _ _ _ _)).
  unfold ret, merged_document, quiet. cbn [stdout app].
  rewrite <- ?app_assoc. eexists. reflexivity.
Qed.

Definition hint_log (w : World) : list line :=
  if HAS_TQDM w then []
  else [console.warning
          "Install 'tqdm' for beautiful progress bars: pip install tqdm"].

Lemma tqdm_hint_quiet w :
  tqdm_hint w (initial None) = (Return tt, quiet (hint_log w) [] None).
Proof. unfold tqdm_hint, hint_log. now destruct (HAS_TQDM w). Qed.

(** Without an interrupt and with a PDF library, the status of the script
    follows from how [main] ends. *)
Lemma script_process_quiet w args :
  PDF_IMPORT_ERROR w = None ->
  pdf_merger.process w args None
  = match fst (pdf_merger.main w args (quiet (hint_log w) [] None)) with
    | Return _ => 0
    | Raise (SystemExit code) => code
    | Raise KeyboardInterrupt => 0
    | Raise _ => 1
    end.
Proof.
  intros I.
  apply (script_exit_status w args None _ I (tqdm_hint_quiet w)).
  now apply delivered_main.
Qed.

(** A run of the script that meets no obstacle. *)
Lemma script_quiet w args :
  let s := script_settings w args in
  fs.is_dir (root w) (folder_path s) = true ->
  script_files w s <> [] ->
  script_can_place w s = true ->
  PDF_IMPORT_ERROR w = None -> write_error w = None ->
  exists log,
    pdf_merger.script w args (initial None)
    = (Return tt,
       quiet log (merged_document w (script_files w s))
         (Some (resolved_output_path w s,
                Document (merged_document w (script_files w s))))).
Proof.
  intros s D N K I W. unfold pdf_merger.script. rewrite I.
  fold (tqdm_hint w). rewrite (bind_return _ _ _ _ _ (tqdm_hint_quiet w)).
  destruct (main_reaches_merge w args (hint_log w) [] None D N K) as [log E].
  fold s in E. unfold try_except. rewrite E.
  rewrite (bind_return _ _ _ _ _ (merge_pdfs_quiet w _ _ _ _ _ N W)).
  unfold script_verdict.
  rewrite (bind_return _ _ _ _ _ (print_quiet _ _ _ _)).
  rewrite print_quiet. eexists. reflexivity.
Qed.

(** A run of the application that meets no obstacle. *)
Lemma run_quiet w args :
  let s := app._build_settings w args in
  fs.is_dir (root w) (folder_path s) = true ->
  scanner.scan (str_lower w) (root w) s <> [] ->
  mkdir_ok w (target s) ->
  PDF_IMPORT_ERROR w = None -> write_error w = None ->
  exists log,
    app.run w args (initial None)
    = (Return 0,
       quiet log (merged_document w (scanner.scan (str_lower w) (root w) s))
         (Some (resolved_output_path w s,
                Document (merged_document w (scanner.scan (str_lower w) (root w) s))))).
Proof.
  intros s D N K I W. unfold app.run. cbv zeta. fold s.
  rewrite (bind_return _ _ (initial None) tt (quiet [banner_line] [] None))
    by reflexivity.
  assert (T : try_except
                (bind (orchestrator.execute w s) (fun o => ret (inl o)))
                (fun exc =>
                   match exc with
                   | FileNotFoundError _ | NotADirectoryError _ =>
                       Some (bind (print (console.error (str_exn exc)))
                               (fun _ => ret (inr 1)))
                   | RuntimeError _ =>
                       Some (bind (print (console.error (str_exn exc)))
                               (fun _ => ret (inr 1)))
                   | KeyboardInterrupt =>
                       Some (bind (print (console.warning
                                            "Operation cancelled by user"))
                               (fun _ => ret (inr 1)))
                   | OtherException _ =>
                       Some (bind (print (console.error
                                            ("Unexpected error: " ++
                                             str_exn exc)%string))
                               (fun _ => ret (inr 1)))
                   | SystemExit _ => None
                   end) (quiet [banner_line] [] None)
              = (Return (inl (Some (merge_outcome w (scanner.scan (str_lower w) (root w) s)
                                      (resolved_output_path w s)))),
                 snd (orchestrator.execute w s (quiet [banner_line] [] None)))).
  { unfold try_except.
    rewrite (bind_return _ _ _ _ _ (execute_quiet w s _ _ _ D N K I W)).
    rewrite (execute_quiet w s _ _ _ D N K I W). reflexivity. }
  rewrite (bind_return _ _ _ _ _ T). clear T.
  rewrite (execute_quiet w s _ _ _ D N K I W). cbn [snd].
  rewrite (bind_return _ _ _ _ _ (print_quiet _ _ _ _)).
  rewrite (bind_return _ _ _ _ _ (print_quiet _ _ _ _)).
  rewrite (bind_return _ _ _ _ _ (print_quiet _ _ _ _)).
  rewrite (bind_return _ _ _ _ _ (print_quiet _ _ _ _)).
  eexists. reflexivity.
Qed.

End ScriptRuns.

Section ScriptStatus.

Import effects world settings.

Lemma mkdir_ok_can w d : mkdir_ok w d -> can_mkdir w d = true.
Proof.
  unfold can_mkdir, mkdir_ok.
  destruct (fs.lookup (root w) d) as [[c|es]|]; try easy.
  now intros ->.
Qed.

Lemma script_can_place_of_mkdir_ok w s :
  mkdir_ok w (target s) -> script_can_place w s = true.
Proof.
  unfold script_can_place, target. destruct (destination s) as [d|];
    [|reflexivity].
  intros K. rewrite (mkdir_ok_can w d K). apply orb_true_r.
Qed.

Lemma script_files_of_scan w s :
  scanner.scan (str_lower w) (root w) s <> [] -> script_files w s <> [].
Proof.
  rewrite scan_of_script_files. intros N E. apply N. now rewrite E.
Qed.

Lemma execute_nothing_quiet w s out doc wr :
  fs.is_dir (root w) (folder_path s) = true ->
  scanner.scan (str_lower w) (root w) s = [] ->
  exists log,
    orchestrator.execute w s (quiet out doc wr)
    = (Return None, quiet (out ++ log) doc wr).
Proof.
  intros D S. unfold orchestrator.execute.
  rewrite (is_dir_exists _ _ D), D. cbv zeta. cbn [negb].
  rewrite (bind_return _ _ _ _ _ (print_quiet _ _ _ _)).
  rewrite (bind_return _ _ _ _ _ (print_quiet _ _ _ _)).
  rewrite (bind_return _ _ _ _ _ (tick_quiet _ _ _)).
  rewrite S.
  rewrite (bind_return _ _ _ _ _ (print_quiet _ _ _ _)).
  destruct (recursive s); cbn [negb].
  - rewrite (bind_return _ _ _ tt _ eq_refl). unfold ret.
    rewrite <- !app_assoc. eexists. reflexivity.
  - rewrite (bind_return _ _ _ _ _ (print_quiet _ _ _ _)). unfold ret.
    rewrite <- !app_assoc. eexists. reflexivity.
Qed.

(** How [main] ends when it does not reach the merge. *)
Lemma main_stops_early w args out doc wr :
  let s := script_settings w args in
  (fs.is_dir (root w) (folder_path s) = false ->
   fst (pdf_merger.main w args (quiet out doc wr)) = Raise (SystemExit 1)) /\
  (fs.is_dir (root w) (folder_path s) = true ->
   script_files w s = [] ->
   fst (pdf_merger.main w args (quiet out doc wr)) = Raise (SystemExit 0)) /\
  (fs.is_dir (root w) (folder_path s) = true ->
   script_files w s <> [] ->
   script_can_place w s = false ->
   exists msg,
     fst (pdf_merger.main w args (quiet out doc wr))
     = Raise (OtherException msg)).
Proof.
  intros s.
  unfold pdf_merger.main, pdf_merger.print_info, pdf_merger.print_success,
    pdf_merger.print_warning, pdf_merger.print_error.
  cbv zeta.
  change (resolve w (app.arg_folder_path args)) with (folder_path s).
  change (app.arg_recursive args) with (recursive s).
  rewrite (bind_return _ _ _ _ _ (print_quiet _ _ _ _)).
  fold (script_files w s).
  split; [|split].
  - intros D. rewrite D.
    destruct (fs.exists_ (root w) (folder_path s)); reflexivity.
  - intros D F. rewrite (is_dir_exists _ _ D), D, F. cbn [negb].
    rewrite (bind_return _ _ _ _ _ (print_quiet _ _ _ _)).
    rewrite (bind_return _ _ _ _ _ (print_quiet _ _ _ _)).
    rewrite (bind_return _ _ _ _ _ (tick_quiet _ _ _)).
    rewrite (bind_return _ _ _ _ _ (print_quiet _ _ _ _)).
    destruct (recursive s); reflexivity.
  - intros D N K. rewrite (is_dir_exists _ _ D), D. cbn [negb].
    rewrite (bind_return _ _ _ _ _ (print_quiet _ _ _ _)).
    rewrite (bind_return _ _ _ _ _ (print_quiet _ _ _ _)).
    rewrite (bind_return _ _ _ _ _ (tick_quiet _ _ _)).
    destruct (script_files w s) as [|p0 files0]; [congruence|].
    rewrite (bind_return _ _ _ _ _ (print_quiet _ _ _ _)).
    unfold script_can_place, s in K. simpl in K.
    destruct (app.arg_destination args) as [[|c d]|]; try discriminate.
    apply orb_false_iff in K as [X C]. rewrite X. cbn [negb].
    destruct (mkdir_parents_fails w _ C) as [msg E].
    exists msg.
    erewrite bind_raise; [reflexivity|].
    erewrite bind_raise; [reflexivity | apply E].
Qed.

(** The status of a run of the script without interrupt, read off the
    world. *)
Definition script_status (w : World) (s : MergeSettings) : nat :=
  match PDF_IMPORT_ERROR w with
  | Some _ => 1
  | None =>
      if negb (fs.is_dir (root w) (folder_path s)) then 1
      else
        match script_files w s with
        | [] => 0
        | _ :: _ =>
            if script_can_place w s then
              match write_error w with None => 0 | Some _ => 1 end
            else 1
        end
  end.

End ScriptStatus.

(** ** Failures and the disk *)

Section FailureOnDisk.

Import effects world.



End FailureOnDisk.




(** X13.  For a command line whose folder and destination [expanduser]
    leaves as they are (no home directory shorthand; the script does not
    expand it, the application does): on a run that meets no obstacle and
    finds a document, the application and the standalone script write the
    same document to the same path: the pages the discovered regular files
    append, at the resolved output path. *)
Theorem script_and_application_write_the_same :
  forall (w : world.World) (args : app.Args),
    let s := app._build_settings w args in
    world.expanduser w (app.arg_folder_path args) = app.arg_folder_path args ->
    (forall d, app.arg_destination args = Some d -> world.expanduser w d = d) ->
    fs.is_dir (world.root w) (settings.folder_path s) = true ->
    scanner.scan (world.str_lower w) (world.root w) s <> [] ->
    mkdir_ok w (target s) ->
    world.PDF_IMPORT_ERROR w = None ->
    world.write_error w = None ->
    exists sta sts,
      app.run w args (effects.initial None) = (effects.Return 0, sta) /\
      pdf_merger.script w args (effects.initial None)
      = (effects.Return tt, sts) /\
      effects.written sta = effects.written sts /\
      effects.written sta
      = Some (resolved_output_path w s,
              effects.Document (merged_document w (scanner.scan (world.str_lower w) (world.root w) s))).
Proof.
  intros w args s Xf Xd D N K I W.
  destruct (run_quiet w args D N K I W) as [la Ea].
  pose proof (script_quiet w args) as Es. cbv zeta in Es.
  rewrite (script_settings_agree w args Xf Xd) in Es. fold s in Es.
  destruct (Es D (script_files_of_scan w s N)
              (script_can_place_of_mkdir_ok w s K) I W) as [ls Es'].
  clear Es. rename Es' into Es.
  fold s in Ea.
  eexists. eexists. split; [exact Ea|]. split; [exact Es|].
  cbn [quiet effects.written].
  rewrite scan_of_script_files, merged_document_filter. split; reflexivity.
Qed.

Lemma script_and_application_write_the_same_witness :
  exists sta sts,
    app.run (sample_world abc_root) (args_for "docs") (effects.initial None)
    = (effects.Return 0, sta) /\
    pdf_merger.script (sample_world abc_root) (args_for "docs")
      (effects.initial None) = (effects.Return tt, sts) /\
    effects.written sta = Some (["docs"; "docs.pdf"]%string,
                                effects.Document [11; 12; 13; 21; 22]) /\
    effects.written sts = Some (["docs"; "docs.pdf"]%string,
                                effects.Document [11; 12; 13; 21; 22]).
Proof.
  destruct (script_and_application_write_the_same (sample_world abc_root)
              (args_for "docs") eq_refl ltac:(discriminate)
              eq_refl ltac:(vm_compute; discriminate)
              I eq_refl eq_refl)
    as (sta & sts & Ea & Es & Eq & Wa).
  exists sta, sts. split; [exact Ea|]. split; [exact Es|].
  assert (V : effects.written sta
              = Some (["docs"; "docs.pdf"]%string, effects.Document [11; 12; 13; 21; 22])).
  { rewrite Wa. vm_compute. reflexivity. }
  split; [exact V | now rewrite <- Eq].
Defined.

(** A folder whose only entries matching the pattern are directories. *)
Definition folders_root : fs.node :=
  fs.Dir [("docs"%string,
           fs.Dir [("old.pdf"%string, fs.Dir [("a.txt"%string, corrupt "text")]);
                   ("notes.txt"%string, corrupt "text")])].

(** X14.  For a command line whose folder and destination [expanduser]
    leaves as they are: when every entry that matches the pattern is not a
    regular file (a directory named like a document), the application finds
    nothing, returns status 0 and writes nothing; the standalone script,
    which does not test for regular files, takes the entries as its inputs,
    fails on each of them and writes a document without pages. *)
Theorem script_merges_entries_that_are_no_files :
  forall (w : world.World) (args : app.Args),
    let s := app._build_settings w args in
    world.expanduser w (app.arg_folder_path args) = app.arg_folder_path args ->
    (forall d, app.arg_destination args = Some d -> world.expanduser w d = d) ->
    fs.is_dir (world.root w) (settings.folder_path s) = true ->
    script_files w s <> [] ->
    scanner.scan (world.str_lower w) (world.root w) s = [] ->
    script_can_place w s = true ->
    world.PDF_IMPORT_ERROR w = None ->
    world.write_error w = None ->
    exists sta sts,
      app.run w args (effects.initial None) = (effects.Return 0, sta) /\
      effects.written sta = None /\
      pdf_merger.script w args (effects.initial None)
      = (effects.Return tt, sts) /\
      effects.written sts = Some (resolved_output_path w s, effects.Document []).
Proof.
  intros w args s Xf Xd D N S K I W.
  pose proof (script_quiet w args) as Es. cbv zeta in Es.
  rewrite (script_settings_agree w args Xf Xd) in Es. fold s in Es.
  destruct (Es D N K I W) as [ls Es']. clear Es. rename Es' into Es.
  destruct (execute_nothing_quiet w s [banner_line] [] None D S) as [la Ea].
  eexists. eexists. split; [|split; [|split; [exact Es|]]].
  - unfold app.run. cbv zeta. fold s.
    rewrite (bind_return _ _ (effects.initial None) tt
               (quiet [banner_line] [] None)) by reflexivity.
    unfold effects.try_except, effects.bind. rewrite Ea. reflexivity.
  - reflexivity.
  - cbn [quiet effects.written].
    rewrite <- (merged_document_filter w (script_files w s)).
    rewrite <- scan_of_script_files, S. reflexivity.
Qed.

Lemma script_merges_entries_that_are_no_files_witness :
  exists sta sts,
    app.run (sample_world folders_root) (args_for "docs") (effects.initial None)
    = (effects.Return 0, sta) /\
    effects.written sta = None /\
    pdf_merger.script (sample_world folders_root) (args_for "docs")
      (effects.initial None) = (effects.Return tt, sts) /\
    effects.written sts = Some (["docs"; "docs.pdf"]%string, effects.Document []).
Proof.
  destruct (script_merges_entries_that_are_no_files
              (sample_world folders_root) (args_for "docs")
              eq_refl ltac:(discriminate)
              eq_refl ltac:(vm_compute; discriminate)
              ltac:(vm_compute; reflexivity) eq_refl eq_refl eq_refl)
    as (sta & sts & Ea & Wa & Es & Ws).
  exists sta, sts. split; [exact Ea|]. split; [exact Wa|].
  split; [exact Es|]. rewrite Ws. vm_compute. reflexivity.
Defined.

(** X15.  Without an interrupt, the standalone script, which resolves
    its paths without [expanduser], ends with status 1
    when no PDF library is installed or the source folder is no directory;
    otherwise with status 0 when nothing matches the pattern; otherwise
    with status 0 when the destination exists or can be made and the
    output can be written, and with status 1 when not. *)
Theorem script_exit_status_table :
  forall (w : world.World) (args : app.Args),
    pdf_merger.process w args None
    = script_status w (script_settings w args).
Proof.
  intros w args. unfold script_status.
  set (s := script_settings w args).
  destruct (world.PDF_IMPORT_ERROR w) as [m|] eqn:I.
  - unfold pdf_merger.process, pdf_merger.script. rewrite I. reflexivity.
  - rewrite (script_process_quiet w args I).
    destruct (main_stops_early w args (hint_log w) [] None) as (V & E & M).
    fold s in V, E, M.
    destruct (fs.is_dir (world.root w) (settings.folder_path s)) eqn:D;
      cbn [negb]; [|now rewrite (V eq_refl)].
    destruct (script_files w s) as [|p0 files0] eqn:F;
      [now rewrite (E eq_refl eq_refl)|].
    assert (N : script_files w s <> []) by (rewrite F; discriminate).
    destruct (script_can_place w s) eqn:K.
    + destruct (main_reaches_merge w args (hint_log w) [] None D N K)
        as [log R]. fold s in R. rewrite R.
      destruct (world.write_error w) as [msg|] eqn:W.
      * destruct (merge_pdfs_write_error w (script_files w s)
                    (resolved_output_path w s) (hint_log w ++ log) [] None msg
                    N W) as [log' P].
        rewrite (bind_return _ _ _ _ _ P). unfold script_verdict.
        rewrite (bind_return _ _ _ _ _ (print_quiet _ _ _ _)).
        rewrite (bind_return _ _ _ _ _ (print_quiet _ _ _ _)).
        reflexivity.
      * rewrite (bind_return _ _ _ _ _ (merge_pdfs_quiet w _ _ _ _ _ N W)).
        unfold script_verdict.
        rewrite (bind_return _ _ _ _ _ (print_quiet _ _ _ _)).
        rewrite print_quiet. reflexivity.
    + destruct (M eq_refl ltac:(discriminate) eq_refl) as [msg ->].
      reflexivity.
Qed.

Lemma name_below (folder rel : path.Path) :
  rel <> [] -> path.name (folder ++ rel) = path.name rel.
Proof.
  intros N. unfold path.name.
  induction folder as [|c folder IH]; [reflexivity|].
  simpl. destruct (folder ++ rel) eqn:E; [|exact IH].
  apply app_eq_nil in E as [_ E]. congruence.
Qed.

(** X16.  Whatever the folder is, every path the scan returns is a regular
    file strictly below the folder whose name ends with the extension; and
    the scan of a path that is no directory is empty. *)
Theorem scan_returns_documents_only :
  forall (lower : string -> string) (root : fs.node)
         (s : settings.MergeSettings),
    (forall p,
        In p (scanner.scan lower root s) ->
        fs.is_file root p = true /\
        pystr.endswith (path.name p) ".pdf" = true /\
        exists rel, rel <> [] /\ p = settings.folder_path s ++ rel) /\
    (fs.is_dir root (settings.folder_path s) = false ->
     scanner.scan lower root s = []).
Proof.
  intros lower root s. split.
  - intros p H. apply scan_In in H as [G F]. split; [exact F|].
    unfold fs.glob in G.
    destruct (fs.lookup root (settings.folder_path s)) as [[c|es]|];
      try destruct G.
    destruct (settings.recursive s).
    + apply rglob_sound in G as (rel & Hne & -> & M). split.
      * now rewrite name_below.
      * now exists rel.
    + apply glob_star_pdf_In in G as (nm & n & -> & _ & M). split.
      * now rewrite name_joinpath.
      * exists [nm]. split; [discriminate | reflexivity].
  - intros D. unfold scanner.scan, fs.glob. unfold fs.is_dir in D.
    destruct (fs.lookup root (settings.folder_path s)) as [[c|es]|];
      try reflexivity. discriminate.
Qed.

Lemma scan_returns_documents_only_witness :
  fs.is_file mixed_root ["docs"; "a.pdf"]%string = true /\
  ~ In ["docs"; "x.pdf"]%string (scanner.scan pystr.lower mixed_root (flat_settings "docs")) /\
  scanner.scan pystr.lower mixed_root (flat_settings "nowhere") = [].
Proof.
  destruct (scan_returns_documents_only pystr.lower mixed_root (flat_settings "docs"))
    as [S _].
  destruct (scan_returns_documents_only pystr.lower mixed_root (flat_settings "nowhere"))
    as [_ E].
  split; [|split].
  - apply (S ["docs"; "a.pdf"]%string). vm_compute. now left.
  - intros H. apply S in H as [F _]. vm_compute in F. discriminate.
  - apply E. reflexivity.
Defined.

(** ** Timestamps tell times apart *)

Section TimestampInjective.

Local Open Scope string_scope.
Import file_utils.

Lemma append_inj_length (a a' : string) : forall b b',
  String.length a = String.length a' ->
  a ++ b = a' ++ b' -> a = a' /\ b = b'.
Proof.
  revert a'. induction a as [|x a IH]; intros [|y a'] b b' L H;
    simpl in *; try discriminate.
  - now split.
  - injection H as -> H. injection L as L.
    destruct (IH a' b b' L H) as [-> ->]. now split.
Qed.

Lemma strftime_injective t1 t2 :
  valid_datetime t1 -> valid_datetime t2 ->
  strftime_TIMESTAMP_PATTERN t1 = strftime_TIMESTAMP_PATTERN t2 ->
  t1 = t2.
Proof.
  intros (Y1 & M1 & D1 & H1 & Mi1 & S1) (Y2 & M2 & D2 & H2 & Mi2 & S2) E.
  unfold strftime_TIMESTAMP_PATTERN in E.
  apply append_inj_length in E as [Ey E];
    [|rewrite !padded_length_4 by lia; reflexivity].
  apply append_inj_length in E as [Em E];
    [|rewrite !padded_length_2 by lia; reflexivity].
  apply append_inj_length in E as [Ed E];
    [|rewrite !padded_length_2 by lia; reflexivity].
  apply append_inj_length in E as [_ E]; [|reflexivity].
  apply append_inj_length in E as [Eh E];
    [|rewrite !padded_length_2 by lia; reflexivity].
  apply append_inj_length in E as [Emi Es];
    [|rewrite !padded_length_2 by lia; reflexivity].
  apply (f_equal digits_value) in Ey, Em, Ed, Eh, Emi, Es.
  rewrite !padded_4_value in Ey by lia.
  rewrite !padded_2_value in Em, Ed, Eh, Emi, Es by lia.
  destruct t1, t2. simpl in *. congruence.
Qed.

Lemma strftime_length t :
  valid_datetime t -> String.length (strftime_TIMESTAMP_PATTERN t) = 15.
Proof.
  intros V. rewrite strftime_parts, !length_append.
  destruct (date_part_digits t V) as [-> _].
  destruct (time_part_digits t V) as [-> _]. reflexivity.
Qed.

End TimestampInjective.

(** X17.  For a path [destination / name] that exists, two valid times
    that differ in a field the pattern prints (year, month, day, hour,
    minute or second) give two different renamed paths. *)
Theorem renamed_paths_differ_with_time :
  forall (root : fs.node) (t1 t2 : file_utils.datetime)
         (destination : path.Path) (name : string),
    file_utils.valid_datetime t1 ->
    file_utils.valid_datetime t2 ->
    fs.exists_ root (path.joinpath destination name) = true ->
    t1 <> t2 ->
    file_utils.ensure_unique_output root t1 (path.joinpath destination name)
    <> file_utils.ensure_unique_output root t2 (path.joinpath destination name).
Proof.
  intros root t1 t2 destination name V1 V2 X N H. apply N.
  unfold file_utils.ensure_unique_output, path.with_name, path.stem,
    constants.PDF_EXTENSION in H.
  rewrite X, parent_joinpath, name_joinpath in H. cbn [negb] in H.
  apply app_inv_head in H. injection H as H.
  apply append_inv_head in H. injection H as H.
  apply append_inj_length in H as [H _];
    [|now rewrite !strftime_length].
  now apply strftime_injective.
Qed.

Definition sample_later : file_utils.datetime :=
  file_utils.Build_datetime 2024 3 7 9 5 1.

Lemma renamed_paths_differ_with_time_witness :
  file_utils.ensure_unique_output sample_root sample_now
    ["docs"; "Report.pdf"]%string
  <> file_utils.ensure_unique_output sample_root sample_later
       ["docs"; "Report.pdf"]%string.
Proof.
  assert (V : file_utils.valid_datetime sample_later).
  { unfold file_utils.valid_datetime, sample_later. simpl.
    repeat split; try (apply Nat.leb_le; reflexivity);
      apply Nat.ltb_lt; reflexivity. }
  apply (renamed_paths_differ_with_time sample_root sample_now sample_later
           ["docs"%string] "Report.pdf" sample_now_valid V eq_refl).
  discriminate.
Defined.

(** ** A resolved name resolves to itself *)

Section ResolveAgain.

Local Open Scope string_scope.
Import file_utils.

Lemma no_run_append_pdf a : no_run a = true -> no_run (a ++ ".pdf") = true.
Proof.
  induction a as [|c a IH]; [reflexivity|].
  destruct a as [|d a].
  - intros _. change (no_run (String c ".pdf") = true).
    rewrite no_run_cons.
    replace (Ascii.eqb "." underscore) with false by reflexivity.
    now rewrite andb_false_r.
  - rewrite no_run_cons.
    change ((String c (String d a)) ++ ".pdf")
      with (String c (String d (a ++ ".pdf"))).
    rewrite no_run_cons. rewrite !andb_true_iff. intros [E H].
    split; [exact E | exact (IH H)].
Qed.

Lemma head_kept_append_pdf a :
  head_kept "_ " a = true -> head_kept "_ " (a ++ ".pdf") = true.
Proof. now destruct a. Qed.

Lemma last_kept_append_pdf a : last_kept "_ " (a ++ ".pdf") = true.
Proof.
  induction a as [|c a IH]; [reflexivity|].
  destruct a as [|d a]; [reflexivity | exact IH].
Qed.

Lemma sanitize_fixed s :
  all_chars legal s = true -> no_run s = true ->
  head_kept "_ " s = true -> last_kept "_ " s = true ->
  sanitize_filename s = s.
Proof.
  intros L R H T. rewrite (sanitize_of_clean s L R).
  unfold pystr.strip. rewrite (lstrip_fixed _ _ H). now apply rstrip_fixed.
Qed.

(** A sanitized name with its extension is a fixed point of both steps. *)
Lemma resolved_is_fixed x :
  let r := ensure_pdf_extension (sanitize_filename x) in
  sanitize_filename r = r /\ ensure_pdf_extension r = r /\
  exists c n, r = String c n.
Proof.
  intros r. subst r.
  set (b := sanitize_filename x).
  assert (L : all_chars legal b = true) by apply sanitize_legal.
  assert (R : no_run b = true) by apply sanitize_no_run.
  assert (H : head_kept "_ " b = true).
  { unfold b, sanitize_filename, pystr.strip.
    apply rstrip_head_kept, lstrip_head_kept. }
  assert (T : last_kept "_ " b = true).
  { unfold b, sanitize_filename, pystr.strip. apply rstrip_last_kept. }
  assert (U : forall t, ensure_pdf_extension t
                        = if pystr.endswith (pystr.lower t) ".pdf"
                          then t else t ++ ".pdf").
  { intros t. unfold ensure_pdf_extension, constants.PDF_EXTENSION.
    now destruct (pystr.endswith (pystr.lower t) ".pdf"). }
  rewrite (U b).
  destruct (pystr.endswith (pystr.lower b) ".pdf") eqn:E.
  - split; [now apply sanitize_fixed|]. split.
    + now rewrite U, E.
    + destruct b as [|c n]; [discriminate | now exists c, n].
  - split; [|split].
    + apply sanitize_fixed.
      * rewrite all_chars_append, L. reflexivity.
      * now apply no_run_append_pdf.
      * now apply head_kept_append_pdf.
      * apply last_kept_append_pdf.
    + now rewrite U, lower_append, endswith_append.
    + destruct b as [|c n];
        [now exists "."%char, "pdf" | now exists c, (n ++ ".pdf")].
Qed.

End ResolveAgain.

(** X18.  A resolved output name resolves to itself: given back as the
    output name, with any folder, it is returned unchanged. *)
Theorem resolved_name_resolves_to_itself :
  forall (s s' : settings.MergeSettings) (folder folder' : path.Path),
    settings.output_name s'
    = Some (orchestrator._resolve_output_name s folder) ->
    orchestrator._resolve_output_name s' folder'
    = orchestrator._resolve_output_name s folder.
Proof.
  intros s s' folder folder' H.
  rewrite (resolve_output_name_base s folder) in *.
  destruct (resolved_is_fixed (base_name s folder)) as (S & E & c & n & Hr).
  cbv zeta in *. unfold orchestrator._resolve_output_name. rewrite H, Hr.
  rewrite <- Hr. now rewrite S, E.
Qed.

Lemma resolved_name_resolves_to_itself_witness :
  orchestrator._resolve_output_name
    (settings.Build_MergeSettings ["docs"%string] false
       (Some "__My: Report__"%string) None) ["docs"%string]
  = "My_ Report.pdf"%string /\
  orchestrator._resolve_output_name
    (settings.Build_MergeSettings ["other"%string] true
       (Some "My_ Report.pdf"%string) None) ["other"%string]
  = "My_ Report.pdf"%string.
Proof.
  split; [reflexivity|].
  apply (resolved_name_resolves_to_itself
           (settings.Build_MergeSettings ["docs"%string] false
              (Some "__My: Report__"%string) None)
           (settings.Build_MergeSettings ["other"%string] true
              (Some "My_ Report.pdf"%string) None)
           ["docs"%string] ["other"%string]).
  reflexivity.
Defined.
